(** * ETF trading assistant: budget ledger, ranking and decision policy

    A shallow embedding of the decision engine of the ETF trading
    assistant (budget manager, [Utils] calculation helpers and
    [TradingStrategy]) together with the properties its specification
    states about it.

    Conventions of the embedding.
    - A JavaScript number that carries money, a price or a percentage is a
      rational [Q] in the first embedding; arithmetic is exact there, and
      what is stated of a computed amount names the expression the code
      computes it by.  Every division of the modelled code is either
      guarded by the code itself ([dma === 0], [oldValue === 0]) or is
      used under an explicit non-zero assumption.
    - The decisions that compare a rounded amount with a threshold (the
      sell decision, averaging down, the recommended quantity, the guard
      of [recordInvestment]) are embedded a second time on binary64
      numbers, in [Binary64], and settled there.
    - A [Date] is its time value: milliseconds since the epoch, in [Z].
      Calendar fields are read in UTC, so [setDate(getDate() + 1)] adds
      one day of [msPerDay] milliseconds.  The clock ([new Date()]) is a
      parameter [now].
    - The budget manager is a mutable object; its methods live in a small
      state-and-exception monad in which a [throw] keeps the mutations
      made before it.
    - The remote store (Supabase) and the DOM are collaborators: a write
      that is awaited may reject, which is the flag [supabase]; text shown
      to the user (reason strings, notifications) is not modelled. *)

From Stdlib Require Import ZArith QArith Qround Lqa Lia List Bool String.
From Stdlib Require Import Permutation Sorted.
From Stdlib Require Import Floats.
Import ListNotations.

Local Open Scope Q_scope.

(** ** JavaScript built-ins used by the code *)
Module JS.

(** [a < b] on numbers. *)
Definition ltb (a b : Q) : bool := negb (Qle_bool b a).
(** [a <= b], [a > b] and [a === b] on numbers. *)
Definition leb (a b : Q) : bool := Qle_bool a b.
Definition gtb (a b : Q) : bool := ltb b a.
Definition eqb (a b : Q) : bool := Qeq_bool a b.

(** [Math.floor], on a quantity that the code then uses as a count. *)
Definition floor (x : Q) : Z := Qfloor x.

(** [Array.prototype.includes] on an array of ids. *)
Definition includes (l : list string) (x : string) : bool :=
  existsb (String.eqb x) l.

(** [Array.prototype.find]. *)
Definition find {A} (p : A -> bool) (l : list A) : option A := List.find p l.

(** [Array.prototype.sort(comparefn)].  The sort is stable and, for a
    consistent comparator, its result is the unique stable arrangement:
    [a] is moved behind [b] only when [comparefn a b > 0].  It is
    written as a stable insertion sort. *)
Section Sort.
Context {A : Type} (comparefn : A -> A -> Q).

Fixpoint insert (x : A) (l : list A) : list A :=
  match l with
  | [] => [x]
  | y :: l' => if gtb (comparefn x y) 0 then y :: insert x l'
               else x :: y :: l'
  end.

Fixpoint sort (l : list A) : list A :=
  match l with
  | [] => []
  | x :: l' => insert x (sort l')
  end.
End Sort.

(** [array.map((x, index) => f x index)], indices counted from [i]. *)
Fixpoint mapi_from {A B} (f : A -> nat -> B) (i : nat) (l : list A) : list B :=
  match l with
  | [] => []
  | x :: l' => f x i :: mapi_from f (S i) l'
  end.
Definition mapi {A B} (f : A -> nat -> B) (l : list A) : list B :=
  mapi_from f 0 l.

(** *** Dates *)
Definition msPerDay : Z := 86400000.

(** [date.getDay()]: 0 is Sunday, 6 is Saturday; 1 January 1970 was a
    Thursday. *)
Definition getDay (t : Z) : Z := ((t / msPerDay) + 4) mod 7.

(** [date.setDate(date.getDate() + 1)]. *)
Definition nextDay (t : Z) : Z := (t + msPerDay)%Z.

(** [Math.max(a, b)] on numbers. *)
Definition max (a b : Q) : Q := if leb a b then b else a.

(** [x || fallback] on a number: the fallback stands in for 0. *)
Definition orElse (x fallback : Q) : Q := if eqb x 0 then fallback else x.

(** [date.setHours(0, 0, 0, 0)]: the start of the day of [t]. *)
Definition startOfDay (t : Z) : Z := (t / msPerDay * msPerDay)%Z.

(** [new Date(value).getTime()] for a nullable date column: [null] is
    the epoch. *)
Definition dateOf (d : option Z) : Z :=
  match d with Some t => t | None => 0%Z end.

(** A nullable number in arithmetic: [null] counts as 0. *)
Definition numberOf (x : option Q) : Q :=
  match x with Some q => q | None => 0 end.

(** The truth value of a nullable number: neither [null] nor 0. *)
Definition truthy (x : option Q) : bool :=
  match x with Some q => negb (eqb q 0) | None => false end.

End JS.

(** ** utils.js *)
Module Utils.

(** [Utils.calculatePercentageChange(oldValue, newValue)]. *)
Definition calculatePercentageChange (oldValue newValue : Q) : Q :=
  if JS.eqb oldValue 0 then 0
  else ((newValue - oldValue) / oldValue) * 100.

(** [Utils.calculateDeviation(cmp, dma)]. *)
Definition calculateDeviation (cmp dma : Q) : Q :=
  if JS.eqb dma 0 then 0
  else ((cmp - dma) / dma) * 100.

(** The test [getDay() !== 0 && getDay() !== 6] of the day loops. *)
Definition notWeekend (t : Z) : bool :=
  negb (JS.getDay t =? 0)%Z && negb (JS.getDay t =? 6)%Z.

(** The [while (daysAdded < tradingDays)] loop of [calculateEndDate];
    [None] when the iteration budget is used up before the loop exits. *)
Fixpoint endDateLoop (fuel : nat) (currentDate daysAdded tradingDays : Z)
  : option Z :=
  if (daysAdded <? tradingDays)%Z then
    match fuel with
    | O => None
    | S fuel' =>
        let currentDate' := JS.nextDay currentDate in
        let daysAdded' :=
          if notWeekend currentDate' then (daysAdded + 1)%Z else daysAdded in
        endDateLoop fuel' currentDate' daysAdded' tradingDays
    end
  else Some currentDate.

(** [Utils.calculateEndDate(startDate, tradingDays)].  Every trading day
    added costs at most three turns of the loop (a Friday start). *)
Definition calculateEndDate (startDate tradingDays : Z) : option Z :=
  endDateLoop (3 * Z.to_nat tradingDays) startDate 0 tradingDays.

(** [Utils.isWeekend(date)]. *)
Definition isWeekend (t : Z) : bool :=
  (JS.getDay t =? 0)%Z || (JS.getDay t =? 6)%Z.

(** [Utils.daysBetween(startDate, endDate)]: the absolute difference of
    the two time values in days, rounded up. *)
Definition daysBetween (startDate endDate : Z) : Z :=
  let diffTime := Z.abs (endDate - startDate) in
  Qceiling (inject_Z diffTime / inject_Z (1000 * 60 * 60 * 24)).

End Utils.

(** ** The budget manager (class [BudgetManager]) *)
Module BudgetManager.

(** [this.config], once a budget is set. *)
Record Config : Type := mkConfig {
  totalBudget : Q;
  dailyAmount : Q;
  startDate : Z;
  usedAmount : Q;
  reinvestedProfit : Q;
  daysCompleted : Z;
  createdDate : Z
}.

Definition set_totalBudget (v : Q) (c : Config) : Config :=
  mkConfig v (dailyAmount c) (startDate c) (usedAmount c)
           (reinvestedProfit c) (daysCompleted c) (createdDate c).
Definition set_dailyAmount (v : Q) (c : Config) : Config :=
  mkConfig (totalBudget c) v (startDate c) (usedAmount c)
           (reinvestedProfit c) (daysCompleted c) (createdDate c).
Definition set_usedAmount (v : Q) (c : Config) : Config :=
  mkConfig (totalBudget c) (dailyAmount c) (startDate c) v
           (reinvestedProfit c) (daysCompleted c) (createdDate c).
Definition set_reinvestedProfit (v : Q) (c : Config) : Config :=
  mkConfig (totalBudget c) (dailyAmount c) (startDate c) (usedAmount c)
           v (daysCompleted c) (createdDate c).
Definition set_daysCompleted (v : Z) (c : Config) : Config :=
  mkConfig (totalBudget c) (dailyAmount c) (startDate c) (usedAmount c)
           (reinvestedProfit c) v (createdDate c).

(** The object: [config] is [null] until a budget is set; [supabase]
    tells whether an awaited write to the store goes through. *)
Record t : Type := mk {
  config : option Config;
  supabase : bool
}.

Definition with_config (c : option Config) (s : t) : t := mk c (supabase s).

(** The [Error]s the methods throw, by their message:
    - [MinimumBudget]: 'Minimum budget is 5,000';
    - [StartDateRequired]: 'Please select start date';
    - [NoBudgetConfiguration]: 'No existing budget configuration found';
    - [MinimumTopup]: 'Minimum top-up amount is 1,000';
    - [PeriodCompleted]: 'Investment period has already completed';
    - [InsufficientBudget]: 'Insufficient budget. Available: ...,
      Required: ...';
    - [SaveFailed]: 'Failed to save budget configuration to database'.
    [IterationBudgetExhausted] is no error of the code: it marks a day
    loop of the model cut short, which [daysLoop_spec] excludes. *)
Inductive error : Type :=
| MinimumBudget
| StartDateRequired
| NoBudgetConfiguration
| MinimumTopup
| PeriodCompleted
| InsufficientBudget (available required : Q)
| SaveFailed
| IterationBudgetExhausted.

Inductive outcome (A : Type) : Type :=
| Returned (a : A)
| Thrown (e : error).
Arguments Returned {A} a.
Arguments Thrown {A} e.

(** A method call: from the object before to the outcome and the object
    after.  A thrown error keeps the object as it was at the [throw]. *)
Definition M (A : Type) : Type := t -> outcome A * t.

Definition ret {A} (a : A) : M A := fun s => (Returned a, s).
Definition throw {A} (e : error) : M A := fun s => (Thrown e, s).
Definition bind {A B} (m : M A) (k : A -> M B) : M B :=
  fun s => match m s with
           | (Returned a, s') => k a s'
           | (Thrown e, s') => (Thrown e, s')
           end.
Definition this : M t := fun s => (Returned s, s).
Definition assign_config (c : option Config) : M unit :=
  fun s => (Returned tt, with_config c s).

Declare Scope budget_scope.
Delimit Scope budget_scope with budget.
Notation "x <- m ;; k" := (bind m (fun x => k))
  (at level 61, m at next level, right associativity) : budget_scope.
Notation "m ;; k" := (bind m (fun _ => k))
  (at level 61, right associativity) : budget_scope.
Local Open Scope budget_scope.

(** [await this.saveConfig()]: nothing to save without a config; the
    write is rejected when the store is not available. *)
Definition saveConfig : M unit :=
  s <- this ;;
  match config s with
  | None => ret tt
  | Some _ => if supabase s then ret tt else throw SaveFailed
  end.

(** [this.saveConfig()] without [await]: a rejection is not seen by the
    caller and the object is not touched. *)
Definition saveConfig_detached : M unit := ret tt.

(** The [while (checkDate <= currentDate && daysCompleted < 50)] loop
    shared by the two day counters. *)
Fixpoint daysLoop (fuel : nat) (checkDate currentDate daysCompleted : Z)
  : option Z :=
  if (checkDate <=? currentDate)%Z && (daysCompleted <? 50)%Z then
    match fuel with
    | O => None
    | S fuel' =>
        daysLoop fuel' (JS.nextDay checkDate) currentDate
                 (if Utils.notWeekend checkDate
                  then (daysCompleted + 1)%Z else daysCompleted)
    end
  else Some daysCompleted.

(** The loop visits one date per day between the start and today. *)
Definition daysFuel (start today : Z) : nat :=
  Z.to_nat ((today - start) / JS.msPerDay + 1).

(** [getAvailableAmount()]. *)
Definition getAvailableAmount (s : t) : Q :=
  match config s with
  | None => 0
  | Some c => totalBudget c - usedAmount c + reinvestedProfit c
  end.

(** [getDailyAmount()]. *)
Definition getDailyAmount (s : t) : Q :=
  match config s with
  | None => 0
  | Some c => dailyAmount c
  end.

(** The result of [calculateProfitAllocation]. *)
Inductive TaxType : Type := STCG | LTCG.

Record Allocation : Type := mkAllocation {
  totalProfit : Q;
  taxType : TaxType;
  taxRate : Q;
  taxAmount : Q;
  brokerageAmount : Q;
  reinvestmentAmount : Q;
  netAmount : Q;
  holdingPeriod : Z
}.

(** [calculateProfitAllocation(profit, holdingPeriod)]. *)
Definition calculateProfitAllocation (profit : Q) (holdingPeriod : Z)
  : option Allocation :=
  if JS.leb profit 0 then None
  else
    let isSTCG := (holdingPeriod <=? 365)%Z in
    let taxRate := if isSTCG then 15 # 100 else 125 # 1000 in
    let brokerageRate := 5 # 100 in
    let reinvestmentRate := 80 # 100 in
    let taxAmount := profit * taxRate in
    let brokerageAmount := profit * brokerageRate in
    let reinvestmentAmount := profit * reinvestmentRate in
    Some {| totalProfit := profit;
            taxType := if isSTCG then STCG else LTCG;
            taxRate := taxRate * 100;
            taxAmount := taxAmount;
            brokerageAmount := brokerageAmount;
            reinvestmentAmount := reinvestmentAmount;
            netAmount := profit - taxAmount - brokerageAmount;
            holdingPeriod := holdingPeriod |}.

(** What [checkSufficientBudget] returns. *)
Record BudgetCheck : Type := mkBudgetCheck {
  sufficient : bool;
  check_available : Q;
  required : Q;
  shortfall : Q
}.

(** [checkSufficientBudget(amount)]. *)
Definition checkSufficientBudget (amount : Q) (s : t) : BudgetCheck :=
  let available := getAvailableAmount s in
  {| sufficient := JS.leb amount available;
     check_available := available;
     required := amount;
     shortfall := JS.max 0 (amount - available) |}.

Section Clock.
(** The time value of [new Date()]. *)
Variable now : Z.

(** The first [calculateDaysCompleted(startDate = null)] of the class
    body.  A later method of the same name replaces it on the
    prototype; it is kept here under a name of its own.  It reads
    [startDate || this.config?.startDate]; with neither, the date is
    invalid, every comparison is false and the result is 0. *)
Definition calculateDaysCompleted_first (startDate : option Z) (s : t)
  : option Z :=
  let start :=
    match startDate with
    | Some d => Some d
    | None => option_map BudgetManager.startDate (config s)
    end in
  match start with
  | None => Some 0%Z
  | Some start =>
      if (start >? now)%Z then Some 0%Z
      else option_map (fun d => Z.min d 50)
                      (daysLoop (daysFuel start now) start now 0)
  end.

(** [calculateDaysCompleted()], the method in force. *)
Definition calculateDaysCompleted : M Z :=
  s <- this ;;
  match config s with
  | None => ret 0%Z
  | Some c =>
      match daysLoop (daysFuel (startDate c) now) (startDate c) now 0 with
      | None => throw IterationBudgetExhausted
      | Some d =>
          let c' := set_daysCompleted (Z.min d 50) c in
          assign_config (Some c') ;;
          saveConfig_detached ;;
          ret (daysCompleted c')
      end
  end.

(** [getRemainingDays()]. *)
Definition getRemainingDays : M Z :=
  s <- this ;;
  match config s with
  | None => ret 50%Z
  | Some _ => d <- calculateDaysCompleted ;; ret (Z.max 0 (50 - d))
  end.

(** [updateDisplay()]: the texts written to the page are not modelled;
    what remains is the refresh of [daysCompleted] done by
    [getRemainingDays()]. *)
Definition updateDisplay : M unit :=
  getRemainingDays ;; ret tt.

(** [setBudget(totalBudget, startDate)]. *)
Definition setBudget (totalBudget : Q) (startDate : option Z) : M Config :=
  if JS.eqb totalBudget 0 || JS.ltb totalBudget 5000 then throw MinimumBudget
  else
    match startDate with
    | None => throw StartDateRequired
    | Some d =>
        assign_config (Some {| totalBudget := totalBudget;
                               dailyAmount := totalBudget / 50;
                               startDate := d;
                               usedAmount := 0;
                               reinvestedProfit := 0;
                               daysCompleted := 0;
                               createdDate := now |}) ;;
        saveConfig ;;
        updateDisplay ;;
        s <- this ;;
        match config s with
        | Some c => ret c
        | None => throw NoBudgetConfiguration
        end
    end.

(** What [topupBudget] returns. *)
Record TopupResult : Type := mkTopupResult {
  oldBudget : Q;
  newBudget : Q;
  topupAmount : Q;
  oldDailyAmount : Q;
  newDailyAmount : Q;
  remainingDays : Z;
  tr_usedAmount : Q;
  availableAmount : Q
}.

(** [topupBudget(additionalAmount)]. *)
Definition topupBudget (additionalAmount : Q) : M TopupResult :=
  s <- this ;;
  match config s with
  | None => throw NoBudgetConfiguration
  | Some _ =>
      if JS.eqb additionalAmount 0 || JS.ltb additionalAmount 1000
      then throw MinimumTopup
      else
        remainingDays <- getRemainingDays ;;
        if (remainingDays <=? 0)%Z then throw PeriodCompleted
        else
          s1 <- this ;;
          match config s1 with
          | None => throw NoBudgetConfiguration
          | Some c =>
              let oldTotalBudget := totalBudget c in
              let newTotalBudget := oldTotalBudget + additionalAmount in
              let newDailyAmount := newTotalBudget / 50 in
              assign_config
                (Some (set_dailyAmount newDailyAmount
                         (set_totalBudget newTotalBudget c))) ;;
              saveConfig ;;
              updateDisplay ;;
              s2 <- this ;;
              ret {| oldBudget := oldTotalBudget;
                     newBudget := newTotalBudget;
                     topupAmount := additionalAmount;
                     oldDailyAmount := oldTotalBudget / 50;
                     newDailyAmount := newDailyAmount;
                     remainingDays := remainingDays;
                     tr_usedAmount :=
                       match config s2 with
                       | Some c2 => usedAmount c2
                       | None => 0
                       end;
                     availableAmount := getAvailableAmount s2 |}
          end
  end.

(** [recordInvestment(amount)]. *)
Definition recordInvestment (amount : Q) : M bool :=
  s <- this ;;
  match config s with
  | None => ret false
  | Some c =>
      let available := getAvailableAmount s in
      if JS.gtb amount available
      then throw (InsufficientBudget available amount)
      else
        assign_config (Some (set_usedAmount (usedAmount c + amount) c)) ;;
        saveConfig_detached ;;
        updateDisplay ;;
        ret true
  end.

(** [addProfitToReinvestment(profitAllocation)]. *)
Definition addProfitToReinvestment (profitAllocation : option Allocation)
  : M bool :=
  s <- this ;;
  match config s, profitAllocation with
  | Some c, Some a =>
      assign_config
        (Some (set_reinvestedProfit
                 (reinvestedProfit c + reinvestmentAmount a) c)) ;;
      saveConfig_detached ;;
      updateDisplay ;;
      ret true
  | _, _ => ret false
  end.

(** What [previewTopup] returns. *)
Record TopupPreview : Type := mkTopupPreview {
  currentBudget : Q;
  preview_topupAmount : Q;
  preview_newBudget : Q;
  preview_usedAmount : Q;
  preview_remainingDays : Z;
  currentDailyAmount : Q;
  preview_newDailyAmount : Q;
  preview_availableAmount : Q;
  newAvailableAmount : Q
}.

(** [previewTopup(additionalAmount)]. *)
Definition previewTopup (additionalAmount : Q) : M TopupPreview :=
  s <- this ;;
  match config s with
  | None => throw NoBudgetConfiguration
  | Some _ =>
      if JS.eqb additionalAmount 0 || JS.ltb additionalAmount 1000
      then throw MinimumTopup
      else
        remainingDays <- getRemainingDays ;;
        if (remainingDays <=? 0)%Z then throw PeriodCompleted
        else
          s1 <- this ;;
          match config s1 with
          | None => throw NoBudgetConfiguration
          | Some c =>
              let oldTotalBudget := totalBudget c in
              let newTotalBudget := oldTotalBudget + additionalAmount in
              let newDailyAmount := newTotalBudget / 50 in
              ret {| currentBudget := oldTotalBudget;
                     preview_topupAmount := additionalAmount;
                     preview_newBudget := newTotalBudget;
                     preview_usedAmount := usedAmount c;
                     preview_remainingDays := remainingDays;
                     currentDailyAmount := dailyAmount c;
                     preview_newDailyAmount := newDailyAmount;
                     preview_availableAmount := getAvailableAmount s1;
                     newAvailableAmount :=
                       newTotalBudget - usedAmount c + reinvestedProfit c |}
          end
  end.

(** What [getStatistics] returns. *)
Record Statistics : Type := mkStatistics {
  stat_totalBudget : Q;
  stat_dailyAmount : Q;
  stat_usedAmount : Q;
  stat_availableAmount : Q;
  stat_reinvestedProfit : Q;
  stat_daysCompleted : Z;
  stat_remainingDays : Z;
  utilizationPercent : Q;
  investmentProgress : Q
}.

(** [getStatistics()]. *)
Definition getStatistics : M Statistics :=
  s <- this ;;
  match config s with
  | None =>
      ret {| stat_totalBudget := 0;
             stat_dailyAmount := 0;
             stat_usedAmount := 0;
             stat_availableAmount := 0;
             stat_reinvestedProfit := 0;
             stat_daysCompleted := 0;
             stat_remainingDays := 50;
             utilizationPercent := 0;
             investmentProgress := 0 |}
  | Some _ =>
      daysCompleted <- calculateDaysCompleted ;;
      s1 <- this ;;
      match config s1 with
      | None => throw NoBudgetConfiguration
      | Some c =>
          let availableAmount := getAvailableAmount s1 in
          let utilizationPercent := (usedAmount c / totalBudget c) * 100 in
          let investmentProgress := (inject_Z daysCompleted / 50) * 100 in
          ret {| stat_totalBudget := totalBudget c;
                 stat_dailyAmount := dailyAmount c;
                 stat_usedAmount := usedAmount c;
                 stat_availableAmount := availableAmount;
                 stat_reinvestedProfit := reinvestedProfit c;
                 stat_daysCompleted := daysCompleted;
                 stat_remainingDays := Z.max 0 (50 - daysCompleted);
                 utilizationPercent := utilizationPercent;
                 investmentProgress := investmentProgress |}
      end
  end.

(** The messages [validateBudgetConfig] collects: 'Minimum budget is
    5,000', 'Start date is required' and 'Start date cannot be in the
    past'. *)
Inductive validationMessage : Type :=
| BudgetBelowMinimum
| StartDateMissing
| StartDateInPast.

(** [validateBudgetConfig(amount, startDate)]. *)
Definition validateBudgetConfig (amount : Q) (startDate : option Z)
  : list validationMessage :=
  let errors :=
    if JS.eqb amount 0 || JS.ltb amount 5000
    then [BudgetBelowMinimum] else [] in
  match startDate with
  | None => errors ++ [StartDateMissing]
  | Some start =>
      if (start <? JS.startOfDay now)%Z
      then errors ++ [StartDateInPast] else errors
  end.

(** The errors of [exportBudgetData], [importBudgetData] and
    [resetBudget], besides those of the methods they call:
    - [NoConfigurationToExport]: 'No budget configuration to export';
    - [InvalidBudgetData]: 'Invalid budget data';
    - [ResetRejected]: 'Supabase client not available. ...' or 'Failed
      to reset budget in database: ...'. *)
Inductive failure : Type :=
| BudgetError (e : error)
| NoConfigurationToExport
| InvalidBudgetData
| ResetRejected.

(** The outcome of a method of [M] among the wider failures. *)
Definition widen {A} (r : outcome A * t) : (failure + A) * t :=
  match r with
  | (Returned a, s) => (inr a, s)
  | (Thrown e, s) => (inl (BudgetError e), s)
  end.

(** What [exportBudgetData] returns: [{ ...this.config, statistics,
    exportDate }]. *)
Record ExportData : Type := mkExportData {
  exported : Config;
  statistics : Statistics;
  exportDate : Z
}.

(** [exportBudgetData()].  The fields of the configuration are copied
    before [getStatistics()] refreshes [daysCompleted]. *)
Definition exportBudgetData (s : t) : (failure + ExportData) * t :=
  match config s with
  | None => (inl NoConfigurationToExport, s)
  | Some c =>
      match widen (getStatistics s) with
      | (inr statistics, s') =>
          (inr {| exported := c;
                  statistics := statistics;
                  exportDate := now |}, s')
      | (inl e, s') => (inl e, s')
      end
  end.

(** [importBudgetData(data)], on data of the shape [exportBudgetData]
    produces. *)
Definition importBudgetData (data : option ExportData) (s : t)
  : (failure + Config) * t :=
  match data with
  | None => (inl InvalidBudgetData, s)
  | Some data =>
      let d := exported data in
      if JS.eqb (totalBudget d) 0 then (inl InvalidBudgetData, s)
      else
        let c :=
          {| totalBudget := totalBudget d;
             dailyAmount := JS.orElse (dailyAmount d) (totalBudget d / 50);
             startDate := startDate d;
             usedAmount := JS.orElse (usedAmount d) 0;
             reinvestedProfit := JS.orElse (reinvestedProfit d) 0;
             daysCompleted := daysCompleted d;
             createdDate := createdDate d |} in
        match widen (bind (assign_config (Some c))
                       (fun _ => bind saveConfig_detached
                       (fun _ => bind updateDisplay
                       (fun _ => this))) s) with
        | (inr s', s'') =>
            match config s' with
            | Some c' => (inr c', s'')
            | None => (inl InvalidBudgetData, s'')
            end
        | (inl e, s'') => (inl e, s'')
        end
  end.

(** [resetBudget()]: the record is deleted from the store, then the
    configuration is dropped. *)
Definition resetBudget (s : t) : (failure + unit) * t :=
  if supabase s then
    widen (bind (assign_config None) (fun _ => updateDisplay) s)
  else (inl ResetRejected, s).

End Clock.

End BudgetManager.


(** ** The trading strategy (class [TradingStrategy]) *)
Module TradingStrategy.

(** [this.config]; [updateConfig] may replace any of the four. *)
Record StrategyConfig : Type := mkStrategyConfig {
  maxRankToConsider : nat;
  averagingLossThreshold : Q;
  profitThreshold : Q;
  defaultQuantity : Z
}.

(** The values the constructor sets. *)
Definition constructorConfig : StrategyConfig :=
  {| maxRankToConsider := 5;
     averagingLossThreshold := - (25 # 10);
     profitThreshold := 6;
     defaultQuantity := 1 |}.

(** A row of the [etfs] table. *)
Record ETF : Type := mkETF {
  id : string;
  name : string;
  cmp : Q;
  dma_20 : Q
}.

(** [{ ...etf, deviation }]. *)
Record RankedETF : Type := mkRankedETF {
  etf : ETF;
  deviation : Q
}.

(** An entry of [this.currentRankings]. *)
Record Ranking : Type := mkRanking {
  etf_id : string;
  rank : Z;
  ranking_deviation : Q;
  ranking_etf : RankedETF
}.

(** A row of [holdings] joined with [etfs (name, cmp)]; [date_purchased]
    is the time value of [new Date(holding.date_purchased)]. *)
Record Holding : Type := mkHolding {
  holding_id : string;
  holding_etf_id : string;
  buy_price : Q;
  quantity : Z;
  date_purchased : Z;
  etfs_name : string;
  etfs_cmp : Q
}.

(** An element of [eligibleETFs], [type: 'BUY']. *)
Record BuyOption : Type := mkBuyOption {
  option_etf : RankedETF;
  option_quantity : Z;
  option_rank : Z
}.

(** What [determineBuyAction] returns when it is not [null]. *)
Inductive BuyAction : Type :=
| MULTIPLE_OPTIONS (options : list BuyOption) (defaultOption : BuyOption)
| AVERAGE (etf : RankedETF) (lossPercent : Q) (quantity : Z).

(** [{ ...holding, profitPercent }]. *)
Record ProfitableHolding : Type := mkProfitableHolding {
  holding : Holding;
  profitPercent : Q
}.

(** What [determineSellAction] returns when it is not [null]. *)
Inductive SellAction : Type :=
| SELL (holding : ProfitableHolding).

(** The callback [(etf, index) => ({ etf_id, rank: index + 1, deviation,
    etf })] of [calculateRankings] (the rows written to [ranks] carry the
    same rank). *)
Definition rankingEntry (etf : RankedETF) (index : nat) : Ranking :=
  {| etf_id := id (TradingStrategy.etf etf);
     rank := Z.of_nat index + 1;
     ranking_deviation := deviation etf;
     ranking_etf := etf |}.

(** The pure part of [calculateRankings()]: [etfs] is what the store
    returned; the result is [rankedETFs] and [this.currentRankings]. *)
Definition calculateRankings (etfs : list ETF)
  : list RankedETF * list Ranking :=
  let etfsWithDeviations :=
    map (fun etf =>
           {| etf := etf;
              deviation := Utils.calculateDeviation (cmp etf) (dma_20 etf) |})
        etfs in
  let rankedETFs :=
    JS.sort (fun a b => deviation a - deviation b) etfsWithDeviations in
  (rankedETFs, JS.mapi rankingEntry rankedETFs).

Section Strategy.
(** [this.config] and the global [budgetManager]. *)
Variable config : StrategyConfig.
Variable budgetManager : BudgetManager.t.

(** [calculateRecommendedQuantity(price)]. *)
Definition calculateRecommendedQuantity (price : Q) : Z :=
  let dailyAmount := BudgetManager.getDailyAmount budgetManager in
  if JS.eqb dailyAmount 0 then defaultQuantity config
  else
    let maxQuantity := JS.floor (dailyAmount / price) in
    Z.max 1 maxQuantity.

(** The body of the [for (let i = 0; i < Math.min(...); i++)] loop of
    [determineBuyAction]: one turn, pushing onto [eligibleETFs]. *)
Definition eligibleStep (rankedETFs : list RankedETF) (heldETFIds : list string)
  (eligibleETFs : list BuyOption) (i : nat) : list BuyOption :=
  match nth_error rankedETFs i with
  | None => eligibleETFs
  | Some etf =>
      if negb (JS.includes heldETFIds (id (TradingStrategy.etf etf))) then
        eligibleETFs ++
          [{| option_etf := etf;
              option_quantity :=
                calculateRecommendedQuantity (cmp (TradingStrategy.etf etf));
              option_rank := Z.of_nat i + 1 |}]
      else eligibleETFs
  end.

(** Rule 2 of [determineBuyAction]: the [for (const holding of holdings)]
    loop, which returns at the first holding that qualifies. *)
Fixpoint averagingLoop (rankedETFs : list RankedETF) (holdings : list Holding)
  : option BuyAction :=
  match holdings with
  | [] => None
  | holding :: rest =>
      match JS.find (fun e => String.eqb (id (TradingStrategy.etf e))
                                         (holding_etf_id holding))
                    rankedETFs with
      | None => averagingLoop rankedETFs rest
      | Some etf =>
          let currentPrice := cmp (TradingStrategy.etf etf) in
          let lossPercent :=
            Utils.calculatePercentageChange (buy_price holding) currentPrice in
          if JS.leb lossPercent (averagingLossThreshold config) then
            Some (AVERAGE etf lossPercent
                          (calculateRecommendedQuantity
                             (cmp (TradingStrategy.etf etf))))
          else averagingLoop rankedETFs rest
      end
  end.

(** [determineBuyAction(rankedETFs, heldETFIds, holdings)]. *)
Definition determineBuyAction (rankedETFs : list RankedETF)
  (heldETFIds : list string) (holdings : list Holding) : option BuyAction :=
  let eligibleETFs :=
    fold_left (eligibleStep rankedETFs heldETFIds)
              (seq 0 (Nat.min (maxRankToConsider config)
                              (List.length rankedETFs)))
              [] in
  match eligibleETFs with
  | first :: _ => Some (MULTIPLE_OPTIONS eligibleETFs first)
  | [] => averagingLoop rankedETFs holdings
  end.

(** The first loop of [determineSellAction]: the holdings above the
    profit threshold, in the order of [holdings]. *)
Fixpoint profitableLoop (holdings : list Holding) : list ProfitableHolding :=
  match holdings with
  | [] => []
  | holding :: rest =>
      let currentPrice := etfs_cmp holding in
      let profitPercent :=
        Utils.calculatePercentageChange (buy_price holding) currentPrice in
      if JS.gtb profitPercent (profitThreshold config) then
        {| holding := holding; profitPercent := profitPercent |}
          :: profitableLoop rest
      else profitableLoop rest
  end.

(** [determineSellAction(holdings)]. *)
Definition determineSellAction (holdings : list Holding) : option SellAction :=
  let profitableHoldings := profitableLoop holdings in
  match profitableHoldings with
  | [] => None
  | _ :: _ =>
      let sorted :=
        JS.sort (fun a b =>
                   inject_Z (date_purchased (holding b)
                             - date_purchased (holding a)))
                profitableHoldings in
      match sorted with
      | holdingToSell :: _ => Some (SELL holdingToSell)
      | [] => None
      end
  end.

(** [applyTradingLogic(rankedETFs, holdings)] without its summary text:
    the buy and the sell decision of one cycle. *)
Definition applyTradingLogic (rankedETFs : list RankedETF)
  (holdings : list Holding) : option BuyAction * option SellAction :=
  let heldETFIds := map holding_etf_id holdings in
  (determineBuyAction rankedETFs heldETFIds holdings,
   determineSellAction holdings).

End Strategy.

(** [updateConfig(newConfig)]: [{ ...this.config, ...newConfig }], the
    new configuration naming some of the four settings. *)
Record ConfigUpdate : Type := mkConfigUpdate {
  new_maxRankToConsider : option nat;
  new_averagingLossThreshold : option Q;
  new_profitThreshold : option Q;
  new_defaultQuantity : option Z
}.

Definition updateConfig (config : StrategyConfig) (newConfig : ConfigUpdate)
  : StrategyConfig :=
  {| maxRankToConsider :=
       match new_maxRankToConsider newConfig with
       | Some v => v | None => maxRankToConsider config end;
     averagingLossThreshold :=
       match new_averagingLossThreshold newConfig with
       | Some v => v | None => averagingLossThreshold config end;
     profitThreshold :=
       match new_profitThreshold newConfig with
       | Some v => v | None => profitThreshold config end;
     defaultQuantity :=
       match new_defaultQuantity newConfig with
       | Some v => v | None => defaultQuantity config end |}.

(** [findETFRankFromRankings(etfId)], from [this.currentRankings]. *)
Definition findETFRankFromRankings (currentRankings : option (list Ranking))
  (etfId : string) : option Z :=
  match currentRankings with
  | None => None
  | Some rankings =>
      match JS.find (fun r => String.eqb (etf_id r) etfId) rankings with
      | Some ranking => Some (rank ranking)
      | None => None
      end
  end.

(** A row of the [holdings] table. *)
Record HoldingRow : Type := mkHoldingRow {
  row_id : string;
  row_etf_id : string;
  row_buy_price : Q;
  row_quantity : Z;
  row_date_purchased : Z;
  row_active : bool;
  row_sell_price : option Q;
  row_date_sold : option Z
}.

(** ** Portfolio analysis *)

(** What [getPortfolioStats] returns. *)
Record PortfolioStats : Type := mkPortfolioStats {
  activeHoldings : nat;
  totalInvestment : Q;
  stats_currentValue : Q;
  unrealizedPL : Q;
  unrealizedPLPercent : Q;
  soldHoldings : nat;
  realizedPL : Q;
  totalTaxPaid : Q;
  stcgTax : Q;
  ltcgTax : Q;
  totalPL : Q;
  netProfit : Q
}.

(** The callback of [holdings.forEach] in [getPortfolioStats], on
    [(totalInvestment, currentValue, totalPL)]. *)
Definition activeStep (acc : Q * Q * Q) (holding : Holding) : Q * Q * Q :=
  let '(totalInvestment, currentValue, totalPL) := acc in
  let investment := buy_price holding * inject_Z (quantity holding) in
  let current := etfs_cmp holding * inject_Z (quantity holding) in
  (totalInvestment + investment, currentValue + current,
   totalPL + (current - investment)).

(** The callback of [soldHoldings.forEach], on [(realizedPL,
    totalTaxPaid, stcgTax, ltcgTax)]. *)
Definition soldStep (acc : Q * Q * Q * Q) (holding : HoldingRow)
  : Q * Q * Q * Q :=
  let '(realizedPL, totalTaxPaid, stcgTax, ltcgTax) := acc in
  let buyValue := row_buy_price holding * inject_Z (row_quantity holding) in
  let sellValue :=
    JS.numberOf (row_sell_price holding) * inject_Z (row_quantity holding) in
  let profit := sellValue - buyValue in
  let realizedPL := realizedPL + profit in
  if JS.gtb profit 0 then
    let buyDate := row_date_purchased holding in
    let sellDate := JS.dateOf (row_date_sold holding) in
    let holdingPeriod := Utils.daysBetween buyDate sellDate in
    match BudgetManager.calculateProfitAllocation profit holdingPeriod with
    | Some profitAllocation =>
        let tax := BudgetManager.taxAmount profitAllocation in
        match BudgetManager.taxType profitAllocation with
        | BudgetManager.STCG =>
            (realizedPL, totalTaxPaid + tax, stcgTax + tax, ltcgTax)
        | BudgetManager.LTCG =>
            (realizedPL, totalTaxPaid + tax, stcgTax, ltcgTax + tax)
        end
    | None => (realizedPL, totalTaxPaid, stcgTax, ltcgTax)
    end
  else (realizedPL, totalTaxPaid, stcgTax, ltcgTax).

(** The computation of [getPortfolioStats()] on the active holdings and
    the sold rows the store returned. *)
Definition getPortfolioStats (holdings : list Holding)
  (soldHoldings : list HoldingRow) : PortfolioStats :=
  let '(totalInvestment, currentValue, totalPL) :=
    fold_left activeStep holdings (0, 0, 0) in
  let '(realizedPL, totalTaxPaid, stcgTax, ltcgTax) :=
    fold_left soldStep soldHoldings (0, 0, 0, 0) in
  {| activeHoldings := List.length holdings;
     totalInvestment := totalInvestment;
     stats_currentValue := currentValue;
     unrealizedPL := totalPL;
     unrealizedPLPercent :=
       if JS.gtb totalInvestment 0
       then (totalPL / totalInvestment) * 100 else 0;
     soldHoldings := List.length soldHoldings;
     realizedPL := realizedPL;
     totalTaxPaid := totalTaxPaid;
     stcgTax := stcgTax;
     ltcgTax := ltcgTax;
     totalPL := totalPL + realizedPL;
     netProfit := realizedPL - totalTaxPaid |}.

(** ** Transaction history *)

Inductive TransactionType : Type := BUY | SELL_TX.

(** An element of the array [getTransactionHistory] returns; [tx_date]
    is the date column it copies, [null] for a sale without date. *)
Record Transaction : Type := mkTransaction {
  tx_id : string;
  tx_date : option Z;
  tx_type : TransactionType;
  tx_etf_name : string;
  tx_quantity : Z;
  tx_price : Q;
  tx_amount : Q;
  tx_pl : Q;
  tx_holding_period : Z;
  tx_tax_type : option BudgetManager.TaxType;
  tx_tax_amount : Q;
  tx_brokerage : Q;
  tx_net_amount : Q
}.

(** The rows [getTransactionHistory] reads: [holdings] joined with
    [etfs (name)]. *)
Record HistoryRow : Type := mkHistoryRow {
  history_row : HoldingRow;
  history_etf_name : string
}.

(** The callback of [holdings.data.forEach]: the transactions one row
    pushes. *)
Definition transactionsOf (h : HistoryRow) : list Transaction :=
  let holding := history_row h in
  let buyTransaction :=
    {| tx_id := row_id holding ++ "_buy";
       tx_date := Some (row_date_purchased holding);
       tx_type := BUY;
       tx_etf_name := history_etf_name h;
       tx_quantity := row_quantity holding;
       tx_price := row_buy_price holding;
       tx_amount := row_buy_price holding * inject_Z (row_quantity holding);
       tx_pl := 0;
       tx_holding_period := 0;
       tx_tax_type := None;
       tx_tax_amount := 0;
       tx_brokerage := 0;
       tx_net_amount :=
         row_buy_price holding * inject_Z (row_quantity holding) |} in
  if negb (row_active holding) && JS.truthy (row_sell_price holding) then
    let buyDate := row_date_purchased holding in
    let sellDate := JS.dateOf (row_date_sold holding) in
    let holdingPeriod := Utils.daysBetween buyDate sellDate in
    let buyAmount := row_buy_price holding * inject_Z (row_quantity holding) in
    let sellAmount :=
      JS.numberOf (row_sell_price holding)
      * inject_Z (row_quantity holding) in
    let profit := sellAmount - buyAmount in
    let profitAllocation :=
      BudgetManager.calculateProfitAllocation profit holdingPeriod in
    [ buyTransaction;
      {| tx_id := row_id holding ++ "_sell";
         tx_date := row_date_sold holding;
         tx_type := SELL_TX;
         tx_etf_name := history_etf_name h;
         tx_quantity := row_quantity holding;
         tx_price := JS.numberOf (row_sell_price holding);
         tx_amount := sellAmount;
         tx_pl := profit;
         tx_holding_period := holdingPeriod;
         tx_tax_type := option_map BudgetManager.taxType profitAllocation;
         tx_tax_amount :=
           match profitAllocation with
           | Some a => BudgetManager.taxAmount a | None => 0 end;
         tx_brokerage :=
           match profitAllocation with
           | Some a => BudgetManager.brokerageAmount a | None => 0 end;
         tx_net_amount :=
           match profitAllocation with
           | Some a => BudgetManager.netAmount a + buyAmount
           | None => sellAmount
           end |} ]
  else [buyTransaction].

(** The computation of [getTransactionHistory()] on the rows the store
    returned. *)
Definition getTransactionHistory (holdings : list HistoryRow)
  : list Transaction :=
  let transactions := flat_map transactionsOf holdings in
  JS.sort (fun a b =>
             inject_Z (JS.dateOf (tx_date b) - JS.dateOf (tx_date a)))
          transactions.

(** ** Execution of the decisions *)

(** What the execution throws: an [Error] with a message of the budget
    manager ('Insufficient budget. Available: ..., Required: ...'), or
    the error object of a write the store rejected. *)
Inductive execFailure : Type :=
| BudgetFailure (e : BudgetManager.error)
| StoreRejected.

(** [window.pendingBuyAction]: [{ ...buyAction, quantity, amount }]. *)
Record PendingBuy : Type := mkPendingBuy {
  pending_etf : RankedETF;
  pending_quantity : Z;
  pending_amount : Q
}.

(** What the execution reads and writes: the global [budgetManager], the
    [holdings] table of the store, whether the store takes the next
    write and the id it gives to a new row, and the globals
    [window.pendingBuyOptions], [window.selectedETFOption] and
    [window.pendingBuyAction]. *)
Record World : Type := mkWorld {
  budgetManager : BudgetManager.t;
  holdingsTable : list HoldingRow;
  storeAccepts : bool;
  storeNewId : string;
  pendingBuyOptions : option BuyAction;
  selectedETFOption : option BuyOption;
  pendingBuyAction : option PendingBuy
}.

Definition with_budgetManager (b : BudgetManager.t) (w : World) : World :=
  mkWorld b (holdingsTable w) (storeAccepts w) (storeNewId w)
          (pendingBuyOptions w) (selectedETFOption w) (pendingBuyAction w).
Definition with_holdingsTable (t : list HoldingRow) (w : World) : World :=
  mkWorld (budgetManager w) t (storeAccepts w) (storeNewId w)
          (pendingBuyOptions w) (selectedETFOption w) (pendingBuyAction w).
Definition with_pendingBuyOptions (o : option BuyAction)
  (d : option BuyOption) (w : World) : World :=
  mkWorld (budgetManager w) (holdingsTable w) (storeAccepts w)
          (storeNewId w) o d (pendingBuyAction w).
Definition with_pendingBuyAction (p : option PendingBuy) (w : World) : World :=
  mkWorld (budgetManager w) (holdingsTable w) (storeAccepts w)
          (storeNewId w) (pendingBuyOptions w) (selectedETFOption w) p.

(** The quantity [showBuyConfirmation] and [executeBuyAction] settle on:
    the quantity asked for when the budget covers it, otherwise
    [Math.floor(availableAmount / cmp)] when that is positive, otherwise
    none. *)
Definition fittingQuantity (b : BudgetManager.t) (price : Q) (quantity : Z)
  : option Z :=
  let availableAmount := BudgetManager.getAvailableAmount b in
  let requiredAmount := price * inject_Z quantity in
  let budgetCheck := BudgetManager.checkSufficientBudget requiredAmount b in
  if negb (BudgetManager.sufficient budgetCheck) then
    let maxQuantity := JS.floor (availableAmount / price) in
    if (maxQuantity >? 0)%Z then Some maxQuantity else None
  else Some quantity.

(** [showBuyConfirmation(buyAction)], for the action's [etf] and
    [quantity]: what it stores in [window.pendingBuyAction]; it returns
    early, storing nothing, when not even one unit fits. *)
Definition showBuyConfirmation (etf : RankedETF) (quantity : Z) (w : World)
  : World :=
  match fittingQuantity (budgetManager w) (cmp (TradingStrategy.etf etf))
                        quantity with
  | None => w
  | Some finalQuantity =>
      let finalAmount :=
        cmp (TradingStrategy.etf etf) * inject_Z finalQuantity in
      with_pendingBuyAction
        (Some {| pending_etf := etf;
                 pending_quantity := finalQuantity;
                 pending_amount := finalAmount |})
        w
  end.

(** [showBuyOptionsDialog(buyOptions)]. *)
Definition showBuyOptionsDialog (buyOptions : BuyAction) (w : World) : World :=
  match buyOptions with
  | MULTIPLE_OPTIONS _ defaultOption =>
      with_pendingBuyOptions (Some buyOptions) (Some defaultOption) w
  | AVERAGE _ _ _ => w
  end.

(** What [executeBuyAction] returns. *)
Record BuyResult : Type := mkBuyResult {
  buy_success : bool;
  buy_amount : Q;
  buy_quantity : Z
}.

(** What [executeSellAction] returns. *)
Record SellResult : Type := mkSellResult {
  sell_success : bool;
  sell_amount : Q;
  sell_profit : Q;
  sell_profitAllocation : option BudgetManager.Allocation;
  sell_holdingPeriod : Z
}.

Section Execution.
(** The time value of [new Date()]. *)
Variable now : Z.

(** [executeBuyAction(buyAction)], for the action's [etf] and
    [quantity]. *)
Definition executeBuyAction (etf : RankedETF) (quantity : Z) (w : World)
  : (execFailure + BuyResult) * World :=
  let price := cmp (TradingStrategy.etf etf) in
  let availableAmount := BudgetManager.getAvailableAmount (budgetManager w) in
  let requiredAmount := price * inject_Z quantity in
  match fittingQuantity (budgetManager w) price quantity with
  | None =>
      (inl (BudgetFailure
              (BudgetManager.InsufficientBudget availableAmount
                                                requiredAmount)), w)
  | Some quantity =>
      let finalAmount := price * inject_Z quantity in
      if storeAccepts w then
        let w1 :=
          with_holdingsTable
            (holdingsTable w ++
               [{| row_id := storeNewId w;
                   row_etf_id := id (TradingStrategy.etf etf);
                   row_buy_price := price;
                   row_quantity := quantity;
                   row_date_purchased := JS.startOfDay now;
                   row_active := true;
                   row_sell_price := None;
                   row_date_sold := None |}])
            w in
        match BudgetManager.recordInvestment now finalAmount
                                             (budgetManager w1) with
        | (BudgetManager.Returned _, b) =>
            (inr {| buy_success := true;
                    buy_amount := finalAmount;
                    buy_quantity := quantity |},
             with_budgetManager b w1)
        | (BudgetManager.Thrown e, b) =>
            (inl (BudgetFailure e), with_budgetManager b w1)
        end
      else (inl StoreRejected, w)
  end.

(** The update [executeSellAction] sends: the rows with the holding's id
    become inactive, with the sell price and today's date. *)
Definition markSold (holdingId : string) (sellPrice : Q) (row : HoldingRow)
  : HoldingRow :=
  if String.eqb (row_id row) holdingId then
    {| row_id := row_id row;
       row_etf_id := row_etf_id row;
       row_buy_price := row_buy_price row;
       row_quantity := row_quantity row;
       row_date_purchased := row_date_purchased row;
       row_active := false;
       row_sell_price := Some sellPrice;
       row_date_sold := Some (JS.startOfDay now) |}
  else row.

(** [executeSellAction(sellAction)]. *)
Definition executeSellAction (sellAction : SellAction) (w : World)
  : (execFailure + SellResult) * World :=
  let 'SELL profitable := sellAction in
  let holding := TradingStrategy.holding profitable in
  let sellPrice := etfs_cmp holding in
  let sellAmount := sellPrice * inject_Z (quantity holding) in
  let buyAmount := buy_price holding * inject_Z (quantity holding) in
  let profit := sellAmount - buyAmount in
  let buyDate := date_purchased holding in
  let sellDate := now in
  let holdingPeriod := Utils.daysBetween buyDate sellDate in
  if storeAccepts w then
    let w1 :=
      with_holdingsTable
        (map (markSold (holding_id holding) sellPrice) (holdingsTable w)) w in
    if JS.gtb profit 0 then
      let profitAllocation :=
        BudgetManager.calculateProfitAllocation profit holdingPeriod in
      match BudgetManager.addProfitToReinvestment now profitAllocation
                                                  (budgetManager w1) with
      | (BudgetManager.Returned _, b) =>
          (inr {| sell_success := true;
                  sell_amount := sellAmount;
                  sell_profit := profit;
                  sell_profitAllocation := profitAllocation;
                  sell_holdingPeriod := holdingPeriod |},
           with_budgetManager b w1)
      | (BudgetManager.Thrown e, b) =>
          (inl (BudgetFailure e), with_budgetManager b w1)
      end
    else
      (inr {| sell_success := true;
              sell_amount := sellAmount;
              sell_profit := profit;
              sell_profitAllocation := None;
              sell_holdingPeriod := holdingPeriod |}, w1)
  else (inl StoreRejected, w).

(** What [executeActions] returns, without the actions it was given and
    the timestamp. *)
Record ActionResults : Type := mkActionResults {
  buyExecuted : bool;
  sellExecuted : bool;
  errors : list execFailure;
  details_buyAmount : Q;
  details_sellAmount : Q;
  details_profit : Q
}.

(** [executeActions(actions)], for [actions.buy] and [actions.sell]: the
    buy is only shown for confirmation, the sell is executed, and what
    the sell throws is caught and listed. *)
Definition executeActions (buy : option BuyAction) (sell : option SellAction)
  (w : World) : ActionResults * World :=
  let w1 :=
    match buy with
    | None => w
    | Some (MULTIPLE_OPTIONS options defaultOption) =>
        showBuyOptionsDialog (MULTIPLE_OPTIONS options defaultOption) w
    | Some (AVERAGE etf _ quantity) => showBuyConfirmation etf quantity w
    end in
  match sell with
  | None =>
      ({| buyExecuted := false; sellExecuted := false; errors := [];
          details_buyAmount := 0; details_sellAmount := 0;
          details_profit := 0 |}, w1)
  | Some sellAction =>
      match executeSellAction sellAction w1 with
      | (inr sellResult, w2) =>
          ({| buyExecuted := false;
              sellExecuted := sell_success sellResult;
              errors := [];
              details_buyAmount := 0;
              details_sellAmount := sell_amount sellResult;
              details_profit := sell_profit sellResult |}, w2)
      | (inl error, w2) =>
          ({| buyExecuted := false; sellExecuted := false;
              errors := [error];
              details_buyAmount := 0; details_sellAmount := 0;
              details_profit := 0 |}, w2)
      end
  end.

End Execution.

(** ** Recommendations *)

(** A row of [ranks] joined with [etfs (name, cmp, dma_20)], as
    [getTodayRankings] returns it. *)
Record RankRow : Type := mkRankRow {
  rankrow_etf_id : string;
  rankrow_rank : Z;
  rankrow_deviation : Q;
  rankrow_name : string;
  rankrow_cmp : Q;
  rankrow_dma_20 : Q
}.

Inductive RecommendationKind : Type := REC_BUY | REC_HOLD | REC_AVOID.
Inductive Priority : Type := HIGH | MEDIUM | LOW.

(** The texts of [getRecommendationReason]: 'Already in portfolio',
    'Significantly undervalued', 'Trading below 20 DMA', 'Overvalued -
    avoid' and 'Near fair value'. *)
Inductive RecommendationReason : Type :=
| AlreadyInPortfolio
| SignificantlyUndervalued
| TradingBelow20DMA
| OvervaluedAvoid
| NearFairValue.

(** [getRecommendationReason(rank, isHeld)]. *)
Definition getRecommendationReason (rank : RankRow) (isHeld : bool)
  : RecommendationReason :=
  if isHeld then AlreadyInPortfolio
  else if JS.ltb (rankrow_deviation rank) (-5) then SignificantlyUndervalued
  else if JS.ltb (rankrow_deviation rank) 0 then TradingBelow20DMA
  else if JS.gtb (rankrow_deviation rank) 5 then OvervaluedAvoid
  else NearFairValue.

(** An element of the array [getRecommendations] returns. *)
Record Recommendation : Type := mkRecommendation {
  rec_rank : Z;
  rec_name : string;
  rec_cmp : Q;
  rec_dma_20 : Q;
  rec_deviation : Q;
  recommendation : RecommendationKind;
  priority : Priority;
  isHeld : bool;
  rec_reason : RecommendationReason
}.

(** The callback of [rankings.slice(0, 5).map] in [getRecommendations]. *)
Definition recommend (heldETFIds : list string) (rank : RankRow)
  : Recommendation :=
  let isHeld := JS.includes heldETFIds (rankrow_etf_id rank) in
  let '(recommendation, priority) :=
    if negb isHeld && (rankrow_rank rank <=? 3)%Z then
      (REC_BUY, if (rankrow_rank rank =? 1)%Z then HIGH else MEDIUM)
    else if JS.gtb (rankrow_deviation rank) 5 then (REC_AVOID, LOW)
    else (REC_HOLD, LOW) in
  {| rec_rank := rankrow_rank rank;
     rec_name := rankrow_name rank;
     rec_cmp := rankrow_cmp rank;
     rec_dma_20 := rankrow_dma_20 rank;
     rec_deviation := rankrow_deviation rank;
     recommendation := recommendation;
     priority := priority;
     isHeld := isHeld;
     rec_reason := getRecommendationReason rank isHeld |}.

(** The computation of [getRecommendations()] on today's rankings and
    the current holdings the store returned. *)
Definition getRecommendations (rankings : list RankRow)
  (holdings : list Holding) : list Recommendation :=
  let heldETFIds := map holding_etf_id holdings in
  map (recommend heldETFIds) (firstn 5 rankings).

End TradingStrategy.


(** * Vocabulary of the specification *)

Import BudgetManager.
Import TradingStrategy.

(** ** Trading days *)

(** Monday to Friday, as [getDay] numbers the days. *)
Definition mondayToFriday (t : Z) : bool :=
  (1 <=? JS.getDay t)%Z && (JS.getDay t <=? 5)%Z.

(** The days from [start] through [today]: [start], the day after, and
    so on, as long as the date is not after [today]. *)
Definition daysThrough (start today : Z) : list Z :=
  map (fun k => (start + Z.of_nat k * JS.msPerDay)%Z)
      (seq 0 (daysFuel start today)).

(** The number of Monday-to-Friday days from [start] through [today]. *)
Definition weekdaysThrough (start today : Z) : Z :=
  Z.of_nat (List.length (filter mondayToFriday (daysThrough start today))).

(** The same count taken day by day: how many of the [n] consecutive
    days that begin at [first] fall on Monday to Friday. *)
Fixpoint weekdaysIn (n : nat) (first : Z) : Z :=
  match n with
  | O => 0
  | S n' => ((if mondayToFriday first then 1 else 0)
             + weekdaysIn n' (JS.nextDay first))%Z
  end.

(** The days completed at the instant [now] for a budget that started at
    [start]: the Monday-to-Friday days among the days from [start] that
    are not after [now], at most 50. *)
Definition tradingDaysCompleted (now start : Z) : Z :=
  Z.min 50 (weekdaysIn (daysFuel start now) start).

(** ** Budget *)

(** The object after [updateDisplay()] has refreshed [daysCompleted]. *)
Definition refreshed (now : Z) (s : BudgetManager.t) : BudgetManager.t :=
  match config s with
  | None => s
  | Some c =>
      with_config
        (Some (set_daysCompleted (tradingDaysCompleted now (startDate c)) c))
        s
  end.

(** The four mutations of the budget. *)
Inductive mutation : Type :=
| SetBudget (totalBudget : Q) (startDate : option Z)
| TopupBudget (additionalAmount : Q)
| RecordInvestment (amount : Q)
| AddProfitToReinvestment (profitAllocation : option Allocation).

(** The object after a mutation was called at the instant [now], whether
    the call returned or threw. *)
Definition after (now : Z) (m : mutation) (s : BudgetManager.t)
  : BudgetManager.t :=
  match m with
  | SetBudget totalBudget startDate =>
      snd (setBudget now totalBudget startDate s)
  | TopupBudget additionalAmount =>
      snd (topupBudget now additionalAmount s)
  | RecordInvestment amount =>
      snd (recordInvestment now amount s)
  | AddProfitToReinvestment profitAllocation =>
      snd (addProfitToReinvestment now profitAllocation s)
  end.

(** ** Decisions *)

(** An instrument whose id is not among the held ids. *)
Definition notHeld (heldETFIds : list string) (e : RankedETF) : bool :=
  negb (JS.includes heldETFIds (id (etf e))).

(** The options made of the not-held instruments of [l], which sit at the
    indices [i], [i + 1], ... of the ranking: each with its rank and its
    recommended quantity. *)
Fixpoint optionsFrom (config : StrategyConfig)
  (budgetManager : BudgetManager.t) (heldETFIds : list string)
  (i : nat) (l : list RankedETF) : list BuyOption :=
  match l with
  | [] => []
  | e :: l' =>
      if notHeld heldETFIds e then
        {| option_etf := e;
           option_quantity :=
             calculateRecommendedQuantity config budgetManager (cmp (etf e));
           option_rank := Z.of_nat i + 1 |}
          :: optionsFrom config budgetManager heldETFIds (S i) l'
      else optionsFrom config budgetManager heldETFIds (S i) l'
  end.

(** The daily amount of a budget is its total divided by 50. *)
Definition dailyIsFiftieth (s : BudgetManager.t) : Prop :=
  forall c, config s = Some c -> dailyAmount c == totalBudget c / 50.

(** A holding qualifies for averaging down: its instrument is ranked and
    the change from its buy price to the instrument's price is at or
    under the threshold. *)
Definition qualifiesForAveraging (config : StrategyConfig)
  (rankedETFs : list RankedETF) (h : Holding) : bool :=
  match JS.find (fun e => String.eqb (id (etf e)) (holding_etf_id h))
                rankedETFs with
  | Some e =>
      JS.leb (Utils.calculatePercentageChange (buy_price h) (cmp (etf e)))
             (averagingLossThreshold config)
  | None => false
  end.


(** * Sample data *)

(** Monday 1 January 2024, Friday 5 January 2024 and noon of Wednesday
    10 January 2024, as time values. *)
Definition monday_2024_01_01 : Z := 1704067200000.
Definition friday_2024_01_05 : Z := 1704412800000.
Definition noon_2024_01_10 : Z := 1704888000000.

(** A budget of 50000 started on 1 January 2024, 49000 of it used. *)
Definition sampleConfig : Config :=
  {| totalBudget := 50000;
     dailyAmount := 1000;
     startDate := monday_2024_01_01;
     usedAmount := 49000;
     reinvestedProfit := 0;
     daysCompleted := 0;
     createdDate := monday_2024_01_01 |}.

Definition sampleBudget : BudgetManager.t :=
  {| config := Some sampleConfig;
     supabase := true |}.

(** No budget set. *)
Definition unconfiguredBudget : BudgetManager.t :=
  {| config := None; supabase := true |}.

(** Three lots of one instrument bought at 100, now at 110, on the first
    of January, February and March 2024, and a lot that is at a loss. *)
Definition lot (name : string) (buy : Q) (date : Z) (cmp : Q)
  : Holding :=
  {| holding_id := name;
     holding_etf_id := "etf-1";
     buy_price := buy;
     quantity := 10;
     date_purchased := date;
     etfs_name := "NIFTYBEES";
     etfs_cmp := cmp |}.

Definition sampleHoldings : list Holding :=
  [ lot "jan" 100 1704067200000 110;
    lot "mar" 100 1709251200000 110;
    lot "loss" 120 1711929600000 110;
    lot "feb" 100 1706745600000 110 ].

(** Six instruments; the second and the fourth are below their average. *)
Definition sampleETFs : list ETF :=
  [ mkETF "a" "ALPHA" 105 100;
    mkETF "b" "BETA" 90 100;
    mkETF "c" "GAMMA" 100 100;
    mkETF "d" "DELTA" 97 100;
    mkETF "e" "EPSILON" 50 0;
    mkETF "f" "ZETA" 120 100 ].

(** The sample budget (1000 available), one active lot of 10 units
    bought at 100 on 1 January 2024, and a store that takes writes. *)
Definition sampleWorld : World :=
  {| budgetManager := sampleBudget;
     holdingsTable :=
       [ mkHoldingRow "jan" "etf-1" 100 10 monday_2024_01_01 true None None ];
     storeAccepts := true;
     storeNewId := "new";
     pendingBuyOptions := None;
     selectedETFOption := None;
     pendingBuyAction := None |}.


(** * The code on binary64 numbers

    A JavaScript number is an IEEE 754 binary64 value, and every sum,
    difference, product and quotient of the code is rounded to one.  The
    functions whose decisions compare rounded amounts with a threshold
    or with an amount computed another way are embedded a second time
    here, on the kernel's binary64 floats: [calculatePercentageChange],
    the available amount and [recordInvestment], the recommended
    quantity, the buy and sell decisions, and the execution and the
    confirmation of a buy.  Dates stay time values in [Z]; a difference
    of two time values is exact in binary64. *)
Module Binary64.

Local Open Scope float_scope.

(** ** Numbers *)

(** The number an integer literal or an integer column denotes; it is
    the integer itself up to 2^53. *)
Definition ofInteger (z : Z) : float :=
  SF2Prim (binary_normalize prec emax z 0 false).

(** The number the decimal literal [p / q] denotes, [p] and [q] under
    2^53: a quotient of two integers that are numbers is rounded once,
    to the number nearest to the decimal. *)
Definition decimal (p : Z) (q : positive) : float :=
  ofInteger p / ofInteger (Zpos q).

(** [a > b]; false when either is NaN. *)
Definition gtb (a b : float) : bool := b <? a.

(** [!x] on a number: true for 0, -0 and NaN. *)
Definition falsy (x : float) : bool := is_zero x || is_nan x.

(** [Math.floor(x)]: NaN, the infinities and the zeros are returned as
    they are, and so is a number without fractional bits. *)
Definition floor (x : float) : float :=
  match Prim2SF x with
  | S754_finite negative m e =>
      if (0 <=? e)%Z then x
      else
        let unit := (2 ^ (- e))%Z in
        ofInteger (if negative then (- ((Zpos m + unit - 1) / unit))%Z
                   else (Zpos m / unit)%Z)
  | _ => x
  end.

(** [Math.max(a, b)]: NaN when either is NaN; of the two zeros, +0. *)
Definition max (a b : float) : float :=
  if is_nan a || is_nan b then nan
  else if a <? b then b
  else if b <? a then a
  else if get_sign a then b else a.

(** ** utils.js *)

(** [Utils.calculatePercentageChange(oldValue, newValue)]. *)
Definition calculatePercentageChange (oldValue newValue : float) : float :=
  if oldValue =? 0 then 0
  else ((newValue - oldValue) / oldValue) * 100.

(** ** The budget manager *)

(** [this.config]. *)
Record Config : Type := mkConfig {
  totalBudget : float;
  dailyAmount : float;
  startDate : Z;
  usedAmount : float;
  reinvestedProfit : float;
  daysCompleted : Z;
  createdDate : Z
}.

Definition set_usedAmount (v : float) (c : Config) : Config :=
  mkConfig (totalBudget c) (dailyAmount c) (startDate c) v
           (reinvestedProfit c) (daysCompleted c) (createdDate c).
Definition set_daysCompleted (v : Z) (c : Config) : Config :=
  mkConfig (totalBudget c) (dailyAmount c) (startDate c) (usedAmount c)
           (reinvestedProfit c) v (createdDate c).

(** The object, as in the first embedding. *)
Record Budget : Type := mkBudget {
  config : option Config;
  supabase : bool
}.

Definition with_config (c : option Config) (s : Budget) : Budget :=
  mkBudget c (supabase s).

(** What [recordInvestment] throws: 'Insufficient budget. Available:
    ..., Required: ...'; [IterationBudgetExhausted] marks a day loop of
    the model cut short. *)
Inductive error : Type :=
| InsufficientBudget (available required : float)
| IterationBudgetExhausted.

Inductive outcome (A : Type) : Type :=
| Returned (a : A)
| Thrown (e : error).
Arguments Returned {A} a.
Arguments Thrown {A} e.

(** [getAvailableAmount()]. *)
Definition getAvailableAmount (s : Budget) : float :=
  match config s with
  | None => 0
  | Some c => totalBudget c - usedAmount c + reinvestedProfit c
  end.

(** [getDailyAmount()]. *)
Definition getDailyAmount (s : Budget) : float :=
  match config s with
  | None => 0
  | Some c => dailyAmount c
  end.

(** What [checkSufficientBudget] returns. *)
Record BudgetCheck : Type := mkBudgetCheck {
  sufficient : bool;
  check_available : float;
  required : float;
  shortfall : float
}.

(** [checkSufficientBudget(amount)]. *)
Definition checkSufficientBudget (amount : float) (s : Budget) : BudgetCheck :=
  let available := getAvailableAmount s in
  {| sufficient := amount <=? available;
     check_available := available;
     required := amount;
     shortfall := max 0 (amount - available) |}.

Section Clock.
(** The time value of [new Date()]. *)
Variable now : Z.

(** [updateDisplay()]: through [getRemainingDays()] and
    [calculateDaysCompleted()] it stores the days completed, counted by
    the day loop of the first embedding. *)
Definition updateDisplay (s : Budget) : outcome unit * Budget :=
  match config s with
  | None => (Returned tt, s)
  | Some c =>
      match BudgetManager.daysLoop
              (BudgetManager.daysFuel (startDate c) now) (startDate c) now 0
      with
      | None => (Thrown IterationBudgetExhausted, s)
      | Some d =>
          (Returned tt,
           with_config (Some (set_daysCompleted (Z.min d 50) c)) s)
      end
  end.

(** [recordInvestment(amount)]. *)
Definition recordInvestment (amount : float) (s : Budget)
  : outcome bool * Budget :=
  match config s with
  | None => (Returned false, s)
  | Some c =>
      let available := getAvailableAmount s in
      if gtb amount available
      then (Thrown (InsufficientBudget available amount), s)
      else
        match updateDisplay
                (with_config
                   (Some (set_usedAmount (usedAmount c + amount) c)) s) with
        | (Returned _, s') => (Returned true, s')
        | (Thrown e, s') => (Thrown e, s')
        end
  end.

End Clock.

(** ** The trading strategy *)

(** [this.config]. *)
Record StrategyConfig : Type := mkStrategyConfig {
  maxRankToConsider : nat;
  averagingLossThreshold : float;
  profitThreshold : float;
  defaultQuantity : float
}.

(** The values the constructor sets. *)
Definition constructorConfig : StrategyConfig :=
  {| maxRankToConsider := 5;
     averagingLossThreshold := -2.5;
     profitThreshold := 6;
     defaultQuantity := 1 |}.

(** A row of the [etfs] table with its deviation. *)
Record RankedETF : Type := mkRankedETF {
  id : string;
  name : string;
  cmp : float;
  dma_20 : float;
  deviation : float
}.

(** A row of [holdings] joined with [etfs (name, cmp)]. *)
Record Holding : Type := mkHolding {
  holding_id : string;
  holding_etf_id : string;
  buy_price : float;
  quantity : float;
  date_purchased : Z;
  etfs_name : string;
  etfs_cmp : float
}.

(** An element of [eligibleETFs]. *)
Record BuyOption : Type := mkBuyOption {
  option_etf : RankedETF;
  option_quantity : float;
  option_rank : Z
}.

(** What [determineBuyAction] returns when it is not [null]. *)
Inductive BuyAction : Type :=
| MULTIPLE_OPTIONS (options : list BuyOption) (defaultOption : BuyOption)
| AVERAGE (etf : RankedETF) (lossPercent : float) (quantity : float).

(** [{ ...holding, profitPercent }]. *)
Record ProfitableHolding : Type := mkProfitableHolding {
  holding : Holding;
  profitPercent : float
}.

(** What [determineSellAction] returns when it is not [null]. *)
Inductive SellAction : Type :=
| SELL (holding : ProfitableHolding).

Section Strategy.
(** [this.config] and the global [budgetManager]. *)
Variable config : StrategyConfig.
Variable budgetManager : Budget.

(** [calculateRecommendedQuantity(price)]. *)
Definition calculateRecommendedQuantity (price : float) : float :=
  let dailyAmount := getDailyAmount budgetManager in
  if falsy dailyAmount || (dailyAmount =? 0) then defaultQuantity config
  else
    let maxQuantity := floor (dailyAmount / price) in
    max 1 maxQuantity.

(** One turn of the [for] loop of [determineBuyAction] over the first
    ranks. *)
Definition eligibleStep (rankedETFs : list RankedETF)
  (heldETFIds : list string) (eligibleETFs : list BuyOption) (i : nat)
  : list BuyOption :=
  match nth_error rankedETFs i with
  | None => eligibleETFs
  | Some etf =>
      if negb (JS.includes heldETFIds (id etf)) then
        eligibleETFs ++
          [{| option_etf := etf;
              option_quantity := calculateRecommendedQuantity (cmp etf);
              option_rank := Z.of_nat i + 1 |}]
      else eligibleETFs
  end.

(** Rule 2 of [determineBuyAction]: the loop over the holdings, which
    returns at the first holding that qualifies. *)
Fixpoint averagingLoop (rankedETFs : list RankedETF) (holdings : list Holding)
  : option BuyAction :=
  match holdings with
  | [] => None
  | holding :: rest =>
      match JS.find (fun e => String.eqb (id e) (holding_etf_id holding))
                    rankedETFs with
      | None => averagingLoop rankedETFs rest
      | Some etf =>
          let currentPrice := cmp etf in
          let lossPercent :=
            calculatePercentageChange (buy_price holding) currentPrice in
          if lossPercent <=? averagingLossThreshold config then
            Some (AVERAGE etf lossPercent
                          (calculateRecommendedQuantity (cmp etf)))
          else averagingLoop rankedETFs rest
      end
  end.

(** [determineBuyAction(rankedETFs, heldETFIds, holdings)]. *)
Definition determineBuyAction (rankedETFs : list RankedETF)
  (heldETFIds : list string) (holdings : list Holding) : option BuyAction :=
  let eligibleETFs :=
    fold_left (eligibleStep rankedETFs heldETFIds)
              (seq 0 (Nat.min (maxRankToConsider config)
                              (List.length rankedETFs)))
              [] in
  match eligibleETFs with
  | first :: _ => Some (MULTIPLE_OPTIONS eligibleETFs first)
  | [] => averagingLoop rankedETFs holdings
  end.

(** The first loop of [determineSellAction]. *)
Fixpoint profitableLoop (holdings : list Holding) : list ProfitableHolding :=
  match holdings with
  | [] => []
  | holding :: rest =>
      let currentPrice := etfs_cmp holding in
      let profitPercent :=
        calculatePercentageChange (buy_price holding) currentPrice in
      if gtb profitPercent (profitThreshold config) then
        {| holding := holding; profitPercent := profitPercent |}
          :: profitableLoop rest
      else profitableLoop rest
  end.

(** [determineSellAction(holdings)]; the comparator subtracts two time
    values. *)
Definition determineSellAction (holdings : list Holding) : option SellAction :=
  let profitableHoldings := profitableLoop holdings in
  match profitableHoldings with
  | [] => None
  | _ :: _ =>
      let sorted :=
        JS.sort (fun a b =>
                   inject_Z (date_purchased (holding b)
                             - date_purchased (holding a)))
                profitableHoldings in
      match sorted with
      | holdingToSell :: _ => Some (SELL holdingToSell)
      | [] => None
      end
  end.

End Strategy.

(** ** Execution of a buy *)

(** A row of the [holdings] table. *)
Record HoldingRow : Type := mkHoldingRow {
  row_id : string;
  row_etf_id : string;
  row_buy_price : float;
  row_quantity : float;
  row_date_purchased : Z;
  row_active : bool;
  row_sell_price : option float;
  row_date_sold : option Z
}.

(** What the execution throws: an [Error] of the budget manager's
    message, or the error object of a write the store rejected. *)
Inductive execFailure : Type :=
| BudgetFailure (e : error)
| StoreRejected.

(** [window.pendingBuyAction]: [{ ...buyAction, quantity, amount }]. *)
Record PendingBuy : Type := mkPendingBuy {
  pending_etf : RankedETF;
  pending_quantity : float;
  pending_amount : float
}.

(** What a buy reads and writes: the global [budgetManager], the
    [holdings] table, whether the store takes the next write and the id
    it gives to a new row, and [window.pendingBuyAction]. *)
Record World : Type := mkWorld {
  budgetManager : Budget;
  holdingsTable : list HoldingRow;
  storeAccepts : bool;
  storeNewId : string;
  pendingBuyAction : option PendingBuy
}.

Definition with_budgetManager (b : Budget) (w : World) : World :=
  mkWorld b (holdingsTable w) (storeAccepts w) (storeNewId w)
          (pendingBuyAction w).
Definition with_holdingsTable (t : list HoldingRow) (w : World) : World :=
  mkWorld (budgetManager w) t (storeAccepts w) (storeNewId w)
          (pendingBuyAction w).
Definition with_pendingBuyAction (p : option PendingBuy) (w : World) : World :=
  mkWorld (budgetManager w) (holdingsTable w) (storeAccepts w)
          (storeNewId w) p.

(** The quantity [showBuyConfirmation] and [executeBuyAction] settle on:
    the quantity asked for when [checkSufficientBudget] finds the budget
    sufficient, otherwise [Math.floor(availableAmount / cmp)] when that
    is above 0, otherwise none. *)
Definition fittingQuantity (b : Budget) (price quantity : float)
  : option float :=
  let availableAmount := getAvailableAmount b in
  let requiredAmount := price * quantity in
  let budgetCheck := checkSufficientBudget requiredAmount b in
  if negb (sufficient budgetCheck) then
    let maxQuantity := floor (availableAmount / price) in
    if gtb maxQuantity 0 then Some maxQuantity else None
  else Some quantity.

(** [showBuyConfirmation(buyAction)], for the action's [etf] and
    [quantity]: what it stores in [window.pendingBuyAction]. *)
Definition showBuyConfirmation (etf : RankedETF) (quantity : float)
  (w : World) : World :=
  match fittingQuantity (budgetManager w) (cmp etf) quantity with
  | None => w
  | Some finalQuantity =>
      let finalAmount := cmp etf * finalQuantity in
      with_pendingBuyAction
        (Some {| pending_etf := etf;
                 pending_quantity := finalQuantity;
                 pending_amount := finalAmount |})
        w
  end.

(** What [executeBuyAction] returns. *)
Record BuyResult : Type := mkBuyResult {
  buy_success : bool;
  buy_amount : float;
  buy_quantity : float
}.

(** What [confirmBuyAction] comes to: no pending buy, the pending amount
    above the available amount, the purchase made, or the purchase
    failed with what [executeBuyAction] threw. *)
Inductive Confirmation : Type :=
| NoPendingBuy
| InsufficientForPending (available required : float)
| Purchased (result : BuyResult)
| PurchaseFailed (e : execFailure).

Section Execution.
(** The time value of [new Date()]. *)
Variable now : Z.

(** The row [executeBuyAction] inserts. *)
Definition boughtRow (w : World) (etf : RankedETF) (quantity : float)
  : HoldingRow :=
  {| row_id := storeNewId w;
     row_etf_id := id etf;
     row_buy_price := cmp etf;
     row_quantity := quantity;
     row_date_purchased := JS.startOfDay now;
     row_active := true;
     row_sell_price := None;
     row_date_sold := None |}.

(** [executeBuyAction(buyAction)], for the action's [etf] and
    [quantity]: the result or the error thrown, the [quantity] the
    action carries afterwards, and the world afterwards. *)
Definition executeBuyAction (etf : RankedETF) (quantity : float) (w : World)
  : (execFailure + BuyResult) * float * World :=
  let price := cmp etf in
  let availableAmount := getAvailableAmount (budgetManager w) in
  let requiredAmount := price * quantity in
  match fittingQuantity (budgetManager w) price quantity with
  | None =>
      (inl (BudgetFailure (InsufficientBudget availableAmount requiredAmount)),
       quantity, w)
  | Some quantity =>
      let finalAmount := price * quantity in
      if storeAccepts w then
        let w1 :=
          with_holdingsTable (holdingsTable w ++ [boughtRow w etf quantity])
                             w in
        match recordInvestment now finalAmount (budgetManager w1) with
        | (Returned _, b) =>
            (inr {| buy_success := true;
                    buy_amount := finalAmount;
                    buy_quantity := quantity |},
             quantity, with_budgetManager b w1)
        | (Thrown e, b) =>
            (inl (BudgetFailure e), quantity, with_budgetManager b w1)
        end
      else (inl StoreRejected, quantity, w)
  end.

(** [confirmBuyAction()] of the page: the pending buy is refused when
    its amount is above the available amount, and executed otherwise;
    after a purchase the pending buy is cleared, after a failure it
    stays, with the quantity [executeBuyAction] left in it. *)
Definition confirmBuyAction (w : World) : Confirmation * World :=
  match pendingBuyAction w with
  | None => (NoPendingBuy, w)
  | Some buyAction =>
      let availableAmount := getAvailableAmount (budgetManager w) in
      if gtb (pending_amount buyAction) availableAmount then
        (InsufficientForPending availableAmount (pending_amount buyAction), w)
      else
        match executeBuyAction (pending_etf buyAction)
                               (pending_quantity buyAction) w with
        | (inr result, _, w') =>
            (Purchased result, with_pendingBuyAction None w')
        | (inl e, quantity, w') =>
            (PurchaseFailed e,
             with_pendingBuyAction
               (Some {| pending_etf := pending_etf buyAction;
                        pending_quantity := quantity;
                        pending_amount := pending_amount buyAction |})
               w')
        end
  end.

End Execution.

(** ** Vocabulary of the specification *)

(** The profit percent of a holding as the specification writes it,
    [(currentPrice - buyPrice) / buyPrice * 100]. *)
Definition profitPercentOf (h : Holding) : float :=
  (etfs_cmp h - buy_price h) / buy_price h * 100.

(** An instrument whose id is not among the held ids. *)
Definition notHeld (heldETFIds : list string) (e : RankedETF) : bool :=
  negb (JS.includes heldETFIds (id e)).

(** A holding qualifies for averaging down: its instrument is ranked and
    the change from its buy price to the instrument's price, as
    [calculatePercentageChange] computes it, is at or under the
    threshold. *)
Definition qualifiesForAveraging (config : StrategyConfig)
  (rankedETFs : list RankedETF) (h : Holding) : bool :=
  match JS.find (fun e => String.eqb (id e) (holding_etf_id h)) rankedETFs with
  | Some e =>
      calculatePercentageChange (buy_price h) (cmp e)
      <=? averagingLossThreshold config
  | None => false
  end.

(** ** Sample data *)

(** A budget of 14193.88 of which 5272.38 is used. *)
Definition tightConfig : Config :=
  {| totalBudget := decimal 1419388 100;
     dailyAmount := decimal 1419388 100 / 50;
     startDate := monday_2024_01_01;
     usedAmount := decimal 527238 100;
     reinvestedProfit := 0;
     daysCompleted := 0;
     createdDate := monday_2024_01_01 |}.

Definition tightBudget : Budget :=
  {| config := Some tightConfig; supabase := true |}.

(** A budget whose daily amount is the given one. *)
Definition budgetWithDaily (daily : float) : Budget :=
  {| config :=
       Some {| totalBudget := daily * 50;
               dailyAmount := daily;
               startDate := monday_2024_01_01;
               usedAmount := 0;
               reinvestedProfit := 0;
               daysCompleted := 0;
               createdDate := monday_2024_01_01 |};
     supabase := true |}.

(** No budget set. *)
Definition noBudget : Budget := {| config := None; supabase := true |}.

(** A budget of 13821.31 with 3367.37 used and 1337.47 reinvested, and
    an instrument at 170.89. *)
Definition narrowBudget : Budget :=
  {| config :=
       Some {| totalBudget := decimal 1382131 100;
               dailyAmount := decimal 1382131 100 / 50;
               startDate := monday_2024_01_01;
               usedAmount := decimal 336737 100;
               reinvestedProfit := decimal 133747 100;
               daysCompleted := 0;
               createdDate := monday_2024_01_01 |};
     supabase := true |}.

Definition narrowWorld : World :=
  {| budgetManager := narrowBudget;
     holdingsTable := [];
     storeAccepts := true;
     storeNewId := "new";
     pendingBuyAction := None |}.

Definition instrument17089 : RankedETF :=
  mkRankedETF "g" "GOLDBEES" (decimal 17089 100) 175 (decimal (-235) 100).

(** A budget of 50000 with 49000 used, and an instrument at 97. *)
Definition thousandLeft : World :=
  {| budgetManager :=
       {| config :=
            Some {| totalBudget := 50000;
                    dailyAmount := 1000;
                    startDate := monday_2024_01_01;
                    usedAmount := 49000;
                    reinvestedProfit := 0;
                    daysCompleted := 0;
                    createdDate := monday_2024_01_01 |};
          supabase := true |};
     holdingsTable := [];
     storeAccepts := true;
     storeNewId := "new";
     pendingBuyAction := None |}.

Definition instrument97 : RankedETF := mkRankedETF "d" "DELTA" 97 100 (-3).

(** A lot of 10 units. *)
Definition lot (name : string) (buy : float) (date : Z) (cmp : float)
  : Holding :=
  {| holding_id := name;
     holding_etf_id := "etf-1";
     buy_price := buy;
     quantity := 10;
     date_purchased := date;
     etfs_name := "NIFTYBEES";
     etfs_cmp := cmp |}.

(** Five instruments in the order of their ranks. *)
Definition sampleRanking : list RankedETF :=
  [ mkRankedETF "b" "BETA" 90 100 (-10);
    mkRankedETF "d" "DELTA" 97 100 (-3);
    mkRankedETF "c" "GAMMA" (decimal 2535 100) 26 (-2.5);
    mkRankedETF "a" "ALPHA" 105 100 5;
    mkRankedETF "f" "ZETA" 120 100 20 ].

(** A holding of one unit bought on 1 January 2024. *)
Definition held (name etf : string) (buy cmp : float) : Holding :=
  {| holding_id := name;
     holding_etf_id := etf;
     buy_price := buy;
     quantity := 1;
     date_purchased := monday_2024_01_01;
     etfs_name := etf;
     etfs_cmp := cmp |}.

(** Lots bought at 100 and now at 110 on the first of January, March and
    February 2024, with a lot at a loss between them. *)
Definition sampleHoldings : list Holding :=
  [ lot "jan" 100 1704067200000 110;
    lot "mar" 100 1709251200000 110;
    lot "loss" 120 1711929600000 110;
    lot "feb" 100 1706745600000 110 ].

End Binary64.


(** * Properties *)

(** ** Comparisons on numbers *)

Lemma ltb_lt (a b : Q) : JS.ltb a b = true <-> a < b.
Proof.
  unfold JS.ltb. rewrite negb_true_iff, <- not_true_iff_false, Qle_bool_iff.
  split; [apply Qnot_le_lt | apply Qlt_not_le].
Qed.

Lemma ltb_ge (a b : Q) : JS.ltb a b = false <-> b <= a.
Proof.
  unfold JS.ltb. rewrite negb_false_iff. apply Qle_bool_iff.
Qed.

Lemma gtb_gt (a b : Q) : JS.gtb a b = true <-> b < a.
Proof. apply ltb_lt. Qed.

Lemma gtb_le (a b : Q) : JS.gtb a b = false <-> a <= b.
Proof. apply ltb_ge. Qed.

Lemma leb_le (a b : Q) : JS.leb a b = true <-> a <= b.
Proof. apply Qle_bool_iff. Qed.

Lemma leb_gt (a b : Q) : JS.leb a b = false <-> b < a.
Proof.
  unfold JS.leb. rewrite <- not_true_iff_false, Qle_bool_iff.
  split; [apply Qnot_le_lt | apply Qlt_not_le].
Qed.

Lemma eqb_eq (a b : Q) : JS.eqb a b = true <-> a == b.
Proof. apply Qeq_bool_iff. Qed.

Lemma eqb_neq (a b : Q) : JS.eqb a b = false <-> ~ a == b.
Proof.
  unfold JS.eqb. rewrite <- not_true_iff_false, Qeq_bool_iff. tauto.
Qed.

(** ** The day counters *)

Lemma getDay_range (t : Z) : (0 <= JS.getDay t < 7)%Z.
Proof. unfold JS.getDay. apply Z.mod_pos_bound. lia. Qed.

Lemma notWeekend_mondayToFriday (t : Z) :
  Utils.notWeekend t = mondayToFriday t.
Proof.
  unfold Utils.notWeekend, mondayToFriday.
  pose proof (getDay_range t) as R.
  destruct (Z.eqb_spec (JS.getDay t) 0), (Z.eqb_spec (JS.getDay t) 6),
    (Z.leb_spec 1 (JS.getDay t)), (Z.leb_spec (JS.getDay t) 5);
    simpl; try reflexivity; lia.
Qed.

Lemma weekdaysIn_bounds (n : nat) (first : Z) :
  (0 <= weekdaysIn n first <= Z.of_nat n)%Z.
Proof.
  revert first. induction n as [|n IH]; intros first.
  - simpl. lia.
  - specialize (IH (JS.nextDay first)).
    change (weekdaysIn (S n) first)
      with ((if mondayToFriday first then 1 else 0)
            + weekdaysIn n (JS.nextDay first))%Z.
    destruct (mondayToFriday first); lia.
Qed.

(** The dates the loop visits are the days [start + k] that are not after
    [today]: there are [daysFuel start today] of them. *)
Lemma daysFuel_spec (start today : Z) (k : nat) :
  (k < BudgetManager.daysFuel start today)%nat
  <-> (start + Z.of_nat k * JS.msPerDay <= today)%Z.
Proof.
  unfold BudgetManager.daysFuel, JS.msPerDay.
  set (q := ((today - start) / 86400000)%Z).
  assert (Hq : (86400000 * q <= today - start < 86400000 * (q + 1))%Z).
  { unfold q.
    pose proof (Z.mul_div_le (today - start) 86400000 ltac:(lia)).
    pose proof (Z.mul_succ_div_gt (today - start) 86400000 ltac:(lia)).
    lia. }
  split; intros H; nia.
Qed.

Lemma daysFuel_next (start today : Z) :
  (start <= today)%Z ->
  BudgetManager.daysFuel start today
  = S (BudgetManager.daysFuel (JS.nextDay start) today).
Proof.
  intros H. unfold BudgetManager.daysFuel, JS.nextDay, JS.msPerDay.
  replace (today - (start + 86400000))%Z
    with ((today - start) + (-1) * 86400000)%Z by lia.
  rewrite Z.div_add by lia.
  assert (0 <= (today - start) / 86400000)%Z by (apply Z.div_pos; lia).
  lia.
Qed.

Lemma daysFuel_future (start today : Z) :
  (today < start)%Z -> BudgetManager.daysFuel start today = 0%nat.
Proof.
  intros H. unfold BudgetManager.daysFuel, JS.msPerDay.
  assert ((today - start) / 86400000 < 0)%Z
    by (apply Z.div_lt_upper_bound; lia).
  lia.
Qed.

(** The loop, from any date and any count not above 50: it exits within
    the iteration budget and adds the weekdays left, up to 50. *)
Lemma daysLoop_spec (fuel : nat) :
  forall checkDate today count,
    (BudgetManager.daysFuel checkDate today <= fuel)%nat ->
    (count <= 50)%Z ->
    BudgetManager.daysLoop fuel checkDate today count
    = Some (Z.min 50
              (count + weekdaysIn (BudgetManager.daysFuel checkDate today)
                                  checkDate)).
Proof.
  induction fuel as [|fuel IH]; intros checkDate today count Hfuel Hcount.
  - assert (E : BudgetManager.daysFuel checkDate today = 0%nat) by lia.
    rewrite E. simpl.
    destruct (Z.leb_spec checkDate today) as [Hle|Hgt].
    + rewrite (daysFuel_next _ _ Hle) in E. discriminate.
    + simpl. f_equal. lia.
  - cbn [BudgetManager.daysLoop].
    destruct (Z.leb_spec checkDate today) as [Hle|Hgt].
    + destruct (Z.ltb_spec count 50) as [Hlt|Hge]; cbn [andb].
      * rewrite (daysFuel_next _ _ Hle) in Hfuel |- *.
        rewrite IH.
        2: lia.
        2: destruct (Utils.notWeekend checkDate); lia.
        cbn [weekdaysIn]. rewrite notWeekend_mondayToFriday.
        f_equal. destruct (mondayToFriday checkDate); lia.
      * f_equal.
        pose proof (weekdaysIn_bounds
                      (BudgetManager.daysFuel checkDate today) checkDate).
        lia.
    + cbn [andb]. rewrite (daysFuel_future _ _ Hgt). simpl. f_equal. lia.
Qed.

(** ** [Array.prototype.sort] *)

Section SortFacts.
Context {A : Type} (comparefn : A -> A -> Q).

Lemma insert_perm (x : A) (l : list A) :
  Permutation (x :: l) (JS.insert comparefn x l).
Proof.
  induction l as [|y l IH]; simpl.
  - apply Permutation_refl.
  - destruct (JS.gtb (comparefn x y) 0).
    + eapply perm_trans; [apply perm_swap | apply perm_skip, IH].
    + apply Permutation_refl.
Qed.

Lemma sort_perm (l : list A) : Permutation l (JS.sort comparefn l).
Proof.
  induction l as [|x l IH]; simpl.
  - apply perm_nil.
  - eapply perm_trans; [apply perm_skip, IH | apply insert_perm].
Qed.

(** The order the comparator stands for: [before a b] when [a] may stay
    in front of [b]. *)
Variable before : A -> A -> Prop.
Hypothesis before_trans : forall a b c, before a b -> before b c -> before a c.
Hypothesis comparefn_pos : forall a b, 0 < comparefn a b -> before b a.
Hypothesis comparefn_nonpos : forall a b, comparefn a b <= 0 -> before a b.

Lemma insert_sorted (x : A) (l : list A) :
  StronglySorted before l -> StronglySorted before (JS.insert comparefn x l).
Proof.
  induction 1 as [|y l Hs IH Hy]; simpl.
  - constructor; constructor.
  - destruct (JS.gtb (comparefn x y) 0) eqn:E.
    + apply gtb_gt in E. constructor; [exact IH|].
      eapply Permutation_Forall; [apply insert_perm|].
      constructor; [apply comparefn_pos, E | exact Hy].
    + apply gtb_le in E. apply comparefn_nonpos in E.
      constructor; [constructor; assumption|].
      constructor; [exact E|].
      eapply Forall_impl; [|exact Hy].
      intros z Hz. eapply before_trans; eassumption.
Qed.

Lemma sort_sorted (l : list A) : StronglySorted before (JS.sort comparefn l).
Proof.
  induction l as [|x l IH]; simpl.
  - constructor.
  - apply insert_sorted, IH.
Qed.

(** The first element of the sorted array stays in front of every
    element of the array. *)
Lemma sort_head (l : list A) (x : A) (rest : list A) :
  JS.sort comparefn l = x :: rest ->
  In x l /\ forall y, In y l -> y = x \/ before x y.
Proof.
  intros E. pose proof (sort_sorted l) as Hs. pose proof (sort_perm l) as Hp.
  rewrite E in Hs, Hp. split.
  - eapply Permutation_in; [apply Permutation_sym, Hp | left; reflexivity].
  - intros y Hy. apply (Permutation_in _ Hp) in Hy.
    destruct Hy as [->|Hy]; [left; reflexivity | right].
    apply StronglySorted_inv in Hs. destruct Hs as [_ Hall].
    rewrite Forall_forall in Hall. apply Hall, Hy.
Qed.

End SortFacts.

Lemma mapi_from_length {A B} (f : A -> nat -> B) (l : list A) :
  forall i, List.length (JS.mapi_from f i l) = List.length l.
Proof.
  induction l as [|x l IH]; intros i; simpl; [reflexivity|].
  now rewrite IH.
Qed.

Lemma mapi_from_map {A B C} (f : A -> nat -> B) (g : B -> C) (l : list A) :
  forall i,
    map g (JS.mapi_from f i l)
    = map (fun p => g (f (fst p) (snd p))) (combine l (seq i (List.length l))).
Proof.
  induction l as [|x l IH]; intros i; simpl; [reflexivity|].
  now rewrite IH.
Qed.

Lemma mapi_from_In {A B} (f : A -> nat -> B) (l : list A) (y : B) :
  forall i,
    In y (JS.mapi_from f i l) ->
    exists x k, In x l /\ (i <= k)%nat /\ y = f x k.
Proof.
  induction l as [|x l IH]; intros i H; simpl in H; [contradiction|].
  destruct H as [<-|H].
  - exists x, i. split; [left; reflexivity | split; [lia | reflexivity]].
  - destruct (IH _ H) as (x' & k & Hin & Hk & ->).
    exists x', k. split; [right; exact Hin | split; [lia | reflexivity]].
Qed.

(** ** Ranking *)

(** Entries built from an array sorted by deviation: a smaller rank never
    carries a larger deviation. *)
Lemma rankingEntry_monotone (l : list RankedETF) :
  StronglySorted (fun a b => deviation a <= deviation b) l ->
  forall i r r',
    In r (JS.mapi_from rankingEntry i l) ->
    In r' (JS.mapi_from rankingEntry i l) ->
    (rank r <= rank r')%Z ->
    ranking_deviation r <= ranking_deviation r'.
Proof.
  induction 1 as [|x l Hs IH Hx]; intros i r r' Hr Hr' Hle;
    simpl in Hr, Hr'; [contradiction|].
  destruct Hr as [<-|Hr], Hr' as [<-|Hr'].
  - apply Qle_refl.
  - apply mapi_from_In in Hr'. destruct Hr' as (y & k & Hy & _ & ->).
    simpl. rewrite Forall_forall in Hx. apply Hx, Hy.
  - apply mapi_from_In in Hr. destruct Hr as (y & k & _ & Hk & ->).
    simpl in Hle. lia.
  - eapply IH; eassumption.
Qed.

Lemma rankingEntry_ranks (l : list RankedETF) :
  forall i,
    map rank (JS.mapi_from rankingEntry i l)
    = map Z.of_nat (seq (S i) (List.length l)).
Proof.
  induction l as [|x l IH]; intros i; simpl; [reflexivity|].
  rewrite IH. f_equal. lia.
Qed.

Lemma rankingEntry_etfs (l : list RankedETF) :
  forall i, map ranking_etf (JS.mapi_from rankingEntry i l) = l.
Proof.
  induction l as [|x l IH]; intros i; simpl; [reflexivity|].
  now rewrite IH.
Qed.

(** C6. For every list of N instruments, [calculateRankings] gives each
    ranking entry the deviation [(cmp - dma) / dma * 100] of its
    instrument, and 0 when [dma] is 0; the entries are the input
    instruments in another order; their ranks are 1, 2, ..., N in that
    order; a smaller rank never carries a larger deviation, so that rank 1
    carries the minimum deviation. *)
Theorem calculateRankings_spec (etfs : list ETF) :
  let rankedETFs := fst (calculateRankings etfs) in
  let rankings := snd (calculateRankings etfs) in
  (forall r, In r rankings ->
     let e := etf (ranking_etf r) in
     etf_id r = id e /\
     (dma_20 e == 0 -> ranking_deviation r == 0) /\
     (~ dma_20 e == 0 ->
      ranking_deviation r == (cmp e - dma_20 e) / dma_20 e * 100)) /\
  Permutation (map (fun r => etf (ranking_etf r)) rankings) etfs /\
  map ranking_etf rankings = rankedETFs /\
  map rank rankings = map Z.of_nat (seq 1 (List.length etfs)) /\
  (forall r r', In r rankings -> In r' rankings ->
     (rank r <= rank r')%Z -> ranking_deviation r <= ranking_deviation r') /\
  (forall r r', In r rankings -> In r' rankings ->
     rank r = 1%Z -> ranking_deviation r <= ranking_deviation r').
Proof.
  unfold calculateRankings. cbn [fst snd]. unfold JS.mapi.
  set (withDev := map _ etfs).
  set (cmpfn := fun a b : RankedETF => deviation a - deviation b).
  assert (Hperm : Permutation withDev (JS.sort cmpfn withDev))
    by apply sort_perm.
  assert (Hsorted : StronglySorted (fun a b => deviation a <= deviation b)
                                   (JS.sort cmpfn withDev)).
  { apply sort_sorted.
    - intros a b c Hab Hbc. eapply Qle_trans; eassumption.
    - intros a b H. unfold cmpfn in H. lra.
    - intros a b H. unfold cmpfn in H. lra. }
  assert (Hmono := rankingEntry_monotone _ Hsorted 0).
  repeat split.
  - apply mapi_from_In in H. destruct H as (x & k & _ & _ & ->). reflexivity.
  - intros Hz. apply mapi_from_In in H. destruct H as (x & k & Hx & _ & ->).
    apply (Permutation_in _ (Permutation_sym Hperm)) in Hx.
    unfold withDev in Hx. apply in_map_iff in Hx. destruct Hx as (e0 & <- & _).
    cbn in Hz |- *. unfold Utils.calculateDeviation.
    apply eqb_eq in Hz. rewrite Hz. reflexivity.
  - intros Hnz. apply mapi_from_In in H. destruct H as (x & k & Hx & _ & ->).
    apply (Permutation_in _ (Permutation_sym Hperm)) in Hx.
    unfold withDev in Hx. apply in_map_iff in Hx. destruct Hx as (e0 & <- & _).
    cbn in Hnz |- *. unfold Utils.calculateDeviation.
    apply eqb_neq in Hnz. rewrite Hnz. reflexivity.
  - rewrite <- (map_map ranking_etf etf), rankingEntry_etfs.
    eapply perm_trans.
    + apply Permutation_map, Permutation_sym, Hperm.
    + unfold withDev. rewrite map_map. cbn. rewrite map_id.
      apply Permutation_refl.
  - apply rankingEntry_etfs.
  - rewrite rankingEntry_ranks. do 2 f_equal.
    rewrite <- (Permutation_length Hperm). unfold withDev.
    apply length_map.
  - exact Hmono.
  - intros r r' Hr Hr' H1. apply Hmono; [assumption..|].
    apply mapi_from_In in Hr'. destruct Hr' as (x & k & _ & _ & ->).
    rewrite H1. cbn. lia.
Qed.

(** ** Buy decision *)

Lemma includes_In (l : list string) (x : string) :
  JS.includes l x = true <-> In x l.
Proof.
  unfold JS.includes. rewrite existsb_exists. split.
  - intros (y & Hy & E). apply String.eqb_eq in E. now subst.
  - intros H. exists x. split; [exact H | apply String.eqb_refl].
Qed.

Section BuyFacts.
Variable config : StrategyConfig.
Variable budgetManager : BudgetManager.t.
Variable heldETFIds : list string.

Local Abbreviation options := (optionsFrom config budgetManager heldETFIds).

Lemma eligible_fold (rankedETFs : list RankedETF) (n : nat) :
  forall a acc,
    (a + n <= List.length rankedETFs)%nat ->
    fold_left (eligibleStep config budgetManager rankedETFs heldETFIds)
              (seq a n) acc
    = acc ++ options a (firstn n (skipn a rankedETFs)).
Proof.
  induction n as [|n IH]; intros a acc Hlen.
  - simpl. now rewrite app_nil_r.
  - cbn [seq fold_left]. rewrite IH by lia.
    unfold eligibleStep.
    destruct (nth_error rankedETFs a) as [e|] eqn:E.
    2: { apply nth_error_None in E. lia. }
    apply nth_error_split in E. destruct E as (l1 & l2 & -> & <-).
    rewrite !skipn_app, !skipn_all, Nat.sub_diag.
    replace (S (List.length l1) - List.length l1)%nat with 1%nat by lia.
    rewrite skipn_all2 by lia.
    cbn [app skipn firstn optionsFrom]. unfold notHeld.
    destruct (negb (JS.includes heldETFIds (id (etf e)))).
    + now rewrite <- app_assoc.
    + reflexivity.
Qed.

Lemma optionsFrom_etfs (l : list RankedETF) :
  forall i,
    map option_etf (options i l) = filter (notHeld heldETFIds) l.
Proof.
  induction l as [|e l IH]; intros i; simpl; [reflexivity|].
  destruct (notHeld heldETFIds e); simpl; now rewrite IH.
Qed.

Lemma optionsFrom_In (l : list RankedETF) (o : BuyOption) :
  forall i,
    In o (options i l) ->
    exists k,
      nth_error l k = Some (option_etf o) /\
      option_rank o = (Z.of_nat (i + k) + 1)%Z /\
      option_quantity o
      = calculateRecommendedQuantity config budgetManager
                                     (cmp (etf (option_etf o))).
Proof.
  induction l as [|e l IH]; intros i H; simpl in H; [contradiction|].
  destruct (notHeld heldETFIds e).
  - destruct H as [<-|H].
    + exists 0%nat. cbn. repeat split. f_equal. lia.
    + destruct (IH _ H) as (k & Hk & Hr & Hq).
      exists (S k). cbn. repeat split; [exact Hk | lia | exact Hq].
  - destruct (IH _ H) as (k & Hk & Hr & Hq).
    exists (S k). cbn. repeat split; [exact Hk | lia | exact Hq].
Qed.

Lemma optionsFrom_ranks_increase (l : list RankedETF) :
  forall i,
    StronglySorted (fun a b => (option_rank a < option_rank b)%Z)
                   (options i l).
Proof.
  induction l as [|e l IH]; intros i; simpl; [constructor|].
  destruct (notHeld heldETFIds e); [|apply IH].
  constructor; [apply IH|].
  apply Forall_forall. intros o Ho.
  apply optionsFrom_In in Ho. destruct Ho as (k & _ & -> & _).
  cbn. lia.
Qed.

(** The array [eligibleETFs] at the end of the loop. *)
Lemma eligibleETFs_spec (rankedETFs : list RankedETF) :
  fold_left (eligibleStep config budgetManager rankedETFs heldETFIds)
            (seq 0 (Nat.min (maxRankToConsider config)
                            (List.length rankedETFs)))
            []
  = options 0 (firstn (maxRankToConsider config) rankedETFs).
Proof.
  rewrite eligible_fold by lia. cbn [app skipn].
  f_equal.
  destruct (Nat.min_spec (maxRankToConsider config) (List.length rankedETFs))
    as [[Hlt ->]|[Hge ->]]; [reflexivity|].
  rewrite !firstn_all2 by lia. reflexivity.
Qed.

End BuyFacts.

Lemma averagingLoop_not_options (config : StrategyConfig)
  (budgetManager : BudgetManager.t) (rankedETFs : list RankedETF)
  (holdings : list Holding) (options : list BuyOption) (first : BuyOption) :
  averagingLoop config budgetManager rankedETFs holdings
  <> Some (MULTIPLE_OPTIONS options first).
Proof.
  induction holdings as [|h rest IH]; simpl; [discriminate|].
  destruct (JS.find _ rankedETFs) as [e|]; [|exact IH].
  destruct (JS.leb _ _); [discriminate | exact IH].
Qed.

(** C1. With the constructor's configuration (top 5): when one of the
    five best-ranked instruments is not held, [determineBuyAction]
    returns MULTIPLE_OPTIONS whose options are exactly the not-held
    instruments among the top 5, in rank order, each with its rank in the
    ranking and the recommended quantity, the default option being the
    first, best-ranked one; an AVERAGE decision is returned only when each
    of the top 5 is held, and then no MULTIPLE_OPTIONS decision is. *)
Theorem determineBuyAction_top5 (budgetManager : BudgetManager.t)
  (rankedETFs : list RankedETF) (heldETFIds : list string)
  (holdings : list Holding) :
  let decision :=
    determineBuyAction constructorConfig budgetManager rankedETFs heldETFIds
                       holdings in
  let top5 := firstn 5 rankedETFs in
  let notHeldTop5 := filter (notHeld heldETFIds) top5 in
  (notHeldTop5 <> [] ->
   exists options first,
     decision = Some (MULTIPLE_OPTIONS options first) /\
     map option_etf options = notHeldTop5 /\
     hd_error options = Some first /\
     StronglySorted (fun a b => (option_rank a < option_rank b)%Z) options /\
     (forall o, In o options ->
        (option_rank first <= option_rank o)%Z /\
        (1 <= option_rank o <= 5)%Z /\
        nth_error rankedETFs (Z.to_nat (option_rank o - 1))
        = Some (option_etf o) /\
        option_quantity o
        = calculateRecommendedQuantity constructorConfig budgetManager
                                       (cmp (etf (option_etf o))))) /\
  (forall e lossPercent quantity,
     decision = Some (AVERAGE e lossPercent quantity) ->
     notHeldTop5 = [] /\
     forall e5, In e5 top5 -> In (id (etf e5)) heldETFIds) /\
  (notHeldTop5 = [] ->
   forall options first, decision <> Some (MULTIPLE_OPTIONS options first)).
Proof.
  cbv zeta. unfold determineBuyAction.
  rewrite eligibleETFs_spec. cbn [maxRankToConsider constructorConfig].
  set (top5 := firstn 5 rankedETFs).
  pose proof (optionsFrom_etfs constructorConfig budgetManager heldETFIds
                               top5 0) as Hetfs.
  pose proof (optionsFrom_ranks_increase constructorConfig budgetManager
                                         heldETFIds top5 0) as Hinc.
  pose proof (fun o => optionsFrom_In constructorConfig budgetManager
                                      heldETFIds top5 o 0) as Hin.
  destruct (optionsFrom constructorConfig budgetManager heldETFIds 0 top5)
    as [|first options] eqn:E.
  - simpl in Hetfs. rewrite <- Hetfs. repeat split.
    + intros H. now contradiction H.
    + intros e5 H5.
      assert (Hf : ~ In e5 (filter (notHeld heldETFIds) top5))
        by (rewrite <- Hetfs; intros []).
      rewrite filter_In in Hf. unfold notHeld in Hf.
      destruct (JS.includes heldETFIds (id (etf e5))) eqn:Ei.
      * now apply includes_In.
      * exfalso. apply Hf. now split.
    + intros _ options first. apply averagingLoop_not_options.
  - repeat split.
    + intros _. exists (first :: options), first.
      repeat split; try assumption.
      * apply StronglySorted_inv in Hinc. destruct Hinc as [_ Hall].
        destruct H as [<-|H]; [lia|].
        rewrite Forall_forall in Hall. specialize (Hall _ H). lia.
      * destruct (Hin _ H) as (k & Hk & -> & _). lia.
      * destruct (Hin _ H) as (k & Hk & -> & _).
        assert (k < List.length top5)%nat
          by (apply nth_error_Some; rewrite Hk; discriminate).
        unfold top5 in H0. rewrite length_firstn in H0. lia.
      * destruct (Hin _ H) as (k & Hk & -> & _).
        replace (Z.to_nat (Z.of_nat (0 + k) + 1 - 1)) with k by lia.
        unfold top5 in Hk.
        assert (k < 5)%nat.
        { assert (k < List.length (firstn 5 rankedETFs))%nat
            by (apply nth_error_Some; rewrite Hk; discriminate).
          rewrite length_firstn in H0. lia. }
        rewrite nth_error_firstn in Hk.
        destruct (Nat.ltb_spec k 5); [exact Hk | lia].
      * destruct (Hin _ H) as (k & _ & _ & Hq). exact Hq.
    + discriminate.
    + discriminate.
    + intros H. rewrite <- Hetfs in H. discriminate.
Qed.

(** ** Sell decision *)

Lemma profitableLoop_In (config : StrategyConfig) (holdings : list Holding)
  (p : ProfitableHolding) :
  In p (profitableLoop config holdings)
  <-> In (holding p) holdings
      /\ profitPercent p
         = Utils.calculatePercentageChange (buy_price (holding p))
                                           (etfs_cmp (holding p))
      /\ profitThreshold config < profitPercent p.
Proof.
  induction holdings as [|h rest IH]; simpl.
  - tauto.
  - destruct (JS.gtb _ _) eqn:E.
    + apply gtb_gt in E. simpl. rewrite IH. split.
      * intros [<-|(H1 & H2 & H3)]; simpl; auto.
      * intros ([->|H1] & H2 & H3); [left | right; auto].
        destruct p as [hp pp]. simpl in *. now subst.
    + apply gtb_le in E. rewrite IH. split.
      * intros (H1 & H2 & H3); auto.
      * intros ([->|H1] & H2 & H3); [|auto].
        exfalso. rewrite H2 in H3. apply (Qlt_not_le _ _ H3), E.
Qed.

(** ** Budget ledger *)

(** Unfolds the monad of the budget manager in the goal. *)
Ltac run_budget :=
  unfold bind, this, ret, throw, assign_config, saveConfig_detached;
  cbn [config supabase with_config].

Lemma calculateDaysCompleted_run (now : Z) (s : BudgetManager.t) (c : Config) :
  config s = Some c ->
  calculateDaysCompleted now s
  = (Returned (tradingDaysCompleted now (startDate c)), refreshed now s).
Proof.
  intros Hc. unfold calculateDaysCompleted, refreshed. run_budget.
  rewrite Hc, daysLoop_spec by lia. run_budget.
  replace (Z.min (Z.min 50 _) 50)
    with (tradingDaysCompleted now (startDate c))
    by (unfold tradingDaysCompleted; lia).
  reflexivity.
Qed.

Lemma getRemainingDays_run (now : Z) (s : BudgetManager.t) :
  getRemainingDays now s
  = (Returned match config s with
              | None => 50%Z
              | Some c =>
                  Z.max 0 (50 - tradingDaysCompleted now (startDate c))
              end,
     refreshed now s).
Proof.
  unfold getRemainingDays, refreshed. run_budget.
  destruct (config s) as [c|] eqn:Hc; [|reflexivity].
  rewrite (calculateDaysCompleted_run now s c Hc).
  unfold refreshed. now rewrite Hc.
Qed.

Lemma updateDisplay_run (now : Z) (s : BudgetManager.t) :
  updateDisplay now s = (Returned tt, refreshed now s).
Proof.
  unfold updateDisplay. run_budget. now rewrite getRemainingDays_run.
Qed.

Lemma tradingDaysCompleted_range (now start : Z) :
  (0 <= tradingDaysCompleted now start <= 50)%Z.
Proof.
  unfold tradingDaysCompleted.
  pose proof (weekdaysIn_bounds (daysFuel start now) start). lia.
Qed.

(** C10. Without a budget configuration, [recordInvestment(amount)]
    returns false for every amount: nothing is thrown and the object is
    left as it was. *)
Theorem recordInvestment_unconfigured (now : Z) (s : BudgetManager.t)
  (amount : Q) :
  config s = None ->
  recordInvestment now amount s = (Returned false, s).
Proof.
  intros Hc. unfold recordInvestment. run_budget. now rewrite Hc.
Qed.

Lemma refreshed_configured (now : Z) (s : BudgetManager.t) (c : Config) :
  config s = Some c ->
  exists c', config (refreshed now s) = Some c'.
Proof.
  intros Hc. unfold refreshed. rewrite Hc. cbn. eauto.
Qed.

(** No mutation takes the configuration away. *)
Lemma after_configured (now : Z) (m : mutation) (s : BudgetManager.t)
  (c : Config) :
  config s = Some c -> exists c', config (after now m s) = Some c'.
Proof.
  intros Hc. destruct m as [total start|additional|amount|alloc]; cbn [after].
  - unfold setBudget.
    destruct (JS.eqb total 0 || JS.ltb total 5000); [cbn; eauto|].
    destruct start as [d|]; [|cbn; eauto].
    run_budget. unfold saveConfig. run_budget.
    destruct (supabase s); [|cbn; eauto].
    rewrite updateDisplay_run. unfold refreshed. cbn. eauto.
  - unfold topupBudget. run_budget. rewrite Hc.
    destruct (JS.eqb additional 0 || JS.ltb additional 1000); [cbn; eauto|].
    run_budget. rewrite getRemainingDays_run. unfold refreshed. rewrite Hc.
    destruct (_ <=? 0)%Z; [cbn; eauto|].
    run_budget. unfold saveConfig. run_budget.
    destruct (supabase s); [|cbn; eauto].
    rewrite updateDisplay_run. unfold refreshed. cbn. eauto.
  - unfold recordInvestment. run_budget. rewrite Hc.
    destruct (JS.gtb amount _); [cbn; eauto|].
    run_budget. rewrite updateDisplay_run. unfold refreshed. cbn. eauto.
  - unfold addProfitToReinvestment. run_budget. rewrite Hc.
    destruct alloc as [a|]; [|cbn; eauto].
    run_budget. rewrite updateDisplay_run. unfold refreshed. cbn. eauto.
Qed.

(** C3. On every configured budget the available amount is
    [totalBudget - usedAmount + reinvestedProfit], and after any of the
    four mutations (setBudget, topupBudget, recordInvestment,
    addProfitToReinvestment), returned or thrown, the budget is still
    configured and the equation holds of its new fields; it also holds of
    a budget that a mutation has just configured. *)
Theorem available_equation (now : Z) (m : mutation) (s : BudgetManager.t) :
  (forall c,
     config s = Some c ->
     getAvailableAmount s
     = totalBudget c - usedAmount c + reinvestedProfit c /\
     exists c',
       config (after now m s) = Some c' /\
       getAvailableAmount (after now m s)
       = totalBudget c' - usedAmount c' + reinvestedProfit c') /\
  (forall c',
     config (after now m s) = Some c' ->
     getAvailableAmount (after now m s)
     = totalBudget c' - usedAmount c' + reinvestedProfit c').
Proof.
  assert (Hafter : forall c',
            config (after now m s) = Some c' ->
            getAvailableAmount (after now m s)
            = totalBudget c' - usedAmount c' + reinvestedProfit c').
  { intros c' Hc'. unfold getAvailableAmount. now rewrite Hc'. }
  split; [|exact Hafter].
  intros c Hc. split.
  - unfold getAvailableAmount. now rewrite Hc.
  - destruct (after_configured now m s c Hc) as [c' Hc'].
    exists c'. split; [exact Hc' | apply Hafter, Hc'].
Qed.

(** What each mutation does to the available amount when it returns. *)
Lemma setBudget_available (now : Z) (s : BudgetManager.t) (total : Q)
  (start : Z) :
  5000 <= total -> supabase s = true ->
  exists c',
    setBudget now total (Some start) s
    = (Returned c', with_config (Some c') s) /\
    totalBudget c' = total /\ dailyAmount c' = total / 50 /\
    usedAmount c' = 0 /\ reinvestedProfit c' = 0 /\
    getAvailableAmount (with_config (Some c') s) == total.
Proof.
  intros Hmin Hok. unfold setBudget.
  assert (E0 : JS.eqb total 0 = false) by (apply eqb_neq; lra).
  assert (E1 : JS.ltb total 5000 = false) by (apply ltb_ge; exact Hmin).
  rewrite E0, E1. cbn [orb]. run_budget. unfold saveConfig. run_budget.
  rewrite Hok. run_budget. rewrite updateDisplay_run.
  unfold refreshed. run_budget.
  eexists. split; [reflexivity|]. cbn. repeat split; try reflexivity.
  unfold getAvailableAmount. cbn. lra.
Qed.

Lemma addProfitToReinvestment_available (now : Z) (s : BudgetManager.t)
  (c : Config) (a : Allocation) :
  config s = Some c ->
  exists c',
    addProfitToReinvestment now (Some a) s
    = (Returned true, with_config (Some c') s) /\
    reinvestedProfit c' = reinvestedProfit c + reinvestmentAmount a /\
    totalBudget c' = totalBudget c /\ usedAmount c' = usedAmount c /\
    getAvailableAmount (with_config (Some c') s)
    == getAvailableAmount s + reinvestmentAmount a.
Proof.
  intros Hc. unfold addProfitToReinvestment. run_budget. rewrite Hc.
  run_budget. rewrite updateDisplay_run. unfold refreshed. run_budget.
  eexists. split; [reflexivity|]. cbn. repeat split; try reflexivity.
  unfold getAvailableAmount. rewrite Hc. cbn. lra.
Qed.

(** ** Top-up *)

Section Topup.
Variables (now : Z) (s : BudgetManager.t) (c : Config) (additionalAmount : Q).
Hypothesis configured : config s = Some c.

Lemma topupBudget_below_minimum :
  additionalAmount < 1000 ->
  topupBudget now additionalAmount s = (Thrown MinimumTopup, s).
Proof.
  intros Hlt. unfold topupBudget. run_budget. rewrite configured.
  apply ltb_lt in Hlt. rewrite Hlt, orb_true_r. reflexivity.
Qed.

(** Past the validation, [topupBudget] has asked for the remaining days,
    which refreshed [daysCompleted]. *)
Lemma topupBudget_validated :
  1000 <= additionalAmount ->
  topupBudget now additionalAmount s
  = (if (Z.max 0 (50 - tradingDaysCompleted now (startDate c)) <=? 0)%Z
     then throw PeriodCompleted
     else
       let c1 := set_daysCompleted
                   (tradingDaysCompleted now (startDate c)) c in
       let newTotalBudget := totalBudget c1 + additionalAmount in
       bind (assign_config
               (Some (set_dailyAmount (newTotalBudget / 50)
                        (set_totalBudget newTotalBudget c1))))
            (fun _ =>
               bind saveConfig (fun _ =>
               bind (updateDisplay now) (fun _ =>
               bind this (fun s2 =>
               ret {| oldBudget := totalBudget c1;
                      newBudget := newTotalBudget;
                      topupAmount := additionalAmount;
                      oldDailyAmount := totalBudget c1 / 50;
                      newDailyAmount := newTotalBudget / 50;
                      remainingDays :=
                        Z.max 0 (50 - tradingDaysCompleted
                                        now (startDate c));
                      tr_usedAmount :=
                        match config s2 with
                        | Some c2 => usedAmount c2
                        | None => 0
                        end;
                      availableAmount := getAvailableAmount s2 |})))))
      (refreshed now s).
Proof.
  intros Hmin. unfold topupBudget. run_budget. rewrite configured.
  assert (E0 : JS.eqb additionalAmount 0 = false) by (apply eqb_neq; lra).
  assert (E1 : JS.ltb additionalAmount 1000 = false)
    by (apply ltb_ge; exact Hmin).
  rewrite E0, E1. cbn [orb]. run_budget.
  rewrite getRemainingDays_run, configured.
  destruct (_ <=? 0)%Z; [reflexivity|].
  unfold refreshed. rewrite configured. reflexivity.
Qed.

Lemma topupBudget_period_over :
  1000 <= additionalAmount ->
  (50 - tradingDaysCompleted now (startDate c) <= 0)%Z ->
  topupBudget now additionalAmount s
  = (Thrown PeriodCompleted, refreshed now s).
Proof.
  intros Hmin Hdays. rewrite topupBudget_validated by exact Hmin.
  destruct (Z.leb_spec
              (Z.max 0 (50 - tradingDaysCompleted now (startDate c))) 0);
    [reflexivity | lia].
Qed.

(** When the store rejects the write, [topupBudget] throws after it has
    raised the total: the caller sees a failure and a changed budget. *)
Lemma topupBudget_save_rejected :
  1000 <= additionalAmount ->
  (0 < 50 - tradingDaysCompleted now (startDate c))%Z ->
  supabase s = false ->
  exists c',
    topupBudget now additionalAmount s
    = (Thrown SaveFailed, with_config (Some c') s) /\
    totalBudget c' = totalBudget c + additionalAmount.
Proof.
  intros Hmin Hdays Hko. rewrite topupBudget_validated by exact Hmin.
  destruct (Z.leb_spec
              (Z.max 0 (50 - tradingDaysCompleted now (startDate c))) 0);
    [lia|].
  cbv zeta. unfold refreshed. rewrite configured. run_budget.
  unfold saveConfig. run_budget. rewrite Hko.
  eexists. split; reflexivity.
Qed.

Lemma topupBudget_returns :
  1000 <= additionalAmount ->
  (0 < 50 - tradingDaysCompleted now (startDate c))%Z ->
  supabase s = true ->
  exists result c',
    topupBudget now additionalAmount s
    = (Returned result, with_config (Some c') s) /\
    totalBudget c' = totalBudget c + additionalAmount /\
    dailyAmount c' = (totalBudget c + additionalAmount) / 50 /\
    usedAmount c' = usedAmount c /\
    reinvestedProfit c' = reinvestedProfit c /\
    newBudget result = totalBudget c' /\
    newDailyAmount result = dailyAmount c'.
Proof.
  intros Hmin Hdays Hok. rewrite topupBudget_validated by exact Hmin.
  destruct (Z.leb_spec
              (Z.max 0 (50 - tradingDaysCompleted now (startDate c))) 0);
    [lia|].
  cbv zeta. unfold refreshed. rewrite configured. run_budget.
  unfold saveConfig. run_budget. rewrite Hok. run_budget.
  rewrite updateDisplay_run. unfold refreshed. run_budget.
  eexists. eexists. split; [reflexivity|]. cbn. repeat split.
Qed.

End Topup.

(** C8. On a configured budget, [topupBudget(additionalAmount)] throws
    the validation error when the amount is below 1000, and the policy
    error when the remaining days [50 - daysCompleted] are 0 or less;
    whenever it throws one of the two, [totalBudget], [dailyAmount],
    [usedAmount] and [reinvestedProfit] are what they were.  Otherwise,
    the store taking the write, it returns; and whenever it returns,
    [totalBudget] has grown by the amount and [dailyAmount] is the new
    total divided by 50. *)
Theorem topupBudget_spec (now : Z) (s : BudgetManager.t) (c : Config)
  (additionalAmount : Q) :
  config s = Some c ->
  let daysCompleted := tradingDaysCompleted now (startDate c) in
  let unchanged c' :=
    totalBudget c' = totalBudget c /\ dailyAmount c' = dailyAmount c /\
    usedAmount c' = usedAmount c /\
    reinvestedProfit c' = reinvestedProfit c in
  let topped c' :=
    totalBudget c' = totalBudget c + additionalAmount /\
    dailyAmount c' = (totalBudget c + additionalAmount) / 50 /\
    usedAmount c' = usedAmount c /\
    reinvestedProfit c' = reinvestedProfit c in
  (additionalAmount < 1000 ->
   topupBudget now additionalAmount s = (Thrown MinimumTopup, s)) /\
  (1000 <= additionalAmount -> (50 - daysCompleted <= 0)%Z ->
   exists c',
     topupBudget now additionalAmount s
     = (Thrown PeriodCompleted, with_config (Some c') s) /\ unchanged c') /\
  (1000 <= additionalAmount -> (0 < 50 - daysCompleted)%Z ->
   supabase s = true ->
   exists result c',
     topupBudget now additionalAmount s
     = (Returned result, with_config (Some c') s) /\ topped c') /\
  (forall e s',
     topupBudget now additionalAmount s = (Thrown e, s') ->
     e = MinimumTopup \/ e = PeriodCompleted ->
     exists c', config s' = Some c' /\ unchanged c') /\
  (forall result s',
     topupBudget now additionalAmount s = (Returned result, s') ->
     exists c', config s' = Some c' /\ topped c').
Proof.
  intros Hc daysCompleted unchanged topped.
  assert (Hover : 1000 <= additionalAmount -> (50 - daysCompleted <= 0)%Z ->
            exists c',
              topupBudget now additionalAmount s
              = (Thrown PeriodCompleted, with_config (Some c') s)
              /\ unchanged c').
  { intros Hmin Hdays.
    rewrite (topupBudget_period_over now s c _ Hc Hmin Hdays).
    unfold refreshed. rewrite Hc.
    eexists. split; [reflexivity|]. unfold unchanged. cbn. auto. }
  assert (Hret : 1000 <= additionalAmount -> (0 < 50 - daysCompleted)%Z ->
            supabase s = true ->
            exists result c',
              topupBudget now additionalAmount s
              = (Returned result, with_config (Some c') s) /\ topped c').
  { intros Hmin Hdays Hok.
    destruct (topupBudget_returns now s c _ Hc Hmin Hdays Hok)
      as (result & c' & E & H1 & H2 & H3 & H4 & _).
    exists result, c'. unfold topped. auto. }
  split; [|split; [|split; [|split]]].
  - apply (topupBudget_below_minimum _ _ _ _ Hc).
  - exact Hover.
  - exact Hret.
  - intros e s' E He.
    destruct (Qlt_le_dec additionalAmount 1000) as [Hlt|Hmin].
    { rewrite (topupBudget_below_minimum _ _ _ _ Hc Hlt) in E.
      injection E as _ <-. exists c. unfold unchanged. auto. }
    destruct (Z_le_gt_dec (50 - daysCompleted) 0) as [Hdays|Hdays].
    { destruct (Hover Hmin Hdays) as (c' & E' & Hun).
      rewrite E' in E. injection E as _ <-. exists c'. auto. }
    destruct (supabase s) eqn:Hs.
    + destruct (Hret Hmin ltac:(lia) eq_refl) as (r & c' & E' & _).
      rewrite E' in E. discriminate E.
    + destruct (topupBudget_save_rejected now s c _ Hc Hmin ltac:(lia) Hs)
        as (c' & E' & _).
      rewrite E' in E. injection E as <- _. destruct He; discriminate.
  - intros result s' E.
    destruct (Qlt_le_dec additionalAmount 1000) as [Hlt|Hmin].
    { rewrite (topupBudget_below_minimum _ _ _ _ Hc Hlt) in E.
      discriminate E. }
    destruct (Z_le_gt_dec (50 - daysCompleted) 0) as [Hdays|Hdays].
    { destruct (Hover Hmin Hdays) as (c' & E' & _).
      rewrite E' in E. discriminate E. }
    destruct (supabase s) eqn:Hs.
    + destruct (Hret Hmin ltac:(lia) eq_refl) as (r & c' & E' & Htop).
      rewrite E' in E. injection E as _ <-. exists c'. auto.
    + destruct (topupBudget_save_rejected now s c _ Hc Hmin ltac:(lia) Hs)
        as (c' & E' & _).
      rewrite E' in E. discriminate E.
Qed.

(** ** Profit allocation *)

(** The allocation of a profit of 1000 after 400 days: the [taxRate] it
    carries is the percentage 12.5, not 0.125, and its net, tax and
    brokerage amounts add up to the profit, 1000, not to 975. *)
Lemma calculateProfitAllocation_1000_400 :
  exists a,
    calculateProfitAllocation 1000 400 = Some a /\
    taxRate a == 125 # 10 /\
    ~ taxRate a == 125 # 1000 /\
    netAmount a + taxAmount a + brokerageAmount a == 1000 /\
    ~ netAmount a + taxAmount a + brokerageAmount a == 975.
Proof.
  eexists. split; [reflexivity|]. cbn.
  repeat split; try reflexivity; intros H; discriminate H.
Qed.

(** C5, as the code has it.  [calculateProfitAllocation] returns null
    when [profit <= 0]; otherwise an allocation that is short-term for a
    holding period of at most 365 days and long-term beyond, whose
    [taxRate] is the percentage (15 or 12.5), whose tax amount is the
    profit times 0.15 or 0.125, brokerage the profit times 0.05,
    reinvestment the profit times 0.80 and net the profit less tax and
    brokerage.  Net, tax and brokerage add up to the profit; tax,
    brokerage and reinvestment add up to the profit when short-term and
    to 0.975 of it when long-term.  For a profit of 1000 after 400 days:
    tax 125, brokerage 50, reinvestment 800, net 825, and tax + brokerage
    + reinvestment = 975. *)
Theorem calculateProfitAllocation_spec (profit : Q) (holdingPeriodDays : Z) :
  (profit <= 0 ->
   calculateProfitAllocation profit holdingPeriodDays = None) /\
  (0 < profit ->
   exists a,
     calculateProfitAllocation profit holdingPeriodDays = Some a /\
     totalProfit a = profit /\
     holdingPeriod a = holdingPeriodDays /\
     ((holdingPeriodDays <= 365)%Z ->
      taxType a = STCG /\ taxRate a == 15 /\
      taxAmount a == profit * (15 # 100) /\
      taxAmount a + brokerageAmount a + reinvestmentAmount a == profit) /\
     ((365 < holdingPeriodDays)%Z ->
      taxType a = LTCG /\ taxRate a == 125 # 10 /\
      taxAmount a == profit * (125 # 1000) /\
      taxAmount a + brokerageAmount a + reinvestmentAmount a
      == profit * (975 # 1000)) /\
     brokerageAmount a == profit * (5 # 100) /\
     reinvestmentAmount a == profit * (80 # 100) /\
     netAmount a == profit - taxAmount a - brokerageAmount a /\
     netAmount a + taxAmount a + brokerageAmount a == profit) /\
  (exists a,
     calculateProfitAllocation 1000 400 = Some a /\
     taxType a = LTCG /\
     taxAmount a == 125 /\ brokerageAmount a == 50 /\
     reinvestmentAmount a == 800 /\ netAmount a == 825 /\
     taxAmount a + brokerageAmount a + reinvestmentAmount a == 975).
Proof.
  split; [|split].
  - intros Hle. unfold calculateProfitAllocation.
    apply leb_le in Hle. now rewrite Hle.
  - intros Hpos. unfold calculateProfitAllocation.
    apply leb_gt in Hpos. rewrite Hpos.
    eexists. split; [reflexivity|]. cbn.
    destruct (Z.leb_spec holdingPeriodDays 365) as [Hs|Hl].
    + repeat split; try reflexivity; try lia; try lra.
    + repeat split; try reflexivity; try lia; try lra.
  - eexists. split; [reflexivity|]. cbn. repeat split.
Qed.

(** ** Trading days and weekends *)

Lemma getDay_nextDay (t : Z) :
  JS.getDay (JS.nextDay t) = ((JS.getDay t + 1) mod 7)%Z.
Proof.
  unfold JS.getDay, JS.nextDay, JS.msPerDay.
  replace (t + 86400000)%Z with (t + 1 * 86400000)%Z by lia.
  rewrite Z.div_add by lia.
  rewrite Zplus_mod_idemp_l. f_equal. lia.
Qed.

(** The days of the week, one after the other. *)
Lemma week_cases (t : Z) :
  let w := JS.getDay t in
  (w = 0 \/ w = 1 \/ w = 2 \/ w = 3 \/ w = 4 \/ w = 5 \/ w = 6)%Z.
Proof. pose proof (getDay_range t). cbv zeta. lia. Qed.

Lemma notWeekend_getDay (t : Z) :
  Utils.notWeekend t = negb (JS.getDay t =? 0)%Z && negb (JS.getDay t =? 6)%Z.
Proof. reflexivity. Qed.

Lemma endDateLoop_weekend (fuel : nat) (currentDate daysAdded tradingDays : Z) :
  (daysAdded < tradingDays)%Z ->
  Utils.notWeekend (JS.nextDay currentDate) = false ->
  Utils.endDateLoop (S fuel) currentDate daysAdded tradingDays
  = Utils.endDateLoop fuel (JS.nextDay currentDate) daysAdded tradingDays.
Proof.
  intros Hlt E. apply Z.ltb_lt in Hlt.
  cbn [Utils.endDateLoop]. now rewrite Hlt, E.
Qed.

Lemma endDateLoop_weekday (fuel : nat) (currentDate daysAdded tradingDays : Z) :
  (daysAdded < tradingDays)%Z ->
  Utils.notWeekend (JS.nextDay currentDate) = true ->
  Utils.endDateLoop (S fuel) currentDate daysAdded tradingDays
  = Utils.endDateLoop fuel (JS.nextDay currentDate) (daysAdded + 1)
                      tradingDays.
Proof.
  intros Hlt E. apply Z.ltb_lt in Hlt.
  cbn [Utils.endDateLoop]. now rewrite Hlt, E.
Qed.

(** One more trading day is added within three turns of the loop of
    [calculateEndDate]. *)
Lemma endDateLoop_adds_one (currentDate daysAdded tradingDays : Z) :
  (daysAdded < tradingDays)%Z ->
  exists k currentDate',
    (1 <= k <= 3)%nat /\
    forall fuel,
      Utils.endDateLoop (k + fuel) currentDate daysAdded tradingDays
      = Utils.endDateLoop fuel currentDate' (daysAdded + 1) tradingDays.
Proof.
  intros Hlt.
  set (d1 := JS.nextDay currentDate).
  set (d2 := JS.nextDay d1).
  set (d3 := JS.nextDay d2).
  pose proof (getDay_nextDay d1) as H2. fold d2 in H2.
  pose proof (getDay_nextDay d2) as H3. fold d3 in H3.
  destruct (Utils.notWeekend d1) eqn:E1.
  { exists 1%nat, d1. split; [lia|]. intros fuel.
    cbn [Nat.add]. now rewrite endDateLoop_weekday. }
  destruct (Utils.notWeekend d2) eqn:E2.
  { exists 2%nat, d2. split; [lia|]. intros fuel.
    cbn [Nat.add].
    rewrite endDateLoop_weekend, endDateLoop_weekday; auto. }
  assert (E3 : Utils.notWeekend d3 = true).
  { rewrite notWeekend_getDay in E1, E2 |- *.
    rewrite H3, H2 in *.
    destruct (week_cases d1) as [W|[W|[W|[W|[W|[W|W]]]]]];
      rewrite W in *; cbn in E1, E2 |- *; congruence. }
  exists 3%nat, d3. split; [lia|]. intros fuel.
  cbn [Nat.add].
  rewrite endDateLoop_weekend, endDateLoop_weekend, endDateLoop_weekday; auto.
Qed.

(** [calculateEndDate] returns for every number of trading days: the
    iteration budget of its loop is never used up. *)
Lemma endDateLoop_returns (tradingDays : Z) (remaining : nat) :
  forall fuel currentDate daysAdded,
    Z.to_nat (tradingDays - daysAdded) = remaining ->
    (3 * remaining <= fuel)%nat ->
    exists d, Utils.endDateLoop fuel currentDate daysAdded tradingDays = Some d.
Proof.
  induction remaining as [|r IH]; intros fuel currentDate daysAdded Hr Hfuel.
  - exists currentDate.
    assert (E : (daysAdded <? tradingDays)%Z = false)
      by (apply Z.ltb_ge; lia).
    destruct fuel; simpl; now rewrite E.
  - destruct (endDateLoop_adds_one currentDate daysAdded tradingDays)
      as (k & d' & Hk & Hstep); [lia|].
    replace fuel with (k + (fuel - k))%nat by lia.
    rewrite Hstep. apply IH; lia.
Qed.

Lemma calculateEndDate_returns (startDate tradingDays : Z) :
  exists d, Utils.calculateEndDate startDate tradingDays = Some d.
Proof.
  unfold Utils.calculateEndDate.
  apply (endDateLoop_returns tradingDays (Z.to_nat tradingDays)); lia.
Qed.

Lemma weekdaysIn_count (n : nat) :
  forall first,
    weekdaysIn n first
    = Z.of_nat (List.length
                  (filter mondayToFriday
                     (map (fun k => (first + Z.of_nat k * JS.msPerDay)%Z)
                          (seq 0 n)))).
Proof.
  induction n as [|n IH]; intros first; [reflexivity|].
  cbn [weekdaysIn seq map filter].
  rewrite <- seq_shift, map_map, IH.
  replace (first + Z.of_nat 0 * JS.msPerDay)%Z with first by lia.
  rewrite (map_ext (fun k => (first + Z.of_nat (S k) * JS.msPerDay)%Z)
                   (fun k => (JS.nextDay first + Z.of_nat k * JS.msPerDay)%Z))
    by (intros k; unfold JS.nextDay; lia).
  destruct (mondayToFriday first); cbn [List.length]; lia.
Qed.

Lemma tradingDaysCompleted_count (now start : Z) :
  tradingDaysCompleted now start = Z.min 50 (weekdaysThrough start now).
Proof.
  unfold tradingDaysCompleted, weekdaysThrough, daysThrough.
  now rewrite weekdaysIn_count.
Qed.

Lemma daysThrough_In (start today d : Z) :
  In d (daysThrough start today)
  <-> exists k : nat,
        d = (start + Z.of_nat k * JS.msPerDay)%Z /\ (d <= today)%Z.
Proof.
  unfold daysThrough. rewrite in_map_iff. split.
  - intros (k & <- & Hk). exists k. split; [reflexivity|].
    apply in_seq in Hk. apply daysFuel_spec. lia.
  - intros (k & -> & Hle). exists k. split; [reflexivity|].
    apply in_seq. apply daysFuel_spec in Hle. lia.
Qed.

Lemma mondayToFriday_spec (t : Z) :
  mondayToFriday t = true <-> (1 <= JS.getDay t <= 5)%Z.
Proof.
  unfold mondayToFriday. rewrite andb_true_iff, !Z.leb_le. tauto.
Qed.

(** C9. The day counters skip weekends.  [calculateDaysCompleted] (the
    method in force, and the one declared before it under the same name)
    returns the number of Monday-to-Friday days among the days from the
    start date through today, capped at 50: it is 0 when the start date
    is after today and never exceeds 50.  [calculateEndDate] from a
    Friday with 1 trading day returns the Monday three days later. *)
Theorem trading_days_skip_weekends (now start friday : Z)
  (s : BudgetManager.t) (c : Config) :
  config s = Some c -> startDate c = start -> JS.getDay friday = 5%Z ->
  let counted := Z.min 50 (weekdaysThrough start now) in
  (exists s',
     calculateDaysCompleted now s = (Returned counted, s') /\
     option_map daysCompleted (config s') = Some counted) /\
  calculateDaysCompleted_first now (Some start) s = Some counted /\
  calculateDaysCompleted_first now None s = Some counted /\
  (forall d, In d (daysThrough start now)
             <-> exists k : nat,
                   d = (start + Z.of_nat k * JS.msPerDay)%Z /\ (d <= now)%Z) /\
  (forall d, mondayToFriday d = true <-> (1 <= JS.getDay d <= 5)%Z) /\
  ((now < start)%Z -> counted = 0%Z) /\
  (0 <= counted <= 50)%Z /\
  Utils.calculateEndDate friday 1 = Some (friday + 3 * JS.msPerDay)%Z /\
  JS.getDay (friday + 3 * JS.msPerDay) = 1%Z.
Proof.
  intros Hc Hstart Hfri counted.
  assert (Hcount : tradingDaysCompleted now start = counted)
    by apply tradingDaysCompleted_count.
  assert (Hfirst : calculateDaysCompleted_first now (Some start) s
                   = Some counted).
  { unfold calculateDaysCompleted_first.
    destruct (Z.gtb_spec start now) as [Hgt|Hle].
    - f_equal. rewrite <- Hcount. unfold tradingDaysCompleted.
      rewrite daysFuel_future by lia. reflexivity.
    - rewrite daysLoop_spec by lia. cbn [option_map]. f_equal.
      rewrite <- Hcount. unfold tradingDaysCompleted. lia. }
  pose proof (getDay_nextDay friday) as H1.
  pose proof (getDay_nextDay (JS.nextDay friday)) as H2.
  pose proof (getDay_nextDay (JS.nextDay (JS.nextDay friday))) as H3.
  rewrite H2, H1, Hfri in H3. rewrite H1, Hfri in H2. rewrite Hfri in H1.
  change ((5 + 1) mod 7)%Z with 6%Z in H1, H2, H3.
  change ((6 + 1) mod 7)%Z with 0%Z in H2, H3.
  change ((0 + 1) mod 7)%Z with 1%Z in H3.
  replace (friday + 3 * JS.msPerDay)%Z
    with (JS.nextDay (JS.nextDay (JS.nextDay friday)))
    by (unfold JS.nextDay; lia).
  split; [|split; [|split; [|split; [|split; [|split; [|split; [|split]]]]]]].
  - exists (refreshed now s). split.
    + rewrite (calculateDaysCompleted_run now s c Hc), Hstart, Hcount.
      reflexivity.
    + unfold refreshed. rewrite Hc. cbn. rewrite Hstart, Hcount.
      reflexivity.
  - exact Hfirst.
  - unfold calculateDaysCompleted_first in Hfirst |- *.
    rewrite Hc. cbn [option_map]. rewrite Hstart. exact Hfirst.
  - intros d. apply daysThrough_In.
  - intros d. apply mondayToFriday_spec.
  - intros Hfuture. rewrite <- Hcount. unfold tradingDaysCompleted.
    rewrite daysFuel_future by lia. reflexivity.
  - rewrite <- Hcount. apply tradingDaysCompleted_range.
  - unfold Utils.calculateEndDate.
    change (3 * Z.to_nat 1)%nat with 3%nat.
    rewrite endDateLoop_weekend, endDateLoop_weekend, endDateLoop_weekday;
      try lia.
    + reflexivity.
    + rewrite notWeekend_getDay, H3. reflexivity.
    + rewrite notWeekend_getDay, H2. reflexivity.
    + rewrite notWeekend_getDay, H1. reflexivity.
  - exact H3.
Qed.

(** * The properties on the sample data *)

(** A buy recorded against no budget. *)
Lemma recordInvestment_unconfigured_sample :
  recordInvestment noon_2024_01_10 500 unconfiguredBudget
  = (Returned false, unconfiguredBudget).
Proof.
  exact (recordInvestment_unconfigured noon_2024_01_10 unconfiguredBudget
                                       500 eq_refl).
Defined.

(** A top-up of 500 is refused, one of 2000 goes through on the eighth
    trading day, and none goes through a year after the start. *)
Lemma topupBudget_sample :
  topupBudget noon_2024_01_10 500 sampleBudget
  = (Thrown MinimumTopup, sampleBudget)
  /\ (exists result c',
        topupBudget noon_2024_01_10 2000 sampleBudget
        = (Returned result, with_config (Some c') sampleBudget)
        /\ totalBudget c' = 50000 + 2000
        /\ dailyAmount c' = (50000 + 2000) / 50)
  /\ (exists c',
        topupBudget 1735689600000 2000 sampleBudget
        = (Thrown PeriodCompleted, with_config (Some c') sampleBudget)
        /\ totalBudget c' = 50000 /\ dailyAmount c' = 1000).
Proof.
  split; [|split].
  - pose proof (topupBudget_spec noon_2024_01_10 sampleBudget sampleConfig
                                 500 eq_refl) as H.
    cbv zeta in H. apply (proj1 H). reflexivity.
  - pose proof (topupBudget_spec noon_2024_01_10 sampleBudget sampleConfig
                                 2000 eq_refl) as H.
    cbv zeta in H. destruct H as (_ & _ & H & _).
    destruct H as (result & c' & E & Ht & Hd & _).
    + vm_compute. discriminate.
    + vm_compute. reflexivity.
    + reflexivity.
    + exists result, c'. split; [exact E | split; [exact Ht | exact Hd]].
  - pose proof (topupBudget_spec 1735689600000 sampleBudget sampleConfig
                                 2000 eq_refl) as H.
    cbv zeta in H. destruct H as (_ & H & _).
    destruct H as (c' & E & Ht & Hd & _).
    + vm_compute. discriminate.
    + vm_compute. discriminate.
    + exists c'. split; [exact E | split; [exact Ht | exact Hd]].
Defined.

(** From Monday 1 January 2024 through Wednesday 10 January there are 8
    trading days; one trading day after Friday 5 January is Monday 8. *)
Lemma trading_days_sample :
  calculateDaysCompleted_first noon_2024_01_10 (Some monday_2024_01_01)
                               sampleBudget = Some 8%Z
  /\ Utils.calculateEndDate friday_2024_01_05 1 = Some 1704672000000%Z
  /\ JS.getDay 1704672000000 = 1%Z.
Proof.
  pose proof (trading_days_skip_weekends noon_2024_01_10 monday_2024_01_01
                friday_2024_01_05 sampleBudget sampleConfig
                eq_refl eq_refl eq_refl) as H.
  cbv zeta in H.
  destruct H as (_ & Hfirst & _ & _ & _ & _ & _ & Hend & Hmonday).
  split; [|split].
  - rewrite Hfirst. vm_compute. reflexivity.
  - rewrite Hend. reflexivity.
  - exact Hmonday.
Defined.

(** The sample instruments ranked: equal deviations keep the order of the
    input, and the instrument without average counts as deviation 0. *)
Example calculateRankings_sample :
  map (fun r => (etf_id r, rank r)) (snd (calculateRankings sampleETFs))
  = [("b", 1); ("d", 2); ("c", 3); ("e", 4); ("a", 5); ("f", 6)]%string%Z.
Proof. vm_compute. reflexivity. Qed.

(** With "b" and "c" held, the options are the other three of the top
    five, with their ranks and quantities for a daily amount of 1000. *)
Example determineBuyAction_options_sample :
  exists options first,
    determineBuyAction constructorConfig sampleBudget
                       (fst (calculateRankings sampleETFs))
                       ["b"; "c"]%string []
    = Some (MULTIPLE_OPTIONS options first)
    /\ map (fun o => (id (etf (option_etf o)), option_rank o,
                      option_quantity o)) options
       = [("d", 2, 10); ("e", 4, 20); ("a", 5, 9)]%string%Z
    /\ id (etf (option_etf first)) = "d"%string.
Proof.
  eexists. eexists. split; [vm_compute; reflexivity|].
  split; reflexivity.
Qed.

(** With the whole top five held and the lot of "b" 10 percent under its
    buy price, the decision is to average "b". *)
Example determineBuyAction_average_sample :
  exists e lossPercent,
    determineBuyAction constructorConfig sampleBudget
                       (fst (calculateRankings sampleETFs))
                       ["a"; "b"; "c"; "d"; "e"]%string
                       [ mkHolding "h1" "a" 100 1 monday_2024_01_01 "ALPHA" 105;
                         mkHolding "h2" "b" 100 1 monday_2024_01_01 "BETA" 90 ]
    = Some (AVERAGE e lossPercent 11)
    /\ id (etf e) = "b"%string /\ lossPercent == -10.
Proof.
  eexists. eexists. split; [vm_compute; reflexivity|].
  split; reflexivity.
Qed.

(** The two allocations the specification lists. *)
Example calculateProfitAllocation_samples :
  (exists a,
     calculateProfitAllocation 1000 100 = Some a /\ taxType a = STCG /\
     taxAmount a == 150 /\ brokerageAmount a == 50 /\
     reinvestmentAmount a == 800 /\ netAmount a == 800) /\
  (exists a,
     calculateProfitAllocation 1000 400 = Some a /\ taxType a = LTCG /\
     taxAmount a == 125 /\ brokerageAmount a == 50 /\
     reinvestmentAmount a == 800 /\ netAmount a == 825) /\
  calculateProfitAllocation 0 100 = None /\
  calculateProfitAllocation (-5) 100 = None.
Proof.
  split; [|split; [|split; reflexivity]];
    (eexists; split; [reflexivity|]; cbn; repeat split).
Qed.

(** A budget of 50000 set ahead of its start date: daily amount 1000, no
    day completed, 50000 available. *)
Example setBudget_sample :
  exists c',
    setBudget monday_2024_01_01 50000 (Some friday_2024_01_05)
              unconfiguredBudget
    = (Returned c', with_config (Some c') unconfiguredBudget)
    /\ dailyAmount c' == 1000 /\ daysCompleted c' = 0%Z
    /\ getAvailableAmount (with_config (Some c') unconfiguredBudget) == 50000.
Proof.
  eexists. split; [vm_compute; reflexivity|]. repeat split.
Qed.


(** * Further properties of the code *)

(** ** [Utils.daysBetween] *)

Lemma Qceiling_days (d : Z) :
  let n := Qceiling (inject_Z d / inject_Z (1000 * 60 * 60 * 24)) in
  ((n - 1) * JS.msPerDay < d <= n * JS.msPerDay)%Z.
Proof.
  cbv zeta. unfold Qceiling, Qfloor, Qdiv, Qinv, Qmult, Qopp, inject_Z,
    JS.msPerDay. cbn.
  pose proof (Z.div_mod (- (d * 1)) 86400000 ltac:(lia)).
  pose proof (Z.mod_pos_bound (- (d * 1)) 86400000 ltac:(lia)).
  lia.
Qed.

(** X1. The number of days between two instants is the same in both
    directions, is not negative, and is the least whole number of days
    that covers the time between them. *)
Theorem daysBetween_bounds (startDate endDate : Z) :
  let n := Utils.daysBetween startDate endDate in
  Utils.daysBetween endDate startDate = n /\
  (0 <= n)%Z /\
  ((n - 1) * JS.msPerDay < Z.abs (endDate - startDate) <= n * JS.msPerDay)%Z.
Proof.
  cbv zeta. unfold Utils.daysBetween.
  pose proof (Qceiling_days (Z.abs (endDate - startDate))) as H.
  cbv zeta in H.
  replace (Z.abs (startDate - endDate)) with (Z.abs (endDate - startDate))
    by lia.
  split; [reflexivity|]. split; [|exact H].
  unfold JS.msPerDay in H. lia.
Qed.

(** ** [Utils.calculateEndDate] and the end of the investment period *)

Lemma endDateLoop_done (fuel : nat) (currentDate daysAdded tradingDays : Z) :
  (tradingDays <= daysAdded)%Z ->
  Utils.endDateLoop fuel currentDate daysAdded tradingDays = Some currentDate.
Proof.
  intros H. apply Z.ltb_ge in H. destruct fuel; simpl; now rewrite H.
Qed.

(** What the loop of [calculateEndDate] has done when it exits: it moved
    by whole days, over exactly the trading days still to add, and
    stopped on a trading day. *)
Lemma endDateLoop_result (tradingDays : Z) (fuel : nat) :
  forall currentDate daysAdded d,
    (daysAdded < tradingDays)%Z ->
    Utils.endDateLoop fuel currentDate daysAdded tradingDays = Some d ->
    exists k : nat,
      d = (currentDate + Z.of_nat (S k) * JS.msPerDay)%Z /\
      Utils.notWeekend d = true /\
      weekdaysIn (S k) (JS.nextDay currentDate)
      = (tradingDays - daysAdded)%Z.
Proof.
  induction fuel as [|fuel IH]; intros currentDate daysAdded d Hlt E.
  - simpl in E. apply Z.ltb_lt in Hlt. rewrite Hlt in E. discriminate.
  - destruct (Utils.notWeekend (JS.nextDay currentDate)) eqn:Ew.
    + rewrite endDateLoop_weekday in E by assumption.
      destruct (Z_lt_ge_dec (daysAdded + 1) tradingDays) as [Hmore|Hdone].
      * destruct (IH _ _ _ Hmore E) as (k & -> & Hd & Hk).
        exists (S k). split; [unfold JS.nextDay; lia|]. split; [exact Hd|].
        change (weekdaysIn (S (S k)) (JS.nextDay currentDate))
          with ((if mondayToFriday (JS.nextDay currentDate) then 1 else 0)
                + weekdaysIn (S k) (JS.nextDay (JS.nextDay currentDate)))%Z.
        rewrite Hk, <- notWeekend_mondayToFriday, Ew. lia.
      * rewrite endDateLoop_done in E by lia. injection E as <-.
        exists 0%nat. split; [unfold JS.nextDay; lia|]. split; [exact Ew|].
        cbn [weekdaysIn]. rewrite <- notWeekend_mondayToFriday, Ew. lia.
    + rewrite endDateLoop_weekend in E by assumption.
      destruct (IH _ _ _ Hlt E) as (k & -> & Hd & Hk).
      exists (S k). split; [unfold JS.nextDay; lia|]. split; [exact Hd|].
      change (weekdaysIn (S (S k)) (JS.nextDay currentDate))
        with ((if mondayToFriday (JS.nextDay currentDate) then 1 else 0)
              + weekdaysIn (S k) (JS.nextDay (JS.nextDay currentDate)))%Z.
      rewrite Hk, <- notWeekend_mondayToFriday, Ew. lia.
Qed.

Lemma calculateEndDate_result (startDate tradingDays : Z) :
  (1 <= tradingDays)%Z ->
  exists (d : Z) (k : nat),
    Utils.calculateEndDate startDate tradingDays = Some d /\
    d = (startDate + Z.of_nat (S k) * JS.msPerDay)%Z /\
    Utils.isWeekend d = false /\
    weekdaysIn (S k) (JS.nextDay startDate) = tradingDays.
Proof.
  intros H.
  destruct (calculateEndDate_returns startDate tradingDays) as [d E].
  pose proof E as E'. unfold Utils.calculateEndDate in E'.
  apply endDateLoop_result in E'; [|lia].
  destruct E' as (k & Hd & Hw & Hk).
  exists d, k. split; [exact E|]. split; [exact Hd|].
  split; [|rewrite Hk; lia].
  unfold Utils.isWeekend. unfold Utils.notWeekend in Hw.
  apply andb_true_iff in Hw. destruct Hw as [H0 H6].
  apply negb_true_iff in H0, H6. now rewrite H0, H6.
Qed.

(** X3. [calculateEndDate(startDate, tradingDays)] returns the start date
    itself when no trading day is asked for; otherwise a date a whole
    number of days after the start that is not on a weekend, with exactly
    [tradingDays] Monday-to-Friday days after the start up to it. *)
Theorem calculateEndDate_spec (startDate tradingDays : Z) :
  (tradingDays <= 0 ->
   Utils.calculateEndDate startDate tradingDays = Some startDate)%Z /\
  (1 <= tradingDays ->
   exists (d : Z) (k : nat),
     Utils.calculateEndDate startDate tradingDays = Some d /\
     d = startDate + Z.of_nat (S k) * JS.msPerDay /\
     Utils.isWeekend d = false /\
     weekdaysIn (S k) (JS.nextDay startDate) = tradingDays)%Z.
Proof.
  split.
  - intros H. apply endDateLoop_done. lia.
  - apply calculateEndDate_result.
Qed.

Lemma weekdaysIn_snoc (k : nat) :
  forall first,
    weekdaysIn (S k) first
    = (weekdaysIn k first
       + (if mondayToFriday (first + Z.of_nat k * JS.msPerDay)
          then 1 else 0))%Z.
Proof.
  induction k as [|k IH]; intros first.
  - cbn [weekdaysIn]. replace (first + Z.of_nat 0 * JS.msPerDay)%Z
      with first by lia. lia.
  - change (weekdaysIn (S (S k)) first)
      with ((if mondayToFriday first then 1 else 0)
            + weekdaysIn (S k) (JS.nextDay first))%Z.
    rewrite IH. cbn [weekdaysIn].
    replace (JS.nextDay first + Z.of_nat k * JS.msPerDay)%Z
      with (first + Z.of_nat (S k) * JS.msPerDay)%Z
      by (unfold JS.nextDay; lia).
    lia.
Qed.

Lemma weekdaysIn_mono (j k : nat) (first : Z) :
  (j <= k)%nat -> (weekdaysIn j first <= weekdaysIn k first)%Z.
Proof.
  induction 1 as [|k Hle IH]; [lia|].
  rewrite weekdaysIn_snoc.
  destruct (mondayToFriday _); lia.
Qed.

(** X4. A budget that starts on a trading day has completed its 50 days
    exactly from the date [calculateEndDate(startDate, 49)] on: before
    that date a top-up of at least 1000 goes through (the store taking
    the write), from that date on it is refused as 'Investment period
    has already completed'. *)
Theorem investment_period_ends (s : BudgetManager.t) (c : Config)
  (additionalAmount : Q) :
  config s = Some c ->
  Utils.isWeekend (startDate c) = false ->
  1000 <= additionalAmount ->
  supabase s = true ->
  exists endDate,
    Utils.calculateEndDate (startDate c) 49 = Some endDate /\
    forall now,
      ((endDate <= now)%Z ->
       tradingDaysCompleted now (startDate c) = 50%Z /\
       topupBudget now additionalAmount s
       = (Thrown PeriodCompleted, refreshed now s)) /\
      ((now < endDate)%Z ->
       (tradingDaysCompleted now (startDate c) < 50)%Z /\
       exists result s',
         topupBudget now additionalAmount s = (Returned result, s')).
Proof.
  intros Hc Hstart Hmin Hok.
  destruct (calculateEndDate_result (startDate c) 49 ltac:(lia))
    as (d & k & E & Hd & Hwd & Hk).
  exists d. split; [exact E|].
  assert (Hs : mondayToFriday (startDate c) = true).
  { rewrite <- notWeekend_mondayToFriday. unfold Utils.notWeekend.
    unfold Utils.isWeekend in Hstart. apply orb_false_iff in Hstart.
    destruct Hstart as [-> ->]. reflexivity. }
  assert (Hdw : mondayToFriday d = true).
  { rewrite <- notWeekend_mondayToFriday. unfold Utils.notWeekend.
    unfold Utils.isWeekend in Hwd. apply orb_false_iff in Hwd.
    destruct Hwd as [-> ->]. reflexivity. }
  assert (Hfull : weekdaysIn (S (S k)) (startDate c) = 50%Z).
  { change (weekdaysIn (S (S k)) (startDate c))
      with ((if mondayToFriday (startDate c) then 1 else 0)
            + weekdaysIn (S k) (JS.nextDay (startDate c)))%Z.
    rewrite Hk, Hs. reflexivity. }
  assert (Hshort : weekdaysIn (S k) (startDate c) = 49%Z).
  { rewrite weekdaysIn_snoc in Hfull.
    replace (startDate c + Z.of_nat (S k) * JS.msPerDay)%Z with d in Hfull
      by lia.
    rewrite Hdw in Hfull. lia. }
  intros now. split.
  - intros Hnow.
    assert (Hdays : tradingDaysCompleted now (startDate c) = 50%Z).
    { unfold tradingDaysCompleted.
      assert (S k < daysFuel (startDate c) now)%nat
        by (apply daysFuel_spec; lia).
      pose proof (weekdaysIn_mono (S (S k)) (daysFuel (startDate c) now)
                    (startDate c) ltac:(lia)).
      lia. }
    split; [exact Hdays|].
    apply (topupBudget_period_over now s c additionalAmount Hc Hmin). lia.
  - intros Hnow.
    assert (Hdays : (tradingDaysCompleted now (startDate c) < 50)%Z).
    { unfold tradingDaysCompleted.
      assert (~ (S k < daysFuel (startDate c) now)%nat)
        by (rewrite daysFuel_spec; lia).
      pose proof (weekdaysIn_mono (daysFuel (startDate c) now) (S k)
                    (startDate c) ltac:(lia)).
      lia. }
    split; [exact Hdays|].
    destruct (topupBudget_returns now s c additionalAmount Hc Hmin
                ltac:(lia) Hok) as (result & c' & Er & _).
    eauto.
Qed.

(** The budget of 1 January 2024 ends on Friday 8 March 2024. *)
Lemma investment_period_ends_sample :
  exists endDate,
    Utils.calculateEndDate monday_2024_01_01 49 = Some endDate /\
    endDate = 1709856000000%Z /\
    topupBudget endDate 2000 sampleBudget
    = (Thrown PeriodCompleted, refreshed endDate sampleBudget).
Proof.
  destruct (investment_period_ends sampleBudget sampleConfig 2000
              eq_refl eq_refl ltac:(discriminate) eq_refl)
    as (endDate & E & H).
  exists endDate. split; [exact E|].
  assert (Hd : endDate = 1709856000000%Z).
  { vm_compute in E. now injection E as <-. }
  split; [exact Hd|].
  apply (proj1 (H endDate)). lia.
Defined.

(** ** Budget checks, previews and statistics *)

Lemma recordInvestment_rejected (now : Z) (s : BudgetManager.t) (c : Config)
  (amount : Q) :
  config s = Some c -> getAvailableAmount s < amount ->
  recordInvestment now amount s
  = (Thrown (InsufficientBudget (getAvailableAmount s) amount), s).
Proof.
  intros Hc Hlt. unfold recordInvestment. run_budget. rewrite Hc.
  apply gtb_gt in Hlt. now rewrite Hlt.
Qed.

Lemma recordInvestment_accepted (now : Z) (s : BudgetManager.t) (c : Config)
  (amount : Q) :
  config s = Some c -> amount <= getAvailableAmount s ->
  recordInvestment now amount s
  = (Returned true,
     with_config
       (Some (set_daysCompleted (tradingDaysCompleted now (startDate c))
                (set_usedAmount (usedAmount c + amount) c)))
       s).
Proof.
  intros Hc Hle. unfold recordInvestment. run_budget. rewrite Hc.
  apply gtb_le in Hle. rewrite Hle. run_budget.
  rewrite updateDisplay_run. unfold refreshed. run_budget. reflexivity.
Qed.

(** X5. On a configured budget, [checkSufficientBudget(amount)] says
    sufficient exactly when [recordInvestment(amount)] would return true
    rather than throw, and the shortfall it reports is what is missing:
    zero when sufficient, [amount - available] otherwise. *)
Theorem checkSufficientBudget_agrees (now : Z) (s : BudgetManager.t)
  (c : Config) (amount : Q) :
  config s = Some c ->
  let check := checkSufficientBudget amount s in
  (sufficient check = true <->
   exists s', recordInvestment now amount s = (Returned true, s')) /\
  (sufficient check = false <->
   recordInvestment now amount s
   = (Thrown (InsufficientBudget (check_available check) amount), s)) /\
  (sufficient check = true -> shortfall check == 0) /\
  (sufficient check = false ->
   shortfall check == amount - check_available check /\
   0 < shortfall check) /\
  check_available check
  == totalBudget c - usedAmount c + reinvestedProfit c.
Proof.
  intros Hc. cbv zeta. unfold checkSufficientBudget.
  cbn [sufficient check_available shortfall required].
  pose proof (recordInvestment_rejected now s c amount Hc) as Hthrow.
  pose proof (recordInvestment_accepted now s c amount Hc) as Hok.
  assert (Hmax0 : amount <= getAvailableAmount s ->
                  JS.max 0 (amount - getAvailableAmount s) == 0).
  { intros H. unfold JS.max.
    destruct (JS.leb 0 (amount - getAvailableAmount s)) eqn:E;
      [apply leb_le in E; lra | reflexivity]. }
  assert (Hmax1 : getAvailableAmount s < amount ->
                  JS.max 0 (amount - getAvailableAmount s)
                  = amount - getAvailableAmount s).
  { intros H. unfold JS.max.
    destruct (JS.leb 0 (amount - getAvailableAmount s)) eqn:E;
      [reflexivity | apply leb_gt in E; lra]. }
  split; [|split; [|split; [|split]]].
  - split.
    + intros H. apply leb_le in H. rewrite (Hok H). eauto.
    + intros [s' E]. apply leb_le.
      destruct (Qlt_le_dec (getAvailableAmount s) amount) as [Hlt|Hle];
        [|exact Hle].
      rewrite (Hthrow Hlt) in E. discriminate E.
  - split.
    + intros H. apply leb_gt in H. exact (Hthrow H).
    + intros E. apply leb_gt.
      destruct (Qlt_le_dec (getAvailableAmount s) amount) as [Hlt|Hle];
        [exact Hlt|].
      rewrite (Hok Hle) in E. discriminate E.
  - intros H. apply leb_le in H. exact (Hmax0 H).
  - intros H. apply leb_gt in H. rewrite (Hmax1 H). split; [reflexivity|lra].
  - unfold getAvailableAmount. rewrite Hc. reflexivity.
Qed.

Lemma checkSufficientBudget_sample :
  sufficient (checkSufficientBudget 600 sampleBudget) = true /\
  sufficient (checkSufficientBudget 1500 sampleBudget) = false /\
  shortfall (checkSufficientBudget 1500 sampleBudget) == 500.
Proof.
  pose proof (checkSufficientBudget_agrees noon_2024_01_10 sampleBudget
                sampleConfig 1500 eq_refl) as H.
  cbv zeta in H. destruct H as (_ & _ & _ & H & _).
  split; [reflexivity|]. split; [reflexivity|].
  rewrite (proj1 (H eq_refl)). reflexivity.
Defined.

Section Preview.
Variables (now : Z) (s : BudgetManager.t) (c : Config) (additionalAmount : Q).
Hypothesis configured : config s = Some c.

Lemma previewTopup_below_minimum :
  additionalAmount < 1000 ->
  previewTopup now additionalAmount s = (Thrown MinimumTopup, s).
Proof.
  intros Hlt. unfold previewTopup. run_budget. rewrite configured.
  apply ltb_lt in Hlt. rewrite Hlt, orb_true_r. reflexivity.
Qed.

Lemma previewTopup_validated :
  1000 <= additionalAmount ->
  previewTopup now additionalAmount s
  = (if (Z.max 0 (50 - tradingDaysCompleted now (startDate c)) <=? 0)%Z
     then Thrown PeriodCompleted
     else
       Returned
         {| currentBudget := totalBudget c;
            preview_topupAmount := additionalAmount;
            preview_newBudget := totalBudget c + additionalAmount;
            preview_usedAmount := usedAmount c;
            preview_remainingDays :=
              Z.max 0 (50 - tradingDaysCompleted now (startDate c));
            currentDailyAmount := dailyAmount c;
            preview_newDailyAmount := (totalBudget c + additionalAmount) / 50;
            preview_availableAmount := getAvailableAmount s;
            newAvailableAmount :=
              totalBudget c + additionalAmount - usedAmount c
              + reinvestedProfit c |},
     refreshed now s).
Proof.
  intros Hmin. unfold previewTopup. run_budget. rewrite configured.
  assert (E0 : JS.eqb additionalAmount 0 = false) by (apply eqb_neq; lra).
  assert (E1 : JS.ltb additionalAmount 1000 = false)
    by (apply ltb_ge; exact Hmin).
  rewrite E0, E1. cbn [orb]. run_budget.
  rewrite getRemainingDays_run, configured.
  destruct (_ <=? 0)%Z; [reflexivity|].
  unfold refreshed, getAvailableAmount. rewrite configured. reflexivity.
Qed.

End Preview.

(** X6. [previewTopup] against [topupBudget], on a configured budget: the
    preview never changes the total, the daily amount, the used amount or
    the reinvested profit; when it throws, [topupBudget] throws the same
    error; when it returns, [topupBudget] returns (the store taking the
    write) with the new total, the new daily amount and the remaining
    days the preview announced, and the available amount is then the
    new available amount the preview announced. *)
Theorem previewTopup_announces (now : Z) (s : BudgetManager.t) (c : Config)
  (additionalAmount : Q) :
  config s = Some c ->
  (exists c',
     config (snd (previewTopup now additionalAmount s)) = Some c' /\
     totalBudget c' = totalBudget c /\ dailyAmount c' = dailyAmount c /\
     usedAmount c' = usedAmount c /\
     reinvestedProfit c' = reinvestedProfit c) /\
  (forall e,
     fst (previewTopup now additionalAmount s) = Thrown e ->
     topupBudget now additionalAmount s
     = (Thrown e, snd (previewTopup now additionalAmount s))) /\
  (forall preview,
     fst (previewTopup now additionalAmount s) = Returned preview ->
     supabase s = true ->
     exists result s',
       topupBudget now additionalAmount s = (Returned result, s') /\
       newBudget result = preview_newBudget preview /\
       newDailyAmount result = preview_newDailyAmount preview /\
       remainingDays result = preview_remainingDays preview /\
       getAvailableAmount s' = newAvailableAmount preview).
Proof.
  intros Hc.
  destruct (Qlt_le_dec additionalAmount 1000) as [Hlt|Hmin].
  { rewrite (previewTopup_below_minimum now s c _ Hc Hlt). cbn [fst snd].
    split; [exists c; auto|]. split.
    - intros e [= <-]. apply (topupBudget_below_minimum now s c _ Hc Hlt).
    - intros preview [=]. }
  rewrite (previewTopup_validated now s c _ Hc Hmin).
  rewrite (topupBudget_validated now s c _ Hc Hmin).
  destruct (Z.max 0 (50 - tradingDaysCompleted now (startDate c)) <=? 0)%Z;
    cbn [fst snd].
  - split; [unfold refreshed; rewrite Hc; cbn; eauto 10|]. split.
    + intros e [= <-]. reflexivity.
    + intros preview [=].
  - split; [unfold refreshed; rewrite Hc; cbn; eauto 10|]. split.
    + intros e [=].
    + intros preview [= <-] Hok. cbv zeta.
      unfold refreshed. rewrite Hc. run_budget.
      unfold saveConfig. run_budget. rewrite Hok. run_budget.
      rewrite updateDisplay_run. unfold refreshed. run_budget.
      eexists. eexists. split; [reflexivity|]. cbn.
      split; [reflexivity|]. split; [reflexivity|]. split; [reflexivity|].
      reflexivity.
Qed.

Lemma previewTopup_sample :
  exists result s',
    topupBudget noon_2024_01_10 2000 sampleBudget = (Returned result, s')
    /\ newBudget result == 52000
    /\ newDailyAmount result == 1040
    /\ getAvailableAmount s' == 3000.
Proof.
  pose proof (previewTopup_announces noon_2024_01_10 sampleBudget
                sampleConfig 2000 eq_refl) as (_ & _ & H).
  edestruct H as (result & s' & E & Hb & Hd & _ & Ha);
    [vm_compute; reflexivity | reflexivity |].
  exists result, s'. split; [exact E|].
  rewrite Hb, Hd, Ha. repeat split.
Defined.

Lemma getStatistics_run (now : Z) (s : BudgetManager.t) (c : Config) :
  config s = Some c ->
  getStatistics now s
  = (Returned
       {| stat_totalBudget := totalBudget c;
          stat_dailyAmount := dailyAmount c;
          stat_usedAmount := usedAmount c;
          stat_availableAmount := getAvailableAmount s;
          stat_reinvestedProfit := reinvestedProfit c;
          stat_daysCompleted := tradingDaysCompleted now (startDate c);
          stat_remainingDays :=
            Z.max 0 (50 - tradingDaysCompleted now (startDate c));
          utilizationPercent := usedAmount c / totalBudget c * 100;
          investmentProgress :=
            inject_Z (tradingDaysCompleted now (startDate c)) / 50 * 100 |},
     refreshed now s).
Proof.
  intros Hc. unfold getStatistics. run_budget. rewrite Hc.
  rewrite (calculateDaysCompleted_run now s c Hc).
  unfold refreshed, getAvailableAmount. rewrite Hc. reflexivity.
Qed.

(** X7. In the statistics of any budget, configured or not, the days
    completed and the days remaining add up to 50, the days completed
    lie between 0 and 50 and are the ones then stored in the
    configuration, the progress lies between 0 and 100, and the
    available amount is the one [getAvailableAmount] gives. *)
Theorem getStatistics_days (now : Z) (s : BudgetManager.t) :
  exists stats,
    getStatistics now s = (Returned stats, refreshed now s) /\
    (stat_daysCompleted stats + stat_remainingDays stats = 50)%Z /\
    (0 <= stat_daysCompleted stats <= 50)%Z /\
    0 <= investmentProgress stats <= 100 /\
    stat_availableAmount stats = getAvailableAmount s /\
    (forall c, config (refreshed now s) = Some c ->
       daysCompleted c = stat_daysCompleted stats).
Proof.
  destruct (config s) as [c|] eqn:Hc.
  - rewrite (getStatistics_run now s c Hc).
    pose proof (tradingDaysCompleted_range now (startDate c)) as Hr.
    remember (tradingDaysCompleted now (startDate c)) as d eqn:Ed.
    eexists. split; [reflexivity|].
    cbn [stat_daysCompleted stat_remainingDays investmentProgress
         stat_availableAmount].
    assert (Hp : inject_Z d / 50 * 100 == inject_Z (2 * d)).
    { rewrite inject_Z_mult. field. }
    split; [lia|]. split; [exact Hr|].
    split; [|split; [reflexivity|]].
    + rewrite Hp. change 0 with (inject_Z 0). change 100 with (inject_Z 100).
      rewrite <- !Zle_Qle. lia.
    + unfold refreshed. rewrite Hc. cbn. intros c' [= <-]. cbn.
      symmetry. exact Ed.
  - unfold getStatistics, refreshed. run_budget. rewrite Hc.
    eexists. split; [reflexivity|]. cbn.
    unfold getAvailableAmount. rewrite Hc.
    repeat split; try lia; try reflexivity; try discriminate.
Qed.

(** ** Export and import *)

(** X8. Exporting a budget and importing the export gives the budget back:
    the total, the start date and the creation date are the same, the
    used amount, the reinvested profit and the available amount are
    equal, and the daily amount is the same unless it was 0, in which
    case it becomes the total divided by 50.  A budget whose total is 0
    is exported but refused at import as invalid data, as is missing
    data, and the budget then stays as it was. *)
Theorem export_import_roundtrip (now : Z) (s : BudgetManager.t) (c : Config) :
  config s = Some c ->
  exists data,
    exportBudgetData now s = (inr data, refreshed now s) /\
    exported data = c /\
    importBudgetData now None s = (inl InvalidBudgetData, s) /\
    (totalBudget c == 0 ->
     importBudgetData now (Some data) (refreshed now s)
     = (inl InvalidBudgetData, refreshed now s)) /\
    (~ totalBudget c == 0 ->
     exists c',
       importBudgetData now (Some data) (refreshed now s)
       = (inr c', with_config (Some c') s) /\
       totalBudget c' = totalBudget c /\
       startDate c' = startDate c /\
       createdDate c' = createdDate c /\
       daysCompleted c' = tradingDaysCompleted now (startDate c) /\
       usedAmount c' == usedAmount c /\
       reinvestedProfit c' == reinvestedProfit c /\
       (~ dailyAmount c == 0 -> dailyAmount c' = dailyAmount c) /\
       (dailyAmount c == 0 -> dailyAmount c' = totalBudget c / 50) /\
       getAvailableAmount (with_config (Some c') s) == getAvailableAmount s).
Proof.
  intros Hc. unfold exportBudgetData. rewrite Hc.
  rewrite (getStatistics_run now s c Hc). cbn [widen].
  eexists. split; [reflexivity|]. cbn [exported].
  split; [reflexivity|]. split; [reflexivity|].
  assert (Hor : forall x, JS.orElse x 0 == x).
  { intros x. unfold JS.orElse. destruct (JS.eqb x 0) eqn:E;
      [apply eqb_eq in E; now rewrite E | reflexivity]. }
  split.
  - intros Hz. unfold importBudgetData. cbn [exported].
    apply eqb_eq in Hz. now rewrite Hz.
  - intros Hnz. unfold importBudgetData. cbn [exported].
    apply eqb_neq in Hnz. rewrite Hnz. run_budget. run_budget.
    rewrite updateDisplay_run. unfold refreshed. rewrite Hc. run_budget.
    cbn [widen config].
    eexists. split; [reflexivity|]. cbn.
    split; [reflexivity|]. split; [reflexivity|]. split; [reflexivity|].
    split; [reflexivity|]. split; [apply Hor|]. split; [apply Hor|].
    split; [|split].
    + intros Hd. unfold JS.orElse. apply eqb_neq in Hd. now rewrite Hd.
    + intros Hd. unfold JS.orElse. apply eqb_eq in Hd. now rewrite Hd.
    + unfold getAvailableAmount. rewrite Hc. cbn. rewrite !Hor. reflexivity.
Qed.

Lemma export_import_roundtrip_sample :
  exists data c',
    exportBudgetData noon_2024_01_10 sampleBudget
    = (inr data, refreshed noon_2024_01_10 sampleBudget) /\
    importBudgetData noon_2024_01_10 (Some data)
                     (refreshed noon_2024_01_10 sampleBudget)
    = (inr c', with_config (Some c') sampleBudget) /\
    totalBudget c' = 50000 /\ dailyAmount c' = 1000 /\
    daysCompleted c' = 8%Z.
Proof.
  destruct (export_import_roundtrip noon_2024_01_10 sampleBudget
              sampleConfig eq_refl)
    as (data & E & _ & _ & _ & H).
  destruct H as (c' & Ei & Ht & _ & _ & Hd & _ & _ & Hdaily & _).
  { discriminate. }
  exists data, c'. split; [exact E|]. split; [exact Ei|].
  split; [exact Ht|]. split; [apply Hdaily; discriminate|].
  rewrite Hd. vm_compute. reflexivity.
Defined.

(** ** Validation, reset and the daily amount *)

Lemma tradingDaysCompleted_today (now start : Z) :
  (JS.startOfDay now <= start)%Z ->
  (0 <= tradingDaysCompleted now start <= 1)%Z.
Proof.
  intros H. unfold tradingDaysCompleted.
  assert (Hf : (daysFuel start now <= 1)%nat).
  { unfold daysFuel. unfold JS.startOfDay, JS.msPerDay in *.
    pose proof (Z.div_mod now 86400000 ltac:(lia)).
    pose proof (Z.mod_pos_bound now 86400000 ltac:(lia)).
    assert ((now - start) / 86400000 < 1)%Z
      by (apply Z.div_lt_upper_bound; lia).
    lia. }
  pose proof (weekdaysIn_bounds (daysFuel start now) start). lia.
Qed.

(** X9. [validateBudgetConfig] finds nothing to report exactly when the
    amount is at least 5000 and a start date is given that is not before
    today; [setBudget] then accepts the same input (the store taking the
    write) and the new budget has nothing used, nothing reinvested, a
    daily amount of a fiftieth of the total and at most one day
    completed.  [setBudget] itself does not look at the past: it accepts
    any start date. *)
Theorem validateBudgetConfig_accepts (now : Z) (s : BudgetManager.t)
  (amount : Q) (startDate : option Z) :
  (validateBudgetConfig now amount startDate = []
   <-> 5000 <= amount /\
       exists d, startDate = Some d /\ (JS.startOfDay now <= d)%Z) /\
  (validateBudgetConfig now amount startDate = [] -> supabase s = true ->
   exists c',
     setBudget now amount startDate s = (Returned c', with_config (Some c') s)
     /\ totalBudget c' = amount /\ dailyAmount c' = amount / 50
     /\ usedAmount c' = 0 /\ reinvestedProfit c' = 0
     /\ (0 <= daysCompleted c' <= 1)%Z) /\
  (forall d, 5000 <= amount -> supabase s = true ->
     exists c',
       setBudget now amount (Some d) s
       = (Returned c', with_config (Some c') s)).
Proof.
  assert (Hiff : validateBudgetConfig now amount startDate = []
                 <-> 5000 <= amount /\
                     exists d, startDate = Some d
                               /\ (JS.startOfDay now <= d)%Z).
  { unfold validateBudgetConfig. split.
    - intros H.
      destruct (JS.eqb amount 0 || JS.ltb amount 5000) eqn:Ea.
      { destruct startDate as [d|]; [|discriminate H].
        destruct (d <? JS.startOfDay now)%Z; discriminate H. }
      apply orb_false_iff in Ea. destruct Ea as [_ Ea]. apply ltb_ge in Ea.
      split; [exact Ea|].
      destruct startDate as [d|]; [|discriminate H].
      exists d. split; [reflexivity|].
      destruct (Z.ltb_spec d (JS.startOfDay now)); [discriminate H | lia].
    - intros (Ha & d & -> & Hd).
      assert (E0 : JS.eqb amount 0 = false) by (apply eqb_neq; lra).
      assert (E1 : JS.ltb amount 5000 = false) by (apply ltb_ge; exact Ha).
      rewrite E0, E1. cbn [orb].
      destruct (Z.ltb_spec d (JS.startOfDay now)); [lia | reflexivity]. }
  assert (Hset : forall d, 5000 <= amount -> supabase s = true ->
            setBudget now amount (Some d) s
            = (Returned
                 {| totalBudget := amount; dailyAmount := amount / 50;
                    startDate := d; usedAmount := 0; reinvestedProfit := 0;
                    daysCompleted := tradingDaysCompleted now d;
                    createdDate := now |},
               with_config
                 (Some
                    {| totalBudget := amount; dailyAmount := amount / 50;
                       startDate := d; usedAmount := 0;
                       reinvestedProfit := 0;
                       daysCompleted := tradingDaysCompleted now d;
                       createdDate := now |}) s)).
  { intros d Ha Hok. unfold setBudget.
    assert (E0 : JS.eqb amount 0 = false) by (apply eqb_neq; lra).
    assert (E1 : JS.ltb amount 5000 = false) by (apply ltb_ge; exact Ha).
    rewrite E0, E1. cbn [orb]. run_budget. unfold saveConfig. run_budget.
    rewrite Hok. run_budget. rewrite updateDisplay_run.
    unfold refreshed. run_budget. reflexivity. }
  split; [exact Hiff|]. split.
  - intros Hv Hok. apply Hiff in Hv. destruct Hv as (Ha & d & -> & Hd).
    rewrite (Hset d Ha Hok). eexists. split; [reflexivity|]. cbn.
    repeat split; try reflexivity; apply tradingDaysCompleted_today, Hd.
  - intros d Ha Hok. rewrite (Hset d Ha Hok). eauto.
Qed.

(** X10. [resetBudget] drops the configuration when the store takes the
    delete, and throws leaving the budget as it was when it does not.
    After a reset nothing is available, a buy is not recorded, a top-up
    is refused for want of a configuration, and the next [setBudget]
    starts from nothing used and nothing reinvested. *)
Theorem resetBudget_spec (now : Z) (s : BudgetManager.t) :
  (supabase s = false -> resetBudget now s = (inl ResetRejected, s)) /\
  (supabase s = true ->
   exists s',
     resetBudget now s = (inr tt, s') /\
     config s' = None /\
     getAvailableAmount s' == 0 /\
     getDailyAmount s' == 0 /\
     (forall amount,
        recordInvestment now amount s' = (Returned false, s')) /\
     (forall amount,
        topupBudget now amount s' = (Thrown NoBudgetConfiguration, s')) /\
     (forall total d, 5000 <= total ->
        exists c',
          setBudget now total (Some d) s'
          = (Returned c', with_config (Some c') s') /\
          usedAmount c' = 0 /\ reinvestedProfit c' = 0)).
Proof.
  split.
  - intros Hko. unfold resetBudget. now rewrite Hko.
  - intros Hok. unfold resetBudget. rewrite Hok. run_budget.
    rewrite updateDisplay_run. unfold refreshed. cbn.
    eexists. split; [reflexivity|]. cbn.
    split; [reflexivity|]. split; [reflexivity|]. split; [reflexivity|].
    split; [|split; [reflexivity|]].
    + intros amount. reflexivity.
    + intros total d Ht.
      destruct (setBudget_available now (with_config None s) total d Ht Hok)
        as (c' & E & _ & _ & Hu & Hr & _).
      exists c'. auto.
Qed.

(** X11. Once the daily amount is a fiftieth of the total, it stays so under
    [setBudget], [topupBudget], [recordInvestment] and
    [addProfitToReinvestment], whether they return or throw; and a budget
    that [setBudget] configures has it. *)
Theorem dailyAmount_invariant (now : Z) (m : mutation)
  (s : BudgetManager.t) :
  dailyIsFiftieth s -> dailyIsFiftieth (after now m s).
Proof.
  intros Hinv.
  assert (Hrefreshed : dailyIsFiftieth (refreshed now s)).
  { unfold refreshed. destruct (config s) as [c|] eqn:Hc; [|exact Hinv].
    intros c' [= <-]. cbn. apply Hinv, Hc. }
  destruct m as [total start|additional|amount|alloc]; cbn [after].
  - unfold setBudget.
    destruct (JS.eqb total 0 || JS.ltb total 5000); [exact Hinv|].
    destruct start as [d|]; [|exact Hinv].
    run_budget. unfold saveConfig. run_budget.
    destruct (supabase s).
    + run_budget. rewrite updateDisplay_run. unfold refreshed. cbn.
      intros c' [= <-]. cbn. reflexivity.
    + cbn. intros c' [= <-]. cbn. reflexivity.
  - destruct (config s) as [c|] eqn:Hc.
    2: { unfold topupBudget. run_budget. rewrite Hc. exact Hinv. }
    destruct (Qlt_le_dec additional 1000) as [Hlt|Hmin].
    { rewrite (topupBudget_below_minimum now s c _ Hc Hlt). exact Hinv. }
    rewrite (topupBudget_validated now s c _ Hc Hmin).
    destruct (_ <=? 0)%Z; [exact Hrefreshed|].
    cbv zeta. unfold refreshed. rewrite Hc. run_budget.
    unfold saveConfig. run_budget.
    destruct (supabase s).
    + run_budget. rewrite updateDisplay_run. unfold refreshed. cbn.
      intros c' [= <-]. cbn. reflexivity.
    + cbn. intros c' [= <-]. cbn. reflexivity.
  - unfold recordInvestment. run_budget.
    destruct (config s) as [c|] eqn:Hc; [|cbn; exact Hinv].
    destruct (JS.gtb amount _); [cbn; exact Hinv|].
    run_budget. rewrite updateDisplay_run. unfold refreshed. cbn.
    intros c' [= <-]. cbn. apply Hinv, Hc.
  - unfold addProfitToReinvestment. run_budget.
    destruct (config s) as [c|] eqn:Hc; [|cbn; exact Hinv].
    destruct alloc as [a|]; [|cbn; exact Hinv].
    run_budget. rewrite updateDisplay_run. unfold refreshed. cbn.
    intros c' [= <-]. cbn. apply Hinv, Hc.
Qed.

Lemma dailyAmount_invariant_sample :
  dailyIsFiftieth (after noon_2024_01_10 (TopupBudget 2000) sampleBudget)
  /\ dailyIsFiftieth (after noon_2024_01_10 (RecordInvestment 600)
                            sampleBudget).
Proof.
  assert (H : dailyIsFiftieth sampleBudget).
  { intros c [= <-]. reflexivity. }
  split; apply dailyAmount_invariant; exact H.
Defined.

(** ** Ranks looked up, options and averaging *)

Lemma rankingEntry_ranks_increase (l : list RankedETF) :
  forall i,
    StronglySorted (fun a b => (rank a < rank b)%Z)
                   (JS.mapi_from rankingEntry i l).
Proof.
  induction l as [|x l IH]; intros i; simpl; constructor; [apply IH|].
  apply Forall_forall. intros r Hr.
  apply mapi_from_In in Hr. destruct Hr as (y & k & _ & Hk & ->).
  cbn. lia.
Qed.

Lemma find_first_sorted {A} (lt : A -> A -> Prop) (p : A -> bool)
  (l : list A) (x : A) :
  StronglySorted lt l -> JS.find p l = Some x ->
  In x l /\ p x = true /\ forall y, In y l -> p y = true -> y = x \/ lt x y.
Proof.
  unfold JS.find. induction 1 as [|a l Hs IH Ha]; simpl; [discriminate|].
  destruct (p a) eqn:Ep.
  - intros [= <-]. split; [left; reflexivity|]. split; [exact Ep|].
    intros y [<-|Hy] _; [left; reflexivity | right].
    rewrite Forall_forall in Ha. apply Ha, Hy.
  - intros E. destruct (IH E) as (Hin & Hp & Hmin).
    split; [right; exact Hin|]. split; [exact Hp|].
    intros y [<-|Hy] Hpy; [congruence | apply Hmin; assumption].
Qed.

Lemma currentRankings_facts (etfs : list ETF) :
  let rankings := snd (calculateRankings etfs) in
  (forall r, In r rankings -> etf_id r = id (etf (ranking_etf r))) /\
  Permutation (map (fun r => etf (ranking_etf r)) rankings) etfs /\
  map rank rankings = map Z.of_nat (seq 1 (List.length etfs)).
Proof.
  unfold calculateRankings. cbn [snd]. unfold JS.mapi.
  set (withDev := map _ etfs).
  set (cmpfn := fun a b : RankedETF => deviation a - deviation b).
  pose proof (sort_perm cmpfn withDev) as Hperm.
  split; [|split].
  - intros r Hr. apply mapi_from_In in Hr.
    destruct Hr as (x & k & _ & _ & ->). reflexivity.
  - rewrite <- (map_map ranking_etf etf), rankingEntry_etfs.
    eapply perm_trans.
    + apply Permutation_map, Permutation_sym, Hperm.
    + unfold withDev. rewrite map_map. cbn. rewrite map_id.
      apply Permutation_refl.
  - rewrite rankingEntry_ranks. do 2 f_equal.
    rewrite <- (Permutation_length Hperm). unfold withDev.
    apply length_map.
Qed.

(** X12. After [calculateRankings], [findETFRankFromRankings] finds a rank
    for exactly the ids of the ranked instruments; the rank found lies
    between 1 and the number of instruments and is the best rank an
    entry with that id has.  Before any ranking it finds nothing. *)
Theorem findETFRankFromRankings_after_ranking (etfs : list ETF)
  (etfId : string) :
  let currentRankings := snd (calculateRankings etfs) in
  findETFRankFromRankings None etfId = None /\
  ((exists e, In e etfs /\ id e = etfId) <->
   exists r, findETFRankFromRankings (Some currentRankings) etfId = Some r) /\
  (forall r,
     findETFRankFromRankings (Some currentRankings) etfId = Some r ->
     (1 <= r <= Z.of_nat (List.length etfs))%Z /\
     (exists entry, In entry currentRankings /\ etf_id entry = etfId /\
                    rank entry = r) /\
     forall entry, In entry currentRankings -> etf_id entry = etfId ->
                   (r <= rank entry)%Z).
Proof.
  cbv zeta. split; [reflexivity|].
  destruct (currentRankings_facts etfs) as (Hdev & Hperm & Hranks).
  set (rankings := snd (calculateRankings etfs)) in *.
  assert (Hsorted : StronglySorted (fun a b => (rank a < rank b)%Z) rankings)
    by apply rankingEntry_ranks_increase.
  unfold findETFRankFromRankings.
  split.
  - split.
    + intros (e & He & Hid).
      apply (Permutation_in _ (Permutation_sym Hperm)) in He.
      apply in_map_iff in He. destruct He as (entry & Hentry & Hin).
      destruct (JS.find (fun r => String.eqb (etf_id r) etfId) rankings)
        as [found|] eqn:Ef; [eauto|].
      exfalso. unfold JS.find in Ef.
      pose proof (find_none _ _ Ef _ Hin) as Hno. cbv beta in Hno.
      rewrite (Hdev entry Hin), Hentry, Hid, String.eqb_refl in Hno.
      discriminate Hno.
    + intros (r & E).
      destruct (JS.find _ rankings) as [found|] eqn:Ef; [|discriminate E].
      destruct (find_first_sorted _ _ _ _ Hsorted Ef) as (Hin & Hp & _).
      apply String.eqb_eq in Hp.
      exists (etf (ranking_etf found)). split.
      * apply (Permutation_in _ Hperm). apply in_map_iff. eauto.
      * now rewrite <- (Hdev found Hin).
  - intros r E.
    destruct (JS.find _ rankings) as [found|] eqn:Ef; [|discriminate E].
    injection E as <-.
    destruct (find_first_sorted _ _ _ _ Hsorted Ef) as (Hin & Hp & Hmin).
    apply String.eqb_eq in Hp. split; [|split].
    + assert (Hr : In (rank found) (map rank rankings))
        by (apply in_map; exact Hin).
      rewrite Hranks in Hr. apply in_map_iff in Hr.
      destruct Hr as (k & <- & Hk). apply in_seq in Hk. lia.
    + exists found. auto.
    + intros entry Hentry Hid.
      destruct (Hmin entry Hentry) as [->|Hlt]; [|lia|lia].
      apply String.eqb_eq. exact Hid.
Qed.

Section AveragingFacts.
Variable config : StrategyConfig.
Variable budgetManager : BudgetManager.t.
Variable rankedETFs : list RankedETF.

Lemma averagingLoop_some (holdings : list Holding) (decision : BuyAction) :
  averagingLoop config budgetManager rankedETFs holdings = Some decision ->
  exists earlier h later e,
    holdings = earlier ++ h :: later /\
    (forall h', In h' earlier ->
                qualifiesForAveraging config rankedETFs h' = false) /\
    JS.find (fun e => String.eqb (id (etf e)) (holding_etf_id h)) rankedETFs
    = Some e /\
    Utils.calculatePercentageChange (buy_price h) (cmp (etf e))
    <= averagingLossThreshold config /\
    decision
    = AVERAGE e (Utils.calculatePercentageChange (buy_price h) (cmp (etf e)))
              (calculateRecommendedQuantity config budgetManager
                                            (cmp (etf e))).
Proof.
  induction holdings as [|h rest IH]; simpl; [discriminate|].
  assert (Hskip :
            qualifiesForAveraging config rankedETFs h = false ->
            averagingLoop config budgetManager rankedETFs rest
            = Some decision ->
            exists earlier h0 later e,
              h :: rest = earlier ++ h0 :: later /\
              (forall h', In h' earlier ->
                 qualifiesForAveraging config rankedETFs h' = false) /\
              JS.find (fun e => String.eqb (id (etf e)) (holding_etf_id h0))
                      rankedETFs = Some e /\
              Utils.calculatePercentageChange (buy_price h0) (cmp (etf e))
              <= averagingLossThreshold config /\
              decision
              = AVERAGE e (Utils.calculatePercentageChange
                             (buy_price h0) (cmp (etf e)))
                        (calculateRecommendedQuantity config budgetManager
                                                      (cmp (etf e)))).
  { intros Hq E. destruct (IH E) as (earlier & h0 & later & e & -> & H).
    exists (h :: earlier), h0, later, e. split; [reflexivity|].
    destruct H as (Hearlier & H). split; [|exact H].
    intros h' [<-|Hh']; [exact Hq | apply Hearlier, Hh']. }
  destruct (JS.find _ rankedETFs) as [e|] eqn:Ef.
  - destruct (JS.leb _ _) eqn:El.
    + intros [= <-]. exists [], h, rest, e.
      split; [reflexivity|]. split; [intros h' []|].
      split; [exact Ef|]. split; [apply leb_le, El | reflexivity].
    + apply Hskip. unfold qualifiesForAveraging. now rewrite Ef.
  - apply Hskip. unfold qualifiesForAveraging. now rewrite Ef.
Qed.

End AveragingFacts.

Lemma optionsFrom_not_held (config : StrategyConfig)
  (budgetManager : BudgetManager.t) (heldETFIds : list string)
  (l : list RankedETF) (o : BuyOption) :
  forall i,
    In o (optionsFrom config budgetManager heldETFIds i l) ->
    In (option_etf o) l /\ ~ In (id (etf (option_etf o))) heldETFIds.
Proof.
  intros i Ho.
  assert (H : In (option_etf o) (filter (notHeld heldETFIds) l)).
  { rewrite <- (optionsFrom_etfs config budgetManager heldETFIds l i).
    apply in_map, Ho. }
  apply filter_In in H. destruct H as [Hin Hnot]. split; [exact Hin|].
  unfold notHeld in Hnot. apply negb_true_iff in Hnot.
  intros Hheld. apply includes_In in Hheld. congruence.
Qed.

(** X14. One cycle of [applyTradingLogic], for any configuration: an option
    offered for purchase is one of the top-ranked instruments and no
    current holding is of that instrument; an averaging decision is for
    a ranked instrument of which there is a holding; the holding to sell
    is one of the holdings and is above the profit threshold. *)
Theorem applyTradingLogic_consistent (config : StrategyConfig)
  (budgetManager : BudgetManager.t) (rankedETFs : list RankedETF)
  (holdings : list Holding) :
  let actions := applyTradingLogic config budgetManager rankedETFs holdings in
  (forall options defaultOption,
     fst actions = Some (MULTIPLE_OPTIONS options defaultOption) ->
     In defaultOption options /\
     forall o, In o options ->
       In (option_etf o) (firstn (maxRankToConsider config) rankedETFs) /\
       forall h, In h holdings ->
                 holding_etf_id h <> id (etf (option_etf o))) /\
  (forall e lossPercent quantity,
     fst actions = Some (AVERAGE e lossPercent quantity) ->
     In e rankedETFs /\
     lossPercent <= averagingLossThreshold config /\
     exists h, In h holdings /\ holding_etf_id h = id (etf e)) /\
  (forall sold,
     snd actions = Some (SELL sold) ->
     In (holding sold) holdings /\
     profitThreshold config < profitPercent sold).
Proof.
  cbv zeta. unfold applyTradingLogic. cbn [fst snd].
  split; [|split].
  - unfold determineBuyAction. rewrite eligibleETFs_spec.
    intros options defaultOption E.
    pose proof (fun o =>
                  optionsFrom_not_held config budgetManager
                    (map holding_etf_id holdings)
                    (firstn (maxRankToConsider config) rankedETFs) o 0)
      as Hopt.
    destruct (optionsFrom config budgetManager (map holding_etf_id holdings)
                          0 (firstn (maxRankToConsider config) rankedETFs))
      as [|first rest].
    + exfalso. exact (averagingLoop_not_options _ _ _ _ _ _ E).
    + injection E as <- <-. split; [left; reflexivity|].
      intros o Ho. destruct (Hopt o Ho) as [Hin Hnot].
      split; [exact Hin|].
      intros h Hh Heq. apply Hnot. rewrite <- Heq. apply in_map, Hh.
  - unfold determineBuyAction. rewrite eligibleETFs_spec.
    intros e lossPercent quantity E.
    destruct (optionsFrom config budgetManager (map holding_etf_id holdings)
                          0 (firstn (maxRankToConsider config) rankedETFs));
      [|discriminate E].
    apply averagingLoop_some in E.
    destruct E as (earlier & h & later & e0 & -> & _ & Ef & Hle & Ea).
    injection Ea as -> -> _.
    unfold JS.find in Ef. apply find_some in Ef. destruct Ef as [Hin Hid].
    apply String.eqb_eq in Hid.
    split; [exact Hin|]. split; [exact Hle|].
    exists h. split; [apply in_elt | now symmetry].
  - unfold determineSellAction. intros sold E.
    destruct (profitableLoop config holdings) as [|p0 ps] eqn:Ep;
      [discriminate E|].
    set (byDate := fun a b : ProfitableHolding =>
                     inject_Z (date_purchased (holding b)
                               - date_purchased (holding a))) in *.
    destruct (JS.sort byDate (p0 :: ps)) as [|first rest] eqn:Es;
      [discriminate E|].
    injection E as <-.
    assert (Hin : In first (p0 :: ps)).
    { eapply Permutation_in;
        [apply Permutation_sym, (sort_perm byDate) |].
      rewrite Es. left. reflexivity. }
    rewrite <- Ep in Hin. apply profitableLoop_In in Hin.
    destruct Hin as (H1 & _ & H3). auto.
Qed.

(** X15. [updateConfig] with a new [maxRankToConsider] K leaves the three
    other settings as they were, and [determineBuyAction] then offers
    exactly the not-held instruments among the K best ranked, the first
    of them as default; when there is none (always so for K = 0) it
    falls through to the averaging rule. *)
Theorem updateConfig_maxRank (config : StrategyConfig) (K : nat)
  (budgetManager : BudgetManager.t) (rankedETFs : list RankedETF)
  (heldETFIds : list string) (holdings : list Holding) :
  let config' :=
    updateConfig config
      {| new_maxRankToConsider := Some K;
         new_averagingLossThreshold := None;
         new_profitThreshold := None;
         new_defaultQuantity := None |} in
  let decision :=
    determineBuyAction config' budgetManager rankedETFs heldETFIds holdings in
  let eligible := filter (notHeld heldETFIds) (firstn K rankedETFs) in
  averagingLossThreshold config' = averagingLossThreshold config /\
  profitThreshold config' = profitThreshold config /\
  defaultQuantity config' = defaultQuantity config /\
  (eligible <> [] ->
   exists options first,
     decision = Some (MULTIPLE_OPTIONS options first) /\
     map option_etf options = eligible /\
     hd_error options = Some first /\
     (List.length options <= K)%nat) /\
  (eligible = [] ->
   decision = averagingLoop config' budgetManager rankedETFs holdings) /\
  (K = 0%nat -> eligible = []).
Proof.
  cbv zeta. split; [reflexivity|]. split; [reflexivity|].
  split; [reflexivity|].
  unfold determineBuyAction. rewrite eligibleETFs_spec.
  cbn [maxRankToConsider updateConfig new_maxRankToConsider].
  set (config' := updateConfig config _).
  pose proof (optionsFrom_etfs config' budgetManager heldETFIds
                               (firstn K rankedETFs) 0) as Hetfs.
  destruct (optionsFrom config' budgetManager heldETFIds 0
                        (firstn K rankedETFs)) as [|first rest] eqn:E.
  - cbn in Hetfs. rewrite <- Hetfs. split; [intros H; now contradiction H|].
    split; [reflexivity|]. intros ->. reflexivity.
  - split.
    + intros _. exists (first :: rest), first.
      split; [reflexivity|]. split; [exact Hetfs|]. split; [reflexivity|].
      rewrite <- (length_map option_etf), Hetfs.
      eapply Nat.le_trans; [apply filter_length_le|].
      rewrite length_firstn. lia.
    + split.
      * intros H. rewrite <- Hetfs in H. discriminate H.
      * intros ->. cbn in Hetfs. discriminate Hetfs.
Qed.

(** ** Quantities that fit *)

Lemma floor_div_bounds (d p : Q) :
  0 < p ->
  inject_Z (Qfloor (d / p)) * p <= d /\
  d < (inject_Z (Qfloor (d / p)) + 1) * p.
Proof.
  intros Hp.
  assert (Hdp : d / p * p == d) by (field; lra).
  split.
  - rewrite <- Hdp at 2. apply Qmult_le_r; [exact Hp | apply Qfloor_le].
  - rewrite <- Hdp at 1. apply Qmult_lt_r; [exact Hp|].
    pose proof (Qlt_floor (d / p)) as H.
    rewrite inject_Z_plus in H. exact H.
Qed.

Lemma floor_div_ge (d p : Q) (n : Z) :
  0 < p -> inject_Z n * p <= d -> (n <= Qfloor (d / p))%Z.
Proof.
  intros Hp H. rewrite <- (Qfloor_Z n).
  apply Qfloor_resp_le, Qle_shift_div_l; assumption.
Qed.

Lemma floor_div_lt (d p : Q) (n : Z) :
  0 < p -> d < inject_Z n * p -> (Qfloor (d / p) < n)%Z.
Proof.
  intros Hp H. destruct (floor_div_bounds d p Hp) as [Hlo _].
  assert (Hlt : inject_Z (Qfloor (d / p)) * p < inject_Z n * p) by lra.
  apply Qmult_lt_r in Hlt; [|exact Hp].
  rewrite Zlt_Qlt. exact Hlt.
Qed.

Lemma fittingQuantity_cases (b : BudgetManager.t) (price : Q) (quantity : Z) :
  0 < price -> (1 <= quantity)%Z ->
  let available := getAvailableAmount b in
  (available < price -> fittingQuantity b price quantity = None) /\
  (price <= available ->
   exists fitting,
     fittingQuantity b price quantity = Some fitting /\
     (1 <= fitting <= quantity)%Z /\
     price * inject_Z fitting <= available /\
     (price * inject_Z quantity <= available -> fitting = quantity) /\
     (available < price * inject_Z quantity ->
      available < price * inject_Z (fitting + 1))).
Proof.
  intros Hp Hq. cbv zeta.
  assert (Hq' : 1 <= inject_Z quantity)
    by (change 1 with (inject_Z 1); rewrite <- Zle_Qle; exact Hq).
  assert (Hone : price <= price * inject_Z quantity) by nra.
  unfold fittingQuantity, checkSufficientBudget. cbn [sufficient].
  destruct (JS.leb (price * inject_Z quantity) (getAvailableAmount b)) eqn:E.
  - apply leb_le in E. cbn [negb]. split; [intros H; lra|].
    intros _. exists quantity. split; [reflexivity|].
    split; [lia|]. split; [exact E|]. split; [reflexivity|]. intros H. lra.
  - apply leb_gt in E. cbn [negb]. unfold JS.floor.
    destruct (floor_div_bounds (getAvailableAmount b) price Hp) as [Hlo Hhi].
    split.
    + intros Hlt.
      assert ((Qfloor (getAvailableAmount b / price) < 1)%Z)
        by (apply floor_div_lt; [exact Hp | change (inject_Z 1) with 1; lra]).
      destruct (Z.gtb_spec (Qfloor (getAvailableAmount b / price)) 0);
        [lia | reflexivity].
    + intros Hle.
      assert ((1 <= Qfloor (getAvailableAmount b / price))%Z)
        by (apply floor_div_ge;
            [exact Hp | change (inject_Z 1) with 1; lra]).
      assert ((Qfloor (getAvailableAmount b / price) < quantity)%Z)
        by (apply floor_div_lt; [exact Hp | lra]).
      destruct (Z.gtb_spec (Qfloor (getAvailableAmount b / price)) 0);
        [|lia].
      eexists. split; [reflexivity|]. split; [lia|].
      split; [lra|]. split; [intros H'; lra|].
      intros _. rewrite inject_Z_plus. change (inject_Z 1) with 1. lra.
Qed.

(** ** Executing a buy *)

(** X18. The same buy when it cannot go through: when the budget is not
    configured or does not cover one unit, [executeBuyAction] throws the
    insufficient-budget error; when the store rejects the insert, it
    throws the store's error; in both cases neither the budget nor the
    holdings have changed. *)
Theorem executeBuyAction_refused (now : Z) (e : RankedETF) (quantity : Z)
  (w : World) :
  0 < cmp (etf e) -> (1 <= quantity)%Z ->
  let available := getAvailableAmount (budgetManager w) in
  (config (budgetManager w) = None -> available == 0) /\
  (available < cmp (etf e) ->
   executeBuyAction now e quantity w
   = (inl (BudgetFailure
             (InsufficientBudget available
                                 (cmp (etf e) * inject_Z quantity))), w)) /\
  (cmp (etf e) <= available -> storeAccepts w = false ->
   executeBuyAction now e quantity w = (inl StoreRejected, w)) /\
  (forall failure w',
     executeBuyAction now e quantity w = (inl failure, w') ->
     storeAccepts w = false \/ available < cmp (etf e) ->
     w' = w).
Proof.
  intros Hp Hq. cbv zeta.
  destruct (fittingQuantity_cases (budgetManager w) (cmp (etf e)) quantity
              Hp Hq) as [Hnone Hsome].
  assert (Hthrow : getAvailableAmount (budgetManager w) < cmp (etf e) ->
            executeBuyAction now e quantity w
            = (inl (BudgetFailure
                      (InsufficientBudget
                         (getAvailableAmount (budgetManager w))
                         (cmp (etf e) * inject_Z quantity))), w)).
  { intros Hlt. unfold executeBuyAction. now rewrite (Hnone Hlt). }
  assert (Hstore : cmp (etf e) <= getAvailableAmount (budgetManager w) ->
            storeAccepts w = false ->
            executeBuyAction now e quantity w = (inl StoreRejected, w)).
  { intros Hle Hko. unfold executeBuyAction.
    destruct (Hsome Hle) as (fitting & -> & _). now rewrite Hko. }
  split; [|split; [exact Hthrow|split; [exact Hstore|]]].
  - intros Hc. unfold getAvailableAmount. rewrite Hc. reflexivity.
  - intros failure w' E [Hko|Hlt].
    + destruct (Qlt_le_dec (getAvailableAmount (budgetManager w))
                           (cmp (etf e))) as [Hlt|Hle].
      * rewrite (Hthrow Hlt) in E. now injection E.
      * rewrite (Hstore Hle Hko) in E. now injection E.
    + rewrite (Hthrow Hlt) in E. now injection E.
Qed.

(** With 1000 available a unit at 1200 is refused. *)
Lemma executeBuyAction_refused_sample :
  exists failure,
    executeBuyAction noon_2024_01_10
      {| etf := mkETF "x" "COSTLY" 1200 1000; deviation := 20 |} 1
      sampleWorld
    = (inl failure, sampleWorld).
Proof.
  pose proof (executeBuyAction_refused noon_2024_01_10
                {| etf := mkETF "x" "COSTLY" 1200 1000; deviation := 20 |}
                1 sampleWorld eq_refl ltac:(lia)) as H.
  cbv zeta in H. destruct H as (_ & H & _).
  eexists. apply H. reflexivity.
Defined.

(** ** Executing a sell *)

Lemma addProfitToReinvestment_run (now : Z) (s : BudgetManager.t)
  (c : Config) (a : Allocation) :
  config s = Some c ->
  addProfitToReinvestment now (Some a) s
  = (Returned true,
     with_config
       (Some (set_daysCompleted (tradingDaysCompleted now (startDate c))
                (set_reinvestedProfit
                   (reinvestedProfit c + reinvestmentAmount a) c)))
       s).
Proof.
  intros Hc. unfold addProfitToReinvestment. run_budget. rewrite Hc.
  run_budget. rewrite updateDisplay_run. unfold refreshed. run_budget.
  reflexivity.
Qed.

Lemma calculateProfitAllocation_positive (profit : Q) (days : Z) :
  0 < profit ->
  calculateProfitAllocation profit days
  = Some {| totalProfit := profit;
            taxType := if (days <=? 365)%Z then STCG else LTCG;
            taxRate := (if (days <=? 365)%Z then 15 # 100 else 125 # 1000)
                       * 100;
            taxAmount :=
              profit * (if (days <=? 365)%Z then 15 # 100 else 125 # 1000);
            brokerageAmount := profit * (5 # 100);
            reinvestmentAmount := profit * (80 # 100);
            netAmount :=
              profit
              - profit * (if (days <=? 365)%Z then 15 # 100 else 125 # 1000)
              - profit * (5 # 100);
            holdingPeriod := days |}.
Proof.
  intros H. unfold calculateProfitAllocation.
  apply leb_gt in H. now rewrite H.
Qed.

(** The sell of a holding at a profit, in a world whose store takes the
    write. *)
Lemma executeSellAction_profit (now : Z) (sold : ProfitableHolding)
  (w : World) :
  let h := holding sold in
  let profit :=
    etfs_cmp h * inject_Z (quantity h)
    - buy_price h * inject_Z (quantity h) in
  storeAccepts w = true -> 0 < profit ->
  exists a b,
    calculateProfitAllocation profit (Utils.daysBetween (date_purchased h) now)
    = Some a /\
    reinvestmentAmount a = profit * (80 # 100) /\
    addProfitToReinvestment now (Some a) (budgetManager w)
    = (Returned b,
       match config (budgetManager w) with
       | Some c =>
           with_config
             (Some (set_daysCompleted
                      (tradingDaysCompleted now (startDate c))
                      (set_reinvestedProfit
                         (reinvestedProfit c + reinvestmentAmount a) c)))
             (budgetManager w)
       | None => budgetManager w
       end) /\
    executeSellAction now (SELL sold) w
    = (inr {| sell_success := true;
              sell_amount := etfs_cmp h * inject_Z (quantity h);
              sell_profit := profit;
              sell_profitAllocation := Some a;
              sell_holdingPeriod :=
                Utils.daysBetween (date_purchased h) now |},
       with_budgetManager
         (snd (addProfitToReinvestment now (Some a) (budgetManager w)))
         (with_holdingsTable
            (map (markSold now (holding_id h) (etfs_cmp h))
                 (holdingsTable w))
            w)).
Proof.
  intros h profit Hok Hpos.
  pose proof (calculateProfitAllocation_positive profit
                (Utils.daysBetween (date_purchased h) now) Hpos) as Ea.
  assert (Eb : exists b,
             addProfitToReinvestment now
               (calculateProfitAllocation profit
                  (Utils.daysBetween (date_purchased h) now))
               (budgetManager w)
             = (Returned b,
                match config (budgetManager w) with
                | Some c =>
                    with_config
                      (Some (set_daysCompleted
                               (tradingDaysCompleted now (startDate c))
                               (set_reinvestedProfit
                                  (reinvestedProfit c + profit * (80 # 100))
                                  c)))
                      (budgetManager w)
                | None => budgetManager w
                end)).
  { rewrite Ea. destruct (config (budgetManager w)) as [c|] eqn:Hc.
    - rewrite (addProfitToReinvestment_run now _ c _ Hc). eauto.
    - unfold addProfitToReinvestment. run_budget. rewrite Hc. eauto. }
  destruct Eb as [b Eb].
  eexists. exists b. split; [exact Ea|]. split; [reflexivity|].
  rewrite <- Ea. split; [exact Eb|].
  unfold executeSellAction. fold h. fold profit. rewrite Hok.
  apply gtb_gt in Hpos. rewrite Hpos.
  cbn [budgetManager with_holdingsTable]. rewrite Eb. reflexivity.
Qed.

(** The sell of a holding without profit. *)
Lemma executeSellAction_no_profit (now : Z) (sold : ProfitableHolding)
  (w : World) :
  let h := holding sold in
  let profit :=
    etfs_cmp h * inject_Z (quantity h)
    - buy_price h * inject_Z (quantity h) in
  storeAccepts w = true -> profit <= 0 ->
  executeSellAction now (SELL sold) w
  = (inr {| sell_success := true;
            sell_amount := etfs_cmp h * inject_Z (quantity h);
            sell_profit := profit;
            sell_profitAllocation := None;
            sell_holdingPeriod := Utils.daysBetween (date_purchased h) now |},
     with_holdingsTable
       (map (markSold now (holding_id h) (etfs_cmp h)) (holdingsTable w))
       w).
Proof.
  intros h profit Hok Hle.
  unfold executeSellAction. fold h. fold profit. rewrite Hok.
  apply gtb_le in Hle. now rewrite Hle.
Qed.

Lemma markSold_rows (now : Z) (holdingId : string) (sellPrice : Q)
  (table : list HoldingRow) (row : HoldingRow) :
  In row (map (markSold now holdingId sellPrice) table) ->
  (row_id row = holdingId ->
   row_active row = false /\ row_sell_price row = Some sellPrice /\
   row_date_sold row = Some (JS.startOfDay now)) /\
  (row_id row <> holdingId -> In row table).
Proof.
  intros H. apply in_map_iff in H. destruct H as (r & <- & Hr).
  unfold markSold. destruct (String.eqb_spec (row_id r) holdingId) as [E|E].
  - cbn. split; [auto | intros H; contradiction].
  - split; [intros H; contradiction | intros _; exact Hr].
Qed.

(** X20. A sell on a configured budget, the store taking the write:
    [executeSellAction] marks every row with the holding's id inactive,
    with the instrument's price as sell price and today's date, touches
    no other row, and reports the amount [cmp * quantity] and the profit
    [cmp * quantity - buy price * quantity].  When the profit is
    positive, the profit times 0.80 is added to the reinvested profit
    while the total and the used amount stay, and the available amount
    does not shrink; otherwise the budget is not touched and no
    allocation is reported. *)
Theorem executeSellAction_reinvests (now : Z) (sold : ProfitableHolding)
  (w : World) (c : Config) :
  config (budgetManager w) = Some c -> storeAccepts w = true ->
  let h := holding sold in
  let profit :=
    etfs_cmp h * inject_Z (quantity h)
    - buy_price h * inject_Z (quantity h) in
  exists result w',
    executeSellAction now (SELL sold) w = (inr result, w') /\
    sell_success result = true /\
    sell_amount result = etfs_cmp h * inject_Z (quantity h) /\
    sell_profit result = profit /\
    holdingsTable w'
    = map (markSold now (holding_id h) (etfs_cmp h)) (holdingsTable w) /\
    (forall row, In row (holdingsTable w') ->
       (row_id row = holding_id h ->
        row_active row = false /\
        row_sell_price row = Some (etfs_cmp h) /\
        row_date_sold row = Some (JS.startOfDay now)) /\
       (row_id row <> holding_id h -> In row (holdingsTable w))) /\
    (0 < profit ->
     exists c',
       config (budgetManager w') = Some c' /\
       reinvestedProfit c' = reinvestedProfit c + profit * (80 # 100) /\
       usedAmount c' = usedAmount c /\ totalBudget c' = totalBudget c /\
       getAvailableAmount (budgetManager w)
       <= getAvailableAmount (budgetManager w')) /\
    (profit <= 0 ->
     budgetManager w' = budgetManager w /\
     sell_profitAllocation result = None).
Proof.
  intros Hc Hok h profit.
  destruct (Qlt_le_dec 0 profit) as [Hpos|Hle].
  - destruct (executeSellAction_profit now sold w Hok Hpos)
      as (a & b & _ & Hre & Eb & E).
    fold h in Hre, Eb, E. fold profit in Hre, Eb, E.
    rewrite E, Eb. cbn [snd]. rewrite Hc.
    eexists. eexists. split; [reflexivity|].
    cbn [sell_success sell_amount sell_profit sell_profitAllocation
         holdingsTable with_budgetManager with_holdingsTable budgetManager].
    split; [reflexivity|]. split; [reflexivity|]. split; [reflexivity|].
    split; [reflexivity|]. split; [intros row; apply markSold_rows|].
    split.
    + intros _. eexists. split; [reflexivity|]. cbn.
      rewrite Hre. split; [reflexivity|].
      split; [reflexivity|]. split; [reflexivity|].
      unfold getAvailableAmount. rewrite Hc. cbn. lra.
    + intros H. lra.
  - rewrite (executeSellAction_no_profit now sold w Hok Hle).
    eexists. eexists. split; [reflexivity|].
    cbn [sell_success sell_amount sell_profit sell_profitAllocation
         holdingsTable with_holdingsTable budgetManager].
    split; [reflexivity|]. split; [reflexivity|]. split; [reflexivity|].
    split; [reflexivity|]. split; [intros row; apply markSold_rows|].
    split.
    + intros H. lra.
    + intros _. split; reflexivity.
Qed.

(** The January lot of 10 units bought at 100 and sold at 110 brings a
    profit of 100, of which 80 is reinvested. *)
Lemma executeSellAction_reinvests_sample :
  exists result w' c',
    executeSellAction noon_2024_01_10
      (SELL {| holding := lot "jan" 100 monday_2024_01_01 110;
               profitPercent := 10 |})
      sampleWorld
    = (inr result, w') /\
    sell_profit result == 100 /\
    config (budgetManager w') = Some c' /\
    reinvestedProfit c' == 80 /\
    map row_active (holdingsTable w') = [false].
Proof.
  pose proof (executeSellAction_reinvests noon_2024_01_10
                {| holding := lot "jan" 100 monday_2024_01_01 110;
                   profitPercent := 10 |}
                sampleWorld sampleConfig eq_refl eq_refl) as H.
  cbv zeta in H.
  destruct H as (result & w' & E & _ & _ & Hp & Ht & _ & Hpos & _).
  destruct Hpos as (c' & Hc' & Hr & _); [reflexivity|].
  exists result, w', c'. split; [exact E|].
  split; [rewrite Hp; reflexivity|]. split; [exact Hc'|].
  split; [rewrite Hr; reflexivity|]. rewrite Ht. reflexivity.
Defined.

(** X21. The tax class of a profitable sale follows the time between the
    purchase and the sale, whichever the order of the two instants:
    short-term when they are at most 365 days of 24 hours apart,
    long-term as soon as they are more than that apart, were it by one
    millisecond.  The reinvested and the brokerage parts do not depend
    on it. *)
Theorem holding_period_classification (buyDate sellDate : Z) (profit : Q) :
  0 < profit ->
  exists a,
    calculateProfitAllocation profit (Utils.daysBetween buyDate sellDate)
    = Some a /\
    (taxType a = STCG
     <-> (Z.abs (sellDate - buyDate) <= 365 * JS.msPerDay)%Z) /\
    (taxType a = LTCG
     <-> (365 * JS.msPerDay < Z.abs (sellDate - buyDate))%Z) /\
    reinvestmentAmount a == profit * (80 # 100) /\
    brokerageAmount a == profit * (5 # 100).
Proof.
  intros Hpos.
  rewrite (calculateProfitAllocation_positive _ _ Hpos).
  eexists. split; [reflexivity|]. cbn [taxType reinvestmentAmount
                                       brokerageAmount].
  pose proof (Qceiling_days (Z.abs (sellDate - buyDate))) as H.
  cbv zeta in H. unfold Utils.daysBetween.
  set (n := Qceiling _) in *.
  unfold JS.msPerDay in *.
  destruct (Z.leb_spec n 365) as [Hle|Hgt].
  - split; [|split; [|split; reflexivity]].
    + split; [intros _; lia | reflexivity].
    + split; [discriminate | intros; lia].
  - split; [|split; [|split; reflexivity]].
    + split; [discriminate | intros; lia].
    + split; [intros _; lia | reflexivity].
Qed.

Lemma holding_period_classification_sample :
  exists a,
    calculateProfitAllocation 1000
      (Utils.daysBetween monday_2024_01_01
                         (monday_2024_01_01 + 365 * JS.msPerDay + 1))
    = Some a /\ taxType a = LTCG.
Proof.
  destruct (holding_period_classification monday_2024_01_01
              (monday_2024_01_01 + 365 * JS.msPerDay + 1) 1000 eq_refl)
    as (a & E & _ & Hl & _).
  exists a. split; [exact E|]. apply Hl. vm_compute. reflexivity.
Defined.

(** ** Executing the decisions of a run *)

Lemma markSold_ids (now : Z) (holdingId : string) (sellPrice : Q)
  (table : list HoldingRow) :
  map row_id (map (markSold now holdingId sellPrice) table)
  = map row_id table.
Proof.
  rewrite map_map. apply map_ext. intros row. unfold markSold.
  now destruct (String.eqb (row_id row) holdingId).
Qed.

(** What a sell does to the store and to the budget, whatever the world
    it runs in. *)
Lemma executeSellAction_effects (now : Z) (action : SellAction) (w : World) :
  exists outcome w',
    executeSellAction now action w = (outcome, w') /\
    map row_id (holdingsTable w') = map row_id (holdingsTable w) /\
    pendingBuyAction w' = pendingBuyAction w /\
    (storeAccepts w = true ->
     exists result, outcome = inr result /\ sell_success result = true) /\
    (storeAccepts w = false -> outcome = inl StoreRejected /\ w' = w) /\
    (config (budgetManager w) = None ->
     config (budgetManager w') = None) /\
    (forall c, config (budgetManager w) = Some c ->
       exists c', config (budgetManager w') = Some c' /\
         usedAmount c' = usedAmount c /\ totalBudget c' = totalBudget c /\
         dailyAmount c' = dailyAmount c /\
         reinvestedProfit c <= reinvestedProfit c').
Proof.
  destruct action as [sold].
  destruct (storeAccepts w) eqn:Hok.
  - set (h := holding sold).
    set (profit := etfs_cmp h * inject_Z (quantity h)
                   - buy_price h * inject_Z (quantity h)).
    destruct (Qlt_le_dec 0 profit) as [Hpos|Hle].
    + destruct (executeSellAction_profit now sold w Hok Hpos)
        as (a & b & _ & Hre & Eb & Ex).
      fold h in Hre, Eb, Ex. fold profit in Hre, Eb, Ex.
      rewrite Ex, Eb. cbn [snd]. eexists. eexists.
      split; [reflexivity|].
      cbn [holdingsTable budgetManager pendingBuyAction with_budgetManager
           with_holdingsTable].
      split; [apply markSold_ids|]. split; [reflexivity|].
      split; [intros _; eexists; split; reflexivity|].
      split; [discriminate|].
      split.
      * intros Hn. rewrite Hn. exact Hn.
      * intros c Hc. rewrite Hc. cbn. eexists. split; [reflexivity|].
        cbn. split; [reflexivity|]. split; [reflexivity|].
        split; [reflexivity|]. rewrite Hre. lra.
    + rewrite (executeSellAction_no_profit now sold w Hok Hle).
      eexists. eexists. split; [reflexivity|].
      cbn [holdingsTable budgetManager pendingBuyAction with_budgetManager
           with_holdingsTable].
      split; [apply markSold_ids|]. split; [reflexivity|].
      split; [intros _; eexists; split; reflexivity|].
      split; [discriminate|].
      split; [auto|].
      intros c Hc. exists c. split; [exact Hc|].
      split; [reflexivity|]. split; [reflexivity|]. split; [reflexivity|].
      lra.
  - unfold executeSellAction. rewrite Hok. eexists. eexists.
    split; [reflexivity|]. split; [reflexivity|]. split; [reflexivity|].
    split; [discriminate|]. split; [auto|]. split; [auto|].
    intros c Hc. exists c. split; [exact Hc|].
    split; [reflexivity|]. split; [reflexivity|]. split; [reflexivity|].
    lra.
Qed.

(** X23. [executeActions] never buys: whatever buy and sell were decided, it
    reports no executed buy and no bought amount, adds no row to the
    store and leaves the used amount, the total budget and the daily
    amount of a configured budget as they were; the reinvested profit
    and with it the available amount can only grow.  The sell is
    executed exactly when there is one and the store takes the write;
    a write the store rejects is listed as an error and changes neither
    the store nor the budget. *)
Theorem executeActions_never_buys (now : Z) (buy : option BuyAction)
  (sell : option SellAction) (w : World) :
  exists results w',
    executeActions now buy sell w = (results, w') /\
    buyExecuted results = false /\ details_buyAmount results = 0 /\
    map row_id (holdingsTable w') = map row_id (holdingsTable w) /\
    (forall c, config (budgetManager w) = Some c ->
       exists c', config (budgetManager w') = Some c' /\
         usedAmount c' = usedAmount c /\ totalBudget c' = totalBudget c /\
         dailyAmount c' = dailyAmount c /\
         reinvestedProfit c <= reinvestedProfit c' /\
         getAvailableAmount (budgetManager w)
         <= getAvailableAmount (budgetManager w')) /\
    (sellExecuted results = true <-> sell <> None /\ storeAccepts w = true) /\
    (errors results <> [] <-> sell <> None /\ storeAccepts w = false) /\
    (errors results <> [] ->
     errors results = [StoreRejected] /\
     holdingsTable w' = holdingsTable w /\
     budgetManager w' = budgetManager w).
Proof.
  unfold executeActions.
  set (w1 := match buy with
             | None => w
             | Some (MULTIPLE_OPTIONS options defaultOption) =>
                 showBuyOptionsDialog (MULTIPLE_OPTIONS options defaultOption)
                                      w
             | Some (AVERAGE etf _ quantity) =>
                 showBuyConfirmation etf quantity w
             end).
  assert (H1 : holdingsTable w1 = holdingsTable w /\
               budgetManager w1 = budgetManager w /\
               storeAccepts w1 = storeAccepts w).
  { unfold w1. destruct buy as [[options defaultOption|etf r quantity]|].
    - cbn. auto.
    - unfold showBuyConfirmation.
      destruct (fittingQuantity _ _ _); cbn; auto.
    - auto. }
  destruct H1 as (Ht & Hb & Hs). clearbody w1.
  destruct sell as [action|].
  - destruct (executeSellAction_effects now action w1)
      as (outcome & w' & E & Hids & _ & Hyes & Hno & _ & Hcfg).
    rewrite E. rewrite Ht in Hids. rewrite Hb in Hcfg. rewrite Hs in Hyes, Hno.
    assert (Hbudget :
              forall c, config (budgetManager w) = Some c ->
                exists c', config (budgetManager w') = Some c' /\
                  usedAmount c' = usedAmount c /\
                  totalBudget c' = totalBudget c /\
                  dailyAmount c' = dailyAmount c /\
                  reinvestedProfit c <= reinvestedProfit c' /\
                  getAvailableAmount (budgetManager w)
                  <= getAvailableAmount (budgetManager w')).
    { intros c Hc. destruct (Hcfg c Hc) as (c' & Hc' & Hu & Htot & Hd & Hr).
      exists c'. split; [exact Hc'|]. split; [exact Hu|].
      split; [exact Htot|]. split; [exact Hd|]. split; [exact Hr|].
      unfold getAvailableAmount. rewrite Hc, Hc', Hu, Htot. lra. }
    destruct (storeAccepts w) eqn:Hok.
    + destruct (Hyes eq_refl) as (result & -> & Hsucc).
      eexists. eexists. split; [reflexivity|].
      cbn [buyExecuted details_buyAmount sellExecuted errors].
      split; [reflexivity|]. split; [reflexivity|]. split; [exact Hids|].
      split; [exact Hbudget|].
      split; [split; [intros _; split; [discriminate | reflexivity]
                     | intros _; exact Hsucc]|].
      split; [split; [intros H; now elim H | intros [_ H]; discriminate H]|].
      intros H; now elim H.
    + destruct (Hno eq_refl) as [-> ->].
      eexists. eexists. split; [reflexivity|].
      cbn [buyExecuted details_buyAmount sellExecuted errors].
      split; [reflexivity|]. split; [reflexivity|]. split; [exact Hids|].
      split; [exact Hbudget|].
      split; [split; [discriminate | intros [_ H]; discriminate H]|].
      split; [split; [intros _; split; [discriminate | reflexivity]
                     | intros _; discriminate]|].
      intros _. auto.
  - eexists. eexists. split; [reflexivity|].
    cbn [buyExecuted details_buyAmount sellExecuted errors].
    split; [reflexivity|]. split; [reflexivity|].
    split; [now rewrite Ht|].
    split.
    { intros c Hc. exists c. rewrite Hb. split; [exact Hc|].
      split; [reflexivity|]. split; [reflexivity|]. split; [reflexivity|].
      split; lra. }
    split; [split; [discriminate | intros [H _]; now elim H]|].
    split; [split; [intros H; now elim H | intros [H _]; now elim H]|].
    intros H; now elim H.
Qed.

(** ** Portfolio analysis *)

Lemma soldStep_tax (acc : Q * Q * Q * Q) (h : HoldingRow) :
  let '(_, tax0, stcg0, ltcg0) := acc in
  let '(_, tax, stcg, ltcg) := soldStep acc h in
  tax0 <= tax /\ stcg0 <= stcg /\ ltcg0 <= ltcg /\
  (stcg0 <= tax0 -> stcg <= tax) /\ (ltcg0 <= tax0 -> ltcg <= tax).
Proof.
  destruct acc as [[[r0 t0] s0] l0]. unfold soldStep.
  set (profit := JS.numberOf (row_sell_price h) * inject_Z (row_quantity h)
                 - row_buy_price h * inject_Z (row_quantity h)).
  destruct (JS.gtb profit 0) eqn:Hp.
  - apply gtb_gt in Hp.
    rewrite (calculateProfitAllocation_positive profit _ Hp).
    cbn [taxType taxAmount].
    destruct (Utils.daysBetween _ _ <=? 365)%Z;
      (split; [nra|]; split; [nra|]; split; [nra|]; split; intros; nra).
  - split; [lra|]. split; [lra|]. split; [lra|]. split; intros; lra.
Qed.

Lemma soldStep_fold (sold : list HoldingRow) :
  forall acc : Q * Q * Q * Q,
    let '(_, tax0, stcg0, ltcg0) := acc in
    let '(_, tax, stcg, ltcg) := fold_left soldStep sold acc in
    tax0 <= tax /\ stcg0 <= stcg /\ ltcg0 <= ltcg /\
    (stcg0 <= tax0 -> stcg <= tax) /\ (ltcg0 <= tax0 -> ltcg <= tax).
Proof.
  induction sold as [|h l IH]; intros [[[r0 t0] s0] l0].
  - cbn. split; [lra|]. split; [lra|]. split; [lra|]. split; auto.
  - cbn [fold_left]. pose proof (soldStep_tax (r0, t0, s0, l0) h) as H1.
    cbv beta iota in H1.
    destruct (soldStep (r0, t0, s0, l0) h) as [[[r1 t1] s1] l1].
    specialize (IH (r1, t1, s1, l1)). cbv beta iota in IH.
    destruct (fold_left soldStep l _) as [[[r t] s] lt].
    destruct H1 as (H1 & H2 & H3 & H4 & H5).
    destruct IH as (I1 & I2 & I3 & I4 & I5).
    split; [lra|]. split; [lra|]. split; [lra|]. split; auto.
Qed.

(** X24. In the figures of [getPortfolioStats], for any active holdings
    and sold rows: no tax figure is negative, the short-term and the
    long-term tax are each at most the total tax paid, the net profit
    never exceeds the realised profit, and the two counts are those of
    the rows given. *)
Theorem getPortfolioStats_consistent (holdings : list Holding)
  (sold : list HoldingRow) :
  let stats := getPortfolioStats holdings sold in
  0 <= totalTaxPaid stats /\
  0 <= stcgTax stats <= totalTaxPaid stats /\
  0 <= ltcgTax stats <= totalTaxPaid stats /\
  netProfit stats <= realizedPL stats /\
  activeHoldings stats = List.length holdings /\
  soldHoldings stats = List.length sold.
Proof.
  unfold getPortfolioStats.
  pose proof (soldStep_fold sold (0, 0, 0, 0)) as Hs.
  cbv beta iota in Hs.
  destruct (fold_left activeStep holdings _) as [[i c] p].
  destruct (fold_left soldStep sold _) as [[[r t] s] l].
  destruct Hs as (Hs1 & Hs2 & Hs3 & Hs4 & Hs5). cbn.
  assert (s <= t) by (apply Hs4; lra).
  assert (l <= t) by (apply Hs5; lra).
  split; [exact Hs1|]. split; [split; assumption|].
  split; [split; assumption|]. split; [lra|]. split; reflexivity.
Qed.

(** ** Transaction history *)

Lemma transactionsOf_facts (h : HistoryRow) (t : Transaction) :
  In t (transactionsOf h) ->
  0 <= tx_tax_amount t /\ 0 <= tx_brokerage t /\
  (tx_type t = BUY ->
   tx_date t = Some (row_date_purchased (history_row h)) /\
   tx_pl t = 0 /\ tx_tax_type t = None /\
   tx_net_amount t = tx_amount t) /\
  (tx_type t = SELL_TX ->
   row_active (history_row h) = false /\
   tx_date t = row_date_sold (history_row h) /\
   (tx_tax_type t = None <-> tx_pl t <= 0) /\
   (tx_pl t <= 0 ->
    tx_net_amount t = tx_amount t /\
    tx_tax_amount t = 0 /\ tx_brokerage t = 0)).
Proof.
  unfold transactionsOf.
  set (profit := JS.numberOf (row_sell_price (history_row h))
                 * inject_Z (row_quantity (history_row h))
                 - row_buy_price (history_row h)
                   * inject_Z (row_quantity (history_row h))).
  destruct (row_active (history_row h)) eqn:Hact; cbn [negb andb].
  - intros [<-|[]]. cbn. split; [lra|]. split; [lra|].
    split; [auto | discriminate].
  - destruct (JS.truthy (row_sell_price (history_row h))).
    + intros [<-|[<-|[]]].
      * cbn. split; [lra|]. split; [lra|].
        split; [auto | discriminate].
      * cbn [tx_net_amount tx_amount tx_tax_amount tx_brokerage tx_type
             tx_date tx_pl tx_tax_type].
        destruct (Qlt_le_dec 0 profit) as [Hpos|Hle].
        -- rewrite (calculateProfitAllocation_positive profit _ Hpos).
           cbn [netAmount taxAmount brokerageAmount option_map].
           split; [destruct (Utils.daysBetween _ _ <=? 365)%Z; nra|].
           split; [nra|]. split; [discriminate|].
           intros _. split; [reflexivity|]. split; [reflexivity|].
           split; [split; [discriminate | intros; lra] | intros; lra].
        -- unfold calculateProfitAllocation.
           apply leb_le in Hle. rewrite Hle. apply leb_le in Hle.
           cbn [option_map].
           split; [lra|]. split; [lra|].
           split; [discriminate|].
           intros _. split; [reflexivity|]. split; [reflexivity|].
           split; [split; [intros _; exact Hle | reflexivity]|].
           intros _. split; [reflexivity|]. split; reflexivity.
    + intros [<-|[]]. cbn. split; [lra|]. split; [lra|].
      split; [auto | discriminate].
Qed.

Lemma transactionsOf_length (rows : list HistoryRow) :
  List.length (flat_map transactionsOf rows)
  = (List.length rows
     + List.length
         (filter (fun h => negb (row_active (history_row h))
                           && JS.truthy (row_sell_price (history_row h)))
                 rows))%nat.
Proof.
  induction rows as [|h l IH]; [reflexivity|].
  cbn [flat_map filter]. rewrite length_app, IH. unfold transactionsOf.
  destruct (negb (row_active (history_row h))
            && JS.truthy (row_sell_price (history_row h)));
    cbn [List.length]; lia.
Qed.

(** X25. The history [getTransactionHistory] returns holds one purchase
    for every row and one sale for every inactive row with a sell price,
    the latest first.  In no entry is the tax or the brokerage negative;
    a purchase carries no profit and no tax class, and its net amount is
    its amount; a sale carries the tax class exactly when it made a
    profit, and a sale without profit carries no tax and no brokerage,
    its net amount being its amount. *)
Theorem getTransactionHistory_spec (rows : list HistoryRow) :
  let history := getTransactionHistory rows in
  Permutation (flat_map transactionsOf rows) history /\
  List.length history
  = (List.length rows
     + List.length
         (filter (fun h => negb (row_active (history_row h))
                           && JS.truthy (row_sell_price (history_row h)))
                 rows))%nat /\
  StronglySorted
    (fun a b => (JS.dateOf (tx_date b) <= JS.dateOf (tx_date a))%Z) history /\
  forall t, In t history ->
    0 <= tx_tax_amount t /\ 0 <= tx_brokerage t /\
    (tx_type t = BUY ->
     tx_pl t = 0 /\ tx_tax_type t = None /\ tx_net_amount t = tx_amount t) /\
    (tx_type t = SELL_TX ->
     (tx_tax_type t = None <-> tx_pl t <= 0) /\
     (tx_pl t <= 0 ->
      tx_net_amount t = tx_amount t /\
      tx_tax_amount t = 0 /\ tx_brokerage t = 0)).
Proof.
  unfold getTransactionHistory.
  set (byDate := fun a b : Transaction =>
                   inject_Z (JS.dateOf (tx_date b) - JS.dateOf (tx_date a))).
  pose proof (sort_perm byDate (flat_map transactionsOf rows)) as Hperm.
  cbv zeta. split; [exact Hperm|]. split.
  { rewrite <- (Permutation_length Hperm). apply transactionsOf_length. }
  split.
  { apply sort_sorted.
    - intros a b c Hab Hbc. lia.
    - intros a b H. unfold byDate in H.
      change 0 with (inject_Z 0) in H. rewrite <- Zlt_Qlt in H. lia.
    - intros a b H. unfold byDate in H.
      change 0 with (inject_Z 0) in H. rewrite <- Zle_Qle in H. lia. }
  intros t Hin.
  apply (Permutation_in _ (Permutation_sym Hperm)) in Hin.
  apply in_flat_map in Hin. destruct Hin as (h & _ & Hin).
  destruct (transactionsOf_facts h t Hin) as (Ht & Hb & Hbuy & Hsell).
  split; [exact Ht|]. split; [exact Hb|].
  split.
  - intros E. destruct (Hbuy E) as (_ & Hp & Hx & Hn). auto.
  - intros E. destruct (Hsell E) as (_ & _ & Hx & Hy). auto.
Qed.

(** ** Recommendations *)

Lemma recommend_facts (heldETFIds : list string) (rank : RankRow) :
  let r := recommend heldETFIds rank in
  rec_rank r = rankrow_rank rank /\
  (isHeld r = true <-> In (rankrow_etf_id rank) heldETFIds) /\
  (recommendation r = REC_BUY
   <-> isHeld r = false /\ (rec_rank r <= 3)%Z) /\
  (priority r = HIGH <-> recommendation r = REC_BUY /\ rec_rank r = 1%Z) /\
  (recommendation r = REC_AVOID -> 5 < rec_deviation r) /\
  (rec_reason r = AlreadyInPortfolio <-> isHeld r = true).
Proof.
  unfold recommend.
  pose proof (includes_In heldETFIds (rankrow_etf_id rank)) as Hinc.
  destruct (JS.includes heldETFIds (rankrow_etf_id rank)) eqn:Eh;
    cbn [negb andb].
  - destruct (JS.gtb (rankrow_deviation rank) 5) eqn:Ed; cbn.
    + apply gtb_gt in Ed.
      split; [reflexivity|]. split; [exact Hinc|].
      split; [split; [discriminate | intros [H _]; discriminate H]|].
      split; [split; [discriminate | intros [H _]; discriminate H]|].
      split; [intros _; exact Ed|]. split; auto.
    + split; [reflexivity|]. split; [exact Hinc|].
      split; [split; [discriminate | intros [H _]; discriminate H]|].
      split; [split; [discriminate | intros [H _]; discriminate H]|].
      split; [discriminate|]. split; auto.
  - assert (Hreason : getRecommendationReason rank false
                      <> AlreadyInPortfolio).
    { unfold getRecommendationReason.
      destruct (JS.ltb (rankrow_deviation rank) (-5));
        [discriminate|].
      destruct (JS.ltb (rankrow_deviation rank) 0); [discriminate|].
      destruct (JS.gtb (rankrow_deviation rank) 5); discriminate. }
    destruct (Z.leb_spec (rankrow_rank rank) 3) as [Hle|Hgt].
    + destruct (Z.eqb_spec (rankrow_rank rank) 1) as [E1|E1]; cbn.
      * split; [reflexivity|]. split; [exact Hinc|].
        split; [split; auto|]. split; [split; auto|].
        split; [discriminate|].
        split; [intros H; contradiction | discriminate].
      * split; [reflexivity|]. split; [exact Hinc|].
        split; [split; auto|].
        split; [split; [discriminate | intros [_ H]; contradiction]|].
        split; [discriminate|].
        split; [intros H; contradiction | discriminate].
    + destruct (JS.gtb (rankrow_deviation rank) 5) eqn:Ed; cbn.
      * apply gtb_gt in Ed.
        split; [reflexivity|]. split; [exact Hinc|].
        split; [split; [discriminate | intros [_ H]; lia]|].
        split; [split; [discriminate | intros [H _]; discriminate H]|].
        split; [intros _; exact Ed|].
        split; [intros H; contradiction | discriminate].
      * split; [reflexivity|]. split; [exact Hinc|].
        split; [split; [discriminate | intros [_ H]; lia]|].
        split; [split; [discriminate | intros [H _]; discriminate H]|].
        split; [discriminate|].
        split; [intros H; contradiction | discriminate].
Qed.

(** X26. [getRecommendations] answers for the first five rankings, in their
    order, and for no more.  It says BUY exactly for an ETF that is not
    held and ranks third or better, with high priority exactly for a
    BUY of rank 1; it says AVOID only above a deviation of 5; the reason
    is 'Already in portfolio' exactly for a held ETF, and an ETF counts
    as held exactly when one of the holdings is of it. *)
Theorem getRecommendations_spec (rankings : list RankRow)
  (holdings : list Holding) :
  let recommendations := getRecommendations rankings holdings in
  List.length recommendations = Nat.min 5 (List.length rankings) /\
  map rec_rank recommendations = map rankrow_rank (firstn 5 rankings) /\
  map isHeld recommendations
  = map (fun rank =>
           existsb (fun h => String.eqb (rankrow_etf_id rank)
                                        (holding_etf_id h)) holdings)
        (firstn 5 rankings) /\
  forall r, In r recommendations ->
    (recommendation r = REC_BUY
     <-> isHeld r = false /\ (rec_rank r <= 3)%Z) /\
    (priority r = HIGH <-> recommendation r = REC_BUY /\ rec_rank r = 1%Z) /\
    (recommendation r = REC_AVOID -> 5 < rec_deviation r) /\
    (rec_reason r = AlreadyInPortfolio <-> isHeld r = true).
Proof.
  unfold getRecommendations. cbv zeta.
  split; [rewrite length_map; apply length_firstn|].
  split.
  { rewrite map_map. apply map_ext. intros rank.
    apply (recommend_facts (map holding_etf_id holdings) rank). }
  split.
  { rewrite map_map. apply map_ext. intros rank.
    unfold recommend.
    assert (E : JS.includes (map holding_etf_id holdings)
                            (rankrow_etf_id rank)
                = existsb (fun h => String.eqb (rankrow_etf_id rank)
                                               (holding_etf_id h)) holdings).
    { unfold JS.includes. induction holdings as [|h l IH];
        [reflexivity | cbn; now rewrite IH]. }
    rewrite <- E.
    destruct (negb _ && _); [reflexivity|].
    destruct (JS.gtb _ _); reflexivity. }
  intros r Hin. apply in_map_iff in Hin. destruct Hin as (rank & <- & _).
  destruct (recommend_facts (map holding_etf_id holdings) rank)
    as (_ & _ & Hbuy & Hhigh & Havoid & Hreason).
  auto.
Qed.


(** * Properties on binary64 numbers

    What the specification says of decisions that turn on a rounded
    amount, settled on the second embedding. *)

Import Binary64.
Local Open Scope float_scope.

(** ** Sell decision *)

Lemma calculatePercentageChange_formula (oldValue newValue : float) :
  (oldValue =? 0) = false ->
  calculatePercentageChange oldValue newValue
  = (newValue - oldValue) / oldValue * 100.
Proof.
  intros H. unfold calculatePercentageChange. now rewrite H.
Qed.

Lemma profitableLoop_members (config : StrategyConfig)
  (holdings : list Holding) (p : ProfitableHolding) :
  In p (profitableLoop config holdings)
  <-> In (holding p) holdings
      /\ profitPercent p
         = calculatePercentageChange (buy_price (holding p))
                                     (etfs_cmp (holding p))
      /\ gtb (profitPercent p) (profitThreshold config) = true.
Proof.
  induction holdings as [|h rest IH]; cbn [profitableLoop In].
  - tauto.
  - destruct (gtb (calculatePercentageChange (buy_price h) (etfs_cmp h))
                  (profitThreshold config)) eqn:E.
    + cbn [In]. rewrite IH. split.
      * intros [<-|(H1 & H2 & H3)]; cbn [holding profitPercent]; auto.
      * intros ([->|H1] & H2 & H3); [left | right; auto].
        destruct p as [hp pp]. cbn [holding profitPercent] in *. now subst.
    + rewrite IH. split.
      * intros (H1 & H2 & H3); auto.
      * intros ([->|H1] & H2 & H3); [|auto].
        exfalso. rewrite H2 in H3. rewrite H3 in E. discriminate E.
Qed.

(** C2. On binary64 numbers, with the constructor's threshold (6.0) and
    holdings whose buy price is not zero: [determineSellAction] returns
    null when no holding has a profit percent
    [(currentPrice - buyPrice) / buyPrice * 100], computed as the code
    computes it, above 6; otherwise it returns one SELL of a holding of
    the list whose computed profit percent is above 6 and whose purchase
    date is not before that of any other holding above 6 percent. *)
Theorem determineSellAction_latest_above_six (holdings : list Holding)
  (Hprices : forall h, In h holdings -> (buy_price h =? 0) = false) :
  ((forall h, In h holdings -> gtb (profitPercentOf h) 6 = false) ->
   determineSellAction constructorConfig holdings = None) /\
  ((exists h, In h holdings /\ gtb (profitPercentOf h) 6 = true) ->
   exists sold,
     determineSellAction constructorConfig holdings = Some (SELL sold) /\
     In (holding sold) holdings /\
     profitPercent sold = profitPercentOf (holding sold) /\
     gtb (profitPercentOf (holding sold)) 6 = true /\
     forall h, In h holdings -> gtb (profitPercentOf h) 6 = true ->
       (date_purchased h <= date_purchased (holding sold))%Z).
Proof.
  assert (Hpct : forall h, In h holdings ->
            calculatePercentageChange (buy_price h) (etfs_cmp h)
            = profitPercentOf h).
  { intros h Hh. apply calculatePercentageChange_formula, Hprices, Hh. }
  unfold determineSellAction.
  pose proof (profitableLoop_members constructorConfig holdings) as Hin.
  cbn [profitThreshold constructorConfig] in Hin.
  set (byDate := fun a b : ProfitableHolding =>
                   inject_Z (date_purchased (holding b)
                             - date_purchased (holding a))).
  destruct (profitableLoop constructorConfig holdings) as [|p0 ps] eqn:E.
  - split; [reflexivity|].
    intros (h & Hh & Hgt). exfalso.
    apply (proj2 (Hin {| holding := h;
                         profitPercent := calculatePercentageChange
                                            (buy_price h) (etfs_cmp h) |})).
    cbn [holding profitPercent]. rewrite (Hpct _ Hh). auto.
  - split.
    + intros Hnone. exfalso.
      destruct (proj1 (Hin p0) (or_introl eq_refl)) as (H1 & H2 & H3).
      rewrite H2, (Hpct _ H1), (Hnone _ H1) in H3. discriminate H3.
    + intros _.
      destruct (JS.sort byDate (p0 :: ps)) as [|sold rest] eqn:Es.
      { pose proof (Permutation_length (sort_perm byDate (p0 :: ps))) as Hl.
        rewrite Es in Hl. discriminate. }
      destruct (sort_head byDate
                  (fun a b => (date_purchased (holding b)
                               <= date_purchased (holding a))%Z)
                  ltac:(intros a b c; cbv beta; lia)
                  ltac:(intros a b H; unfold byDate in H;
                        change 0%Q with (inject_Z 0) in H;
                        rewrite <- Zlt_Qlt in H; cbv beta; lia)
                  ltac:(intros a b H; unfold byDate in H;
                        change 0%Q with (inject_Z 0) in H;
                        rewrite <- Zle_Qle in H; cbv beta; lia)
                  _ _ _ Es) as [Hsold Hmax].
      destruct (proj1 (Hin sold) Hsold) as (H1 & H2 & H3).
      exists sold. split; [reflexivity|]. split; [exact H1|].
      split; [rewrite H2; apply Hpct, H1|].
      split; [rewrite <- (Hpct _ H1), <- H2; exact H3|].
      intros h Hh Hgt.
      destruct (Hmax {| holding := h;
                        profitPercent := calculatePercentageChange
                                           (buy_price h) (etfs_cmp h) |})
        as [Heq|Hle].
      * apply Hin. cbn [holding profitPercent]. rewrite (Hpct _ Hh). auto.
      * rewrite <- Heq. cbn [holding]. lia.
      * exact Hle.
Qed.

(** Lots of January, February and March above 6 percent: the March lot
    is sold.  A lot bought at 30 and now at 31.8 is sold as well: its
    profit percent is computed a little above 6. *)
Lemma determineSellAction_latest_sample :
  (exists sold,
     determineSellAction constructorConfig sampleHoldings = Some (SELL sold)
     /\ holding_id (holding sold) = "mar"%string) /\
  (exists sold,
     determineSellAction constructorConfig
       [lot "x" 30 monday_2024_01_01 (decimal 318 10)] = Some (SELL sold)
     /\ holding_id (holding sold) = "x"%string
     /\ gtb (profitPercent sold) 6 = true).
Proof.
  split.
  - assert (Hprices : forall h, In h sampleHoldings ->
                                (buy_price h =? 0) = false).
    { intros h [<-|[<-|[<-|[<-|[]]]]]; reflexivity. }
    destruct (proj2 (determineSellAction_latest_above_six
                       sampleHoldings Hprices))
      as (sold & E & Hin & _ & Hgt & Hmax).
    { exists (lot "jan" 100 1704067200000 110).
      split; [left; reflexivity | reflexivity]. }
    exists sold. split; [exact E|].
    specialize (Hmax (lot "mar" 100 1709251200000 110)
                     (or_intror (or_introl eq_refl)) eq_refl).
    destruct Hin as [H|[H|[H|[H|[]]]]]; rewrite <- H in Hmax, Hgt |- *;
      cbn in Hmax |- *; try reflexivity; try lia.
    vm_compute in Hgt. discriminate Hgt.
  - assert (Hprices : forall h,
              In h [lot "x" 30 monday_2024_01_01 (decimal 318 10)] ->
              (buy_price h =? 0) = false).
    { intros h [<-|[]]. reflexivity. }
    destruct (proj2 (determineSellAction_latest_above_six _ Hprices))
      as (sold & E & Hin & Hp & Hgt & _).
    { eexists. split; [left; reflexivity | vm_compute; reflexivity]. }
    exists sold. split; [exact E|].
    destruct Hin as [H|[]]. rewrite <- H in Hgt, Hp |- *.
    split; [reflexivity|]. rewrite Hp. exact Hgt.
Defined.

(** ** Recording an investment *)

Lemma updateDisplay_refreshes (now : Z) (s : Budget) (c : Config) :
  config s = Some c ->
  updateDisplay now s
  = (Returned tt,
     with_config
       (Some (set_daysCompleted (tradingDaysCompleted now (startDate c)) c))
       s).
Proof.
  intros Hc. unfold updateDisplay. rewrite Hc, daysLoop_spec by lia.
  replace (Z.min (Z.min 50 _) 50)
    with (tradingDaysCompleted now (startDate c))
    by (unfold tradingDaysCompleted; lia).
  reflexivity.
Qed.

(** With 14193.88 in total and 5272.38 used, an investment of 8921.5 is
    accepted, the available amount being computed as 8921.5, and the
    used amount is then 14193.880000000001: above the total, with
    nothing reinvested. *)
Lemma recordInvestment_rounds_above_total :
  exists c',
    config tightBudget = Some tightConfig /\
    gtb (decimal 89215 10) (getAvailableAmount tightBudget) = false /\
    recordInvestment noon_2024_01_10 (decimal 89215 10) tightBudget
    = (Returned true, with_config (Some c') tightBudget) /\
    usedAmount c' = usedAmount tightConfig + decimal 89215 10 /\
    gtb (usedAmount c') (totalBudget c' + reinvestedProfit c') = true.
Proof.
  exists (set_daysCompleted 8
            (set_usedAmount (usedAmount tightConfig + decimal 89215 10)
                            tightConfig)).
  split; [reflexivity|]. split; [vm_compute; reflexivity|].
  split; [vm_compute; reflexivity|].
  split; vm_compute; reflexivity.
Qed.

(** C4, as the code has it on binary64 numbers.  On a configured budget
    the available amount is [totalBudget - usedAmount +
    reinvestedProfit] as the code computes it; [recordInvestment(amount)]
    throws the insufficient-budget error when [amount > available], and
    the object is then left as it was; otherwise it returns true and
    [usedAmount] is the rounded sum [usedAmount + amount], the total, the
    reinvested profit, the daily amount and the start date being
    untouched and the days completed brought up to date. *)
Theorem recordInvestment_guard (now : Z) (s : Budget) (c : Config)
  (amount : float) :
  config s = Some c ->
  let available := getAvailableAmount s in
  available = totalBudget c - usedAmount c + reinvestedProfit c /\
  (gtb amount available = true ->
   recordInvestment now amount s
   = (Thrown (InsufficientBudget available amount), s)) /\
  (gtb amount available = false ->
   exists c',
     recordInvestment now amount s
     = (Returned true, with_config (Some c') s) /\
     usedAmount c' = usedAmount c + amount /\
     totalBudget c' = totalBudget c /\
     reinvestedProfit c' = reinvestedProfit c /\
     dailyAmount c' = dailyAmount c /\
     startDate c' = startDate c /\
     daysCompleted c' = tradingDaysCompleted now (startDate c)).
Proof.
  intros Hc available. unfold available, recordInvestment, getAvailableAmount.
  rewrite Hc. split; [reflexivity|]. split.
  - intros E. now rewrite E.
  - intros E. rewrite E.
    erewrite updateDisplay_refreshes by reflexivity.
    eexists. split; [reflexivity|]. cbn.
    split; [reflexivity|]. split; [reflexivity|]. split; [reflexivity|].
    split; [reflexivity|]. split; reflexivity.
Qed.

(** With 8921.5 computed as available, 9000 is refused and 600 is
    recorded. *)
Lemma recordInvestment_guard_sample :
  recordInvestment noon_2024_01_10 9000 tightBudget
  = (Thrown (InsufficientBudget (getAvailableAmount tightBudget) 9000),
     tightBudget)
  /\ exists c',
       recordInvestment noon_2024_01_10 600 tightBudget
       = (Returned true, with_config (Some c') tightBudget)
       /\ usedAmount c' = usedAmount tightConfig + 600.
Proof.
  pose proof (recordInvestment_guard noon_2024_01_10 tightBudget tightConfig
                9000 eq_refl) as H9000.
  pose proof (recordInvestment_guard noon_2024_01_10 tightBudget tightConfig
                600 eq_refl) as H600.
  cbv zeta in H9000, H600. split.
  - apply (proj1 (proj2 H9000)). vm_compute. reflexivity.
  - destruct (proj2 (proj2 H600)) as (c' & E & Hused & _).
    + vm_compute. reflexivity.
    + exists c'. split; [exact E | exact Hused].
Defined.

(** ** Recommended quantity *)

(** C7. On binary64 numbers, for every configuration and every price:
    when a budget is set and its daily amount is neither zero nor NaN,
    the recommended quantity is [Math.max(1, Math.floor(dailyAmount /
    price))], the quotient rounded before the floor is taken; when the
    daily amount is zero (or NaN) or no budget is set, it is the
    configured default quantity, which the constructor sets to 1; a
    daily amount of 250 at a price of 100 gives 2. *)
Theorem calculateRecommendedQuantity_formula (strategy : StrategyConfig)
  (budgetManager : Budget) (price : float) :
  let quantity := calculateRecommendedQuantity strategy budgetManager price in
  (forall c, config budgetManager = Some c -> falsy (dailyAmount c) = false ->
     quantity = max 1 (floor (dailyAmount c / price))) /\
  (forall c, config budgetManager = Some c -> falsy (dailyAmount c) = true ->
     quantity = defaultQuantity strategy) /\
  (config budgetManager = None -> quantity = defaultQuantity strategy) /\
  defaultQuantity constructorConfig = 1 /\
  (forall c, config budgetManager = Some c ->
     dailyAmount c = 250 -> price = 100 -> quantity = 2).
Proof.
  cbv zeta. unfold calculateRecommendedQuantity, getDailyAmount.
  split; [|split; [|split; [|split]]].
  - intros c Hc Hf. rewrite Hc, Hf. cbn [orb].
    unfold falsy in Hf. apply orb_false_iff in Hf. destruct Hf as [Hz _].
    unfold is_zero in Hz. change zero with 0 in Hz. now rewrite Hz.
  - intros c Hc Hf. now rewrite Hc, Hf.
  - intros Hc. rewrite Hc. reflexivity.
  - reflexivity.
  - intros c Hc Hd Hp. rewrite Hc, Hd, Hp. vm_compute. reflexivity.
Qed.

(** A daily amount of 250 at a price of 100 gives 2; a daily amount of
    100.02 at a price of 33.34 gives 2 as well, the quotient being
    rounded just under 3; without a budget a configured default of 3 is
    the answer. *)
Lemma calculateRecommendedQuantity_formula_sample :
  calculateRecommendedQuantity constructorConfig (budgetWithDaily 250) 100
  = 2 /\
  calculateRecommendedQuantity constructorConfig
    (budgetWithDaily (decimal 10002 100)) (decimal 3334 100) = 2 /\
  calculateRecommendedQuantity (mkStrategyConfig 5 (-2.5) 6 3) noBudget 100
  = 3.
Proof.
  split; [|split].
  - destruct (calculateRecommendedQuantity_formula constructorConfig
                (budgetWithDaily 250) 100) as (_ & _ & _ & _ & H).
    exact (H _ eq_refl eq_refl eq_refl).
  - destruct (calculateRecommendedQuantity_formula constructorConfig
                (budgetWithDaily (decimal 10002 100)) (decimal 3334 100))
      as (H & _).
    rewrite (H _ eq_refl); vm_compute; reflexivity.
  - destruct (calculateRecommendedQuantity_formula
                (mkStrategyConfig 5 (-2.5) 6 3) noBudget 100)
      as (_ & _ & H & _).
    exact (H eq_refl).
Defined.

(** ** Averaging down *)

Section AveragingOnBinary64.
Variable strategy : StrategyConfig.
Variable budgetManager : Budget.
Variable rankedETFs : list RankedETF.

Lemma eligible_all_held (heldETFIds : list string) (n : nat) :
  forall a acc,
    (forall i e, (a <= i < a + n)%nat -> nth_error rankedETFs i = Some e ->
                 notHeld heldETFIds e = false) ->
    fold_left (eligibleStep strategy budgetManager rankedETFs heldETFIds)
              (seq a n) acc
    = acc.
Proof.
  induction n as [|n IH]; intros a acc Hheld; [reflexivity|].
  cbn [seq fold_left]. rewrite IH.
  - unfold eligibleStep.
    destruct (nth_error rankedETFs a) as [e|] eqn:E; [|reflexivity].
    pose proof (Hheld a e ltac:(lia) E) as Hn. unfold notHeld in Hn.
    now rewrite Hn.
  - intros i e Hi. apply Hheld. lia.
Qed.

Lemma averaging_none (holdings : list Holding) :
  averagingLoop strategy budgetManager rankedETFs holdings = None
  <-> forall h, In h holdings ->
                qualifiesForAveraging strategy rankedETFs h = false.
Proof.
  unfold qualifiesForAveraging.
  induction holdings as [|h rest IH]; cbn [averagingLoop].
  - split; [intros _ h [] | reflexivity].
  - destruct (JS.find _ rankedETFs) as [e|] eqn:Ef.
    + destruct (_ <=? _) eqn:El.
      * split; [discriminate|].
        intros H. specialize (H h (or_introl eq_refl)).
        rewrite Ef, El in H. discriminate H.
      * rewrite IH. split.
        -- intros H h' [<-|Hh']; [now rewrite Ef | apply H, Hh'].
        -- intros H h' Hh'. apply H. right. exact Hh'.
    + rewrite IH. split.
      * intros H h' [<-|Hh']; [now rewrite Ef | apply H, Hh'].
      * intros H h' Hh'. apply H. right. exact Hh'.
Qed.

Lemma averaging_some (holdings : list Holding) (decision : BuyAction) :
  averagingLoop strategy budgetManager rankedETFs holdings = Some decision ->
  exists earlier h later e,
    holdings = earlier ++ h :: later /\
    (forall h', In h' earlier ->
                qualifiesForAveraging strategy rankedETFs h' = false) /\
    JS.find (fun e => String.eqb (id e) (holding_etf_id h)) rankedETFs
    = Some e /\
    (calculatePercentageChange (buy_price h) (cmp e)
     <=? averagingLossThreshold strategy) = true /\
    decision
    = AVERAGE e (calculatePercentageChange (buy_price h) (cmp e))
              (calculateRecommendedQuantity strategy budgetManager (cmp e)).
Proof.
  induction holdings as [|h rest IH]; cbn [averagingLoop]; [discriminate|].
  assert (Hskip :
            qualifiesForAveraging strategy rankedETFs h = false ->
            averagingLoop strategy budgetManager rankedETFs rest
            = Some decision ->
            exists earlier h0 later e,
              h :: rest = earlier ++ h0 :: later /\
              (forall h', In h' earlier ->
                 qualifiesForAveraging strategy rankedETFs h' = false) /\
              JS.find (fun e => String.eqb (id e) (holding_etf_id h0))
                      rankedETFs = Some e /\
              (calculatePercentageChange (buy_price h0) (cmp e)
               <=? averagingLossThreshold strategy) = true /\
              decision
              = AVERAGE e (calculatePercentageChange (buy_price h0) (cmp e))
                        (calculateRecommendedQuantity strategy budgetManager
                                                      (cmp e))).
  { intros Hq E. destruct (IH E) as (earlier & h0 & later & e & -> & H).
    exists (h :: earlier), h0, later, e. split; [reflexivity|].
    destruct H as (Hearlier & H). split; [|exact H].
    intros h' [<-|Hh']; [exact Hq | apply Hearlier, Hh']. }
  destruct (JS.find _ rankedETFs) as [e|] eqn:Ef.
  - destruct (_ <=? _) eqn:El.
    + intros [= <-]. exists [], h, rest, e.
      split; [reflexivity|]. split; [intros h' []|].
      split; [exact Ef|]. split; [exact El | reflexivity].
    + apply Hskip. unfold qualifiesForAveraging. now rewrite Ef.
  - apply Hskip. unfold qualifiesForAveraging. now rewrite Ef.
Qed.

End AveragingOnBinary64.

(** X13. On binary64 numbers, the averaging rule of [determineBuyAction],
    reached when none of the top 5 is left to buy: the decision is
    AVERAGE for the first holding, in the order of the holdings, whose
    instrument is ranked and whose price change since the buy, as
    [calculatePercentageChange] computes it, is at or under -2.5, with
    that change and the recommended quantity for the instrument; it is
    null exactly when no holding qualifies.  A holding bought at price 0
    never qualifies. *)
Theorem determineBuyAction_averaging_rule (budgetManager : Budget)
  (rankedETFs : list RankedETF) (heldETFIds : list string)
  (holdings : list Holding) :
  filter (notHeld heldETFIds) (firstn 5 rankedETFs) = [] ->
  let decision :=
    determineBuyAction constructorConfig budgetManager rankedETFs heldETFIds
                       holdings in
  (decision = None <->
   forall h, In h holdings ->
     qualifiesForAveraging constructorConfig rankedETFs h = false) /\
  (forall action, decision = Some action ->
     exists earlier h later e,
       holdings = earlier ++ h :: later /\
       (forall h', In h' earlier ->
          qualifiesForAveraging constructorConfig rankedETFs h' = false) /\
       JS.find (fun e => String.eqb (id e) (holding_etf_id h)) rankedETFs
       = Some e /\
       (calculatePercentageChange (buy_price h) (cmp e) <=? -2.5) = true /\
       action
       = AVERAGE e (calculatePercentageChange (buy_price h) (cmp e))
           (calculateRecommendedQuantity constructorConfig budgetManager
                                         (cmp e))) /\
  (forall h, (buy_price h =? 0) = true ->
     qualifiesForAveraging constructorConfig rankedETFs h = false).
Proof.
  intros Hnone. cbv zeta. unfold determineBuyAction.
  rewrite eligible_all_held.
  - split; [apply averaging_none|]. split.
    + intros action E. apply (averaging_some _ _ _ _ _ E).
    + intros h Hz. unfold qualifiesForAveraging.
      destruct (JS.find _ rankedETFs) as [e|]; [|reflexivity].
      unfold calculatePercentageChange. rewrite Hz. reflexivity.
  - intros i e Hi E. cbn [maxRankToConsider constructorConfig] in Hi.
    assert (Hin : In e (firstn 5 rankedETFs)).
    { apply (nth_error_In _ i). rewrite nth_error_firstn.
      destruct (Nat.ltb_spec i 5); [exact E | lia]. }
    destruct (notHeld heldETFIds e) eqn:En; [|reflexivity].
    assert (Hf : In e (filter (notHeld heldETFIds) (firstn 5 rankedETFs)))
      by (apply filter_In; auto).
    rewrite Hnone in Hf. destruct Hf.
Qed.

(** With the whole top five held: the lot of "b", 10 percent under its
    buy price, is averaged; a lot bought at 26 of an instrument now at
    25.35, whose change is computed just above -2.5, is not. *)
Lemma determineBuyAction_averaging_rule_sample :
  determineBuyAction constructorConfig tightBudget sampleRanking
    ["a"; "b"; "c"; "d"; "f"]%string
    [ held "h1" "a" 100 105; held "h2" "b" 100 90 ]
  <> None /\
  determineBuyAction constructorConfig tightBudget sampleRanking
    ["a"; "b"; "c"; "d"; "f"]%string
    [ held "h1" "a" 100 105; held "h3" "c" 26 (decimal 2535 100) ]
  = None.
Proof.
  split.
  - pose proof (determineBuyAction_averaging_rule tightBudget sampleRanking
                  ["a"; "b"; "c"; "d"; "f"]%string
                  [ held "h1" "a" 100 105; held "h2" "b" 100 90 ]
                  eq_refl) as H.
    cbv zeta in H. destruct H as (Hnone & _ & _).
    intros E. apply Hnone with (h := held "h2" "b" 100 90) in E.
    + vm_compute in E. discriminate E.
    + right. left. reflexivity.
  - pose proof (determineBuyAction_averaging_rule tightBudget sampleRanking
                  ["a"; "b"; "c"; "d"; "f"]%string
                  [ held "h1" "a" 100 105;
                    held "h3" "c" 26 (decimal 2535 100) ]
                  eq_refl) as H.
    cbv zeta in H. destruct H as (Hnone & _ & _).
    apply Hnone. intros h [<-|[<-|[]]]; vm_compute; reflexivity.
Defined.

(** ** Executing and confirming a buy *)

(** Comparison the other way round, on the specification of the
    primitive comparisons. *)
Lemma SFcompare_swap (x y : spec_float) :
  SFcompare y x = option_map CompOpp (SFcompare x y).
Proof.
  destruct x as [sx|sx| |sx mx ex], y as [sy|sy| |sy my ey]; cbn;
    try reflexivity;
    try (destruct sx; reflexivity); try (destruct sy; reflexivity);
    try (destruct sx, sy; reflexivity).
  change (Pos.compare_cont Eq my mx) with (Pos.compare my mx).
  change (Pos.compare_cont Eq mx my) with (Pos.compare mx my).
  rewrite (Z.compare_antisym ex ey), (Pos.compare_antisym mx my).
  destruct sx, sy; cbn; try reflexivity;
    destruct (ex ?= ey)%Z; cbn; try reflexivity.
Qed.

(** Of two numbers, neither NaN, the first is at most the second when it
    is not above it. *)
Lemma not_above_at_most (a b : float) :
  is_nan a = false -> is_nan b = false -> gtb a b = false ->
  (a <=? b) = true.
Proof.
  unfold gtb, is_nan. rewrite ltb_spec, leb_spec, !FloatAxioms.eqb_spec.
  unfold SFeqb, SFltb, SFleb.
  rewrite (SFcompare_swap (Prim2SF a) (Prim2SF b)).
  intros Ha Hb.
  assert (Hc : exists c, SFcompare (Prim2SF a) (Prim2SF b) = Some c).
  { destruct (Prim2SF a) as [sa|sa| |sa ma ea];
      destruct (Prim2SF b) as [sb|sb| |sb mb eb];
      try discriminate Ha; try discriminate Hb; cbn; eauto. }
  destruct Hc as [c ->]. cbn. destruct c; cbn; try discriminate; reflexivity.
Qed.

Lemma recordInvestment_accepts (now : Z) (s : Budget) (c : Config)
  (amount : float) :
  config s = Some c -> gtb amount (getAvailableAmount s) = false ->
  recordInvestment now amount s
  = (Returned true,
     with_config
       (Some (set_daysCompleted (tradingDaysCompleted now (startDate c))
                (set_usedAmount (usedAmount c + amount) c)))
       s).
Proof.
  intros Hc E. unfold recordInvestment. rewrite Hc, E.
  erewrite updateDisplay_refreshes by reflexivity. reflexivity.
Qed.

Lemma recordInvestment_refuses (now : Z) (s : Budget) (c : Config)
  (amount : float) :
  config s = Some c -> gtb amount (getAvailableAmount s) = true ->
  recordInvestment now amount s
  = (Thrown (InsufficientBudget (getAvailableAmount s) amount), s).
Proof.
  intros Hc E. unfold recordInvestment. now rewrite Hc, E.
Qed.

(** X17. On binary64 numbers and a configured budget, whatever
    [executeBuyAction] is asked to buy: when it returns, the amount it
    reports is the price times the quantity it reports and was not above
    the available amount as computed before, the row with that quantity
    is appended to the holdings and the used amount is the rounded sum
    of the used amount and the amount; when it throws, the budget is as
    it was, and the holdings are as they were except in one case: the
    store took the row of the quantity settled on and the budget manager
    then found its amount above the available amount.  Then the call
    throws the insufficient-budget error and the row stays. *)
Theorem executeBuyAction_outcomes (now : Z) (e : RankedETF)
  (quantity : float) (w : World) (c : Config) :
  config (budgetManager w) = Some c ->
  let available := getAvailableAmount (budgetManager w) in
  exists outcome settled w',
    executeBuyAction now e quantity w = (outcome, settled, w') /\
    (forall result, outcome = inr result ->
       buy_success result = true /\
       buy_quantity result = settled /\
       buy_amount result = cmp e * settled /\
       gtb (buy_amount result) available = false /\
       holdingsTable w' = holdingsTable w ++ [boughtRow now w e settled] /\
       exists c',
         config (budgetManager w') = Some c' /\
         usedAmount c' = usedAmount c + buy_amount result /\
         totalBudget c' = totalBudget c /\
         reinvestedProfit c' = reinvestedProfit c) /\
    (forall failure, outcome = inl failure ->
       budgetManager w' = budgetManager w /\
       (w' = w \/
        failure = BudgetFailure (InsufficientBudget available
                                                    (cmp e * settled)) /\
        storeAccepts w = true /\
        gtb (cmp e * settled) available = true /\
        holdingsTable w' = holdingsTable w ++ [boughtRow now w e settled])).
Proof.
  intros Hc available. unfold executeBuyAction.
  destruct (fittingQuantity (budgetManager w) (cmp e) quantity)
    as [fitting|].
  - destruct (storeAccepts w) eqn:Hok.
    + cbn [budgetManager with_holdingsTable].
      destruct (gtb (cmp e * fitting) (getAvailableAmount (budgetManager w)))
        eqn:Eg.
      * rewrite (recordInvestment_refuses now _ c _ Hc Eg).
        eexists. eexists. eexists. split; [reflexivity|].
        split; [discriminate|].
        intros failure [= <-]. split; [reflexivity|]. right.
        split; [reflexivity|]. split; [reflexivity|].
        split; [exact Eg | reflexivity].
      * rewrite (recordInvestment_accepts now _ c _ Hc Eg).
        eexists. eexists. eexists. split; [reflexivity|].
        split; [|discriminate].
        intros result [= <-]. cbn.
        split; [reflexivity|]. split; [reflexivity|]. split; [reflexivity|].
        split; [exact Eg|]. split; [reflexivity|].
        eexists. split; [reflexivity|]. cbn.
        split; [reflexivity|]. split; reflexivity.
    + eexists. eexists. eexists. split; [reflexivity|].
      split; [discriminate|].
      intros failure _. split; [reflexivity | left; reflexivity].
  - eexists. eexists. eexists. split; [reflexivity|].
    split; [discriminate|].
    intros failure _. split; [reflexivity | left; reflexivity].
Qed.

(** With 11791.409999999998 available, 74 units at 170.89 are cut down
    to 69, whose amount is computed as 11791.41: the row is inserted and
    the insufficient-budget error is thrown. *)
Lemma executeBuyAction_outcomes_sample :
  exists failure w',
    executeBuyAction noon_2024_01_10 instrument17089 74 narrowWorld
    = (inl failure, 69, w') /\
    budgetManager w' = narrowBudget /\
    map row_quantity (holdingsTable w') = [69].
Proof.
  destruct (executeBuyAction_outcomes noon_2024_01_10 instrument17089 74
              narrowWorld _ eq_refl)
    as (outcome & settled & w' & E & _ & Hfail).
  assert (E' : exists failure,
             executeBuyAction noon_2024_01_10 instrument17089 74 narrowWorld
             = (inl failure, 69,
                with_holdingsTable
                  [boughtRow noon_2024_01_10 narrowWorld instrument17089 69]
                  narrowWorld))
    by (eexists; vm_compute; reflexivity).
  destruct E' as [failure E']. rewrite E' in E.
  injection E as <- <- <-.
  destruct (Hfail failure eq_refl) as [Hb _].
  exists failure. eexists. split; [exact E'|]. split; [exact Hb|].
  reflexivity.
Defined.

Lemma showBuyConfirmation_stores (e : RankedETF) (quantity fitting : float)
  (w : World) :
  fittingQuantity (budgetManager w) (cmp e) quantity = Some fitting ->
  showBuyConfirmation e quantity w
  = with_pendingBuyAction
      (Some {| pending_etf := e;
               pending_quantity := fitting;
               pending_amount := cmp e * fitting |})
      w.
Proof.
  intros E. unfold showBuyConfirmation. now rewrite E.
Qed.

(** X19. On binary64 numbers: a pending buy whose amount is the price
    times its quantity, as [showBuyConfirmation] stores it, neither the
    amount nor the available amount being NaN, on a configured budget.
    [confirmBuyAction] refuses it when the amount is above the available
    amount, and nothing changes; otherwise it executes it as it stands:
    when the store takes the row, exactly the pending quantity is bought
    for exactly the pending amount, the row is appended, the used amount
    is the rounded sum of the used amount and the amount, and the
    pending buy is cleared; when the store rejects the row, nothing
    changes.  A confirmed buy is never cut down and never leaves a row
    without its investment recorded. *)
Theorem confirmBuyAction_executes_pending (now : Z) (w : World)
  (p : PendingBuy) (c : Config) :
  pendingBuyAction w = Some p ->
  pending_amount p = cmp (pending_etf p) * pending_quantity p ->
  config (budgetManager w) = Some c ->
  is_nan (pending_amount p) = false ->
  is_nan (getAvailableAmount (budgetManager w)) = false ->
  let available := getAvailableAmount (budgetManager w) in
  (gtb (pending_amount p) available = true ->
   confirmBuyAction now w
   = (InsufficientForPending available (pending_amount p), w)) /\
  (gtb (pending_amount p) available = false -> storeAccepts w = false ->
   confirmBuyAction now w = (PurchaseFailed StoreRejected, w)) /\
  (gtb (pending_amount p) available = false -> storeAccepts w = true ->
   exists result w' c',
     confirmBuyAction now w = (Purchased result, w') /\
     buy_quantity result = pending_quantity p /\
     buy_amount result = pending_amount p /\
     holdingsTable w'
     = holdingsTable w
         ++ [boughtRow now w (pending_etf p) (pending_quantity p)] /\
     config (budgetManager w') = Some c' /\
     usedAmount c' = usedAmount c + pending_amount p /\
     totalBudget c' = totalBudget c /\
     reinvestedProfit c' = reinvestedProfit c /\
     pendingBuyAction w' = None).
Proof.
  intros Hp Hamount Hc Hna Hnb available.
  unfold confirmBuyAction. rewrite Hp. fold available.
  split; [intros E; now rewrite E|].
  assert (Hfit : gtb (pending_amount p) available = false ->
                 fittingQuantity (budgetManager w) (cmp (pending_etf p))
                                 (pending_quantity p)
                 = Some (pending_quantity p)).
  { intros E. unfold fittingQuantity, checkSufficientBudget.
    cbn [sufficient]. rewrite <- Hamount.
    now rewrite (not_above_at_most _ _ Hna Hnb E). }
  split.
  - intros E Hok. rewrite E. unfold executeBuyAction.
    rewrite (Hfit E), Hok. f_equal.
    destruct w as [b t ok i pending]. cbn in Hp |- *. rewrite Hp.
    destruct p. reflexivity.
  - intros E Hok. rewrite E. unfold executeBuyAction.
    rewrite (Hfit E), Hok. cbn [budgetManager with_holdingsTable].
    rewrite <- Hamount.
    rewrite (recordInvestment_accepts now _ c _ Hc E).
    eexists. eexists. eexists. split; [reflexivity|]. cbn.
    split; [reflexivity|]. split; [reflexivity|]. split; [reflexivity|].
    split; [reflexivity|]. cbn.
    split; [reflexivity|]. split; [reflexivity|]. split; reflexivity.
Qed.

(** Twenty units at 97 asked for with 1000 available: ten are shown for
    confirmation, and ten are bought for 970 when the buy is
    confirmed. *)
Lemma confirmBuyAction_executes_pending_sample :
  exists result w',
    confirmBuyAction noon_2024_01_10
      (showBuyConfirmation instrument97 20 thousandLeft)
    = (Purchased result, w') /\
    buy_quantity result = 10 /\ buy_amount result = 970 /\
    List.length (holdingsTable w') = 1%nat.
Proof.
  assert (Hshown : showBuyConfirmation instrument97 20 thousandLeft
                   = with_pendingBuyAction
                       (Some {| pending_etf := instrument97;
                                pending_quantity := 10;
                                pending_amount := cmp instrument97 * 10 |})
                       thousandLeft).
  { apply showBuyConfirmation_stores. vm_compute. reflexivity. }
  rewrite Hshown.
  pose proof (confirmBuyAction_executes_pending noon_2024_01_10
                (with_pendingBuyAction
                   (Some {| pending_etf := instrument97;
                            pending_quantity := 10;
                            pending_amount := cmp instrument97 * 10 |})
                   thousandLeft)
                {| pending_etf := instrument97;
                   pending_quantity := 10;
                   pending_amount := cmp instrument97 * 10 |}
                _ eq_refl eq_refl eq_refl) as H.
  cbv zeta in H. destruct H as (_ & _ & H);
    [vm_compute; reflexivity | vm_compute; reflexivity |].
  destruct H as (result & w' & c' & E & Hq & Ha & Ht & _);
    [vm_compute; reflexivity | reflexivity |].
  exists result, w'. split; [exact E|]. split; [exact Hq|].
  split; [rewrite Ha; vm_compute; reflexivity|].
  rewrite Ht. reflexivity.
Defined.
